(** * mincbot: agent behaviour and task orchestrator

    A shallow embedding of the two JavaScript classes that carry the state
    of the system:

    - [BotProperties] (the per-agent behaviour state machine: goal
      management, survival checks, resource progression, follow, chat);
    - [CommandProcessor] in [bots/all_bots.js] (admin set, command gate,
      natural-language tasks, weighted progress aggregation), together
      with the periodic tick handler installed by [createBot].

    JavaScript numbers that can become [NaN] (task progress) are IEEE 754
    binary64 values, modelled by Rocq's primitive floats.  Item counts,
    timestamps and block coordinates are integers in the game client and
    are modelled as [Z]; the wood-equivalent count adds quarters of
    integers, which binary64 represents exactly, and is modelled in [Q]. *)

From Stdlib Require Import Floats ZArith QArith Lia List Ascii String.
From stdpp Require Import gmap strings list pretty.

Set Warnings "-inexact-float".
Local Open Scope Z_scope.

(** ** JavaScript built-ins used by the code *)

Module JS.

(** [String.prototype.includes]. *)
Definition includes (s pat : string) : bool :=
  match String.index 0 pat s with Some _ => true | None => false end.

(** [String.prototype.endsWith]. *)
Definition endsWith (s suffix : string) : bool :=
  let n := String.length s in
  let k := String.length suffix in
  if (k <=? n)%nat then String.eqb (String.substring (n - k) k s) suffix
  else false.

(** [String.prototype.startsWith]. *)
Definition startsWith (s pre : string) : bool := String.prefix pre s.

(** [Array.prototype.includes] on an array of strings. *)
Definition array_includes (l : list string) (x : string) : bool :=
  existsb (String.eqb x) l.

(** [Math.min] of two numbers (ECMAScript: a [NaN] operand gives [NaN],
    and [-0] is smaller than [+0]). *)
Definition Math_min (a b : float) : float :=
  if (PrimFloat.is_nan a || PrimFloat.is_nan b)%bool then nan
  else if (a <? b)%float then a
  else if (a =? b)%float then (if PrimFloat.get_sign a then a else b)
  else b.

(** [xs.reduce((a, b) => a + b, 0)]: a left fold from [0]. *)
Definition sum (xs : list float) : float :=
  fold_left PrimFloat.add xs 0%float.

(** Number of entries, as a JavaScript number ([Map.prototype.size]). *)
Fixpoint size_of {A} (xs : list A) : float :=
  match xs with
  | [] => 0%float
  | _ :: xs' => (size_of xs' + 1)%float
  end.

(** An insertion-ordered [Map] with string keys: [set] overwrites the
    value of an existing key in place and appends a new key. *)
Fixpoint map_set {V} (k : string) (v : V) (m : list (string * V))
  : list (string * V) :=
  match m with
  | [] => [(k, v)]
  | (k', v') :: m' =>
      if String.eqb k k' then (k, v) :: m' else (k', v') :: map_set k v m'
  end.

Definition map_values {V} (m : list (string * V)) : list V := map snd m.

(** Whether an object reference is set (neither [null] nor [undefined]). *)
Definition truthy {A} (o : option A) : bool :=
match o with Some _ => true | None => false end.

End JS.

(** A position ([{x, y, z}]); block positions have integer coordinates. *)
Module Vec3.
Record t := { x : Z; y : Z; z : Z }.
#[global] Instance eq_dec : EqDecision t.
Proof. solve_decision. Defined.
End Vec3.

(** ** The task orchestrator ([CommandProcessor], bots/all_bots.js) *)

Module Orchestrator.

(** The value stored per admin in [adminPermissions]. *)
Module AdminPermission.
Record t := { level : string; permissions : list string;
                addedBy : string; addedAt : Z }.
End AdminPermission.

(** An entry of [this.commands] (loaded from action_commands.json, which
    is not part of the sources; only [admin_only] is ever read). *)
Module Command.
Record t := { admin_only : bool }.
End Command.

(** The object produced by [analyzeCommand] (not part of the sources);
    the fields are the ones the tracking code reads. *)
Module Analysis.
Record t := {
    step_by_step_plan : list string;
    (** [execution_plan.required_resources.materials] *)
    materials : list (string * float);
    (** [execution_plan.coordinate_plan.distance] *)
    coordinate_plan_distance : float;
    (** [execution_plan.estimated_time] *)
    estimated_time : float }.
End Analysis.

Module ParsedCommand.
Record t := {
    bots : list string;
    (** [{type: category, action: keyword}] or [null] *)
    action : option (string * string);
    (** [parameters.item], [parameters.quantity] *)
    item : option string;
    quantity : option string;
    location : option string;
    originalCommand : string }.
End ParsedCommand.

(** An entry of [taskProgress]. *)
Module Progress.
Record t := {
    overall : float;
    steps : list float;
    bots : list (string * float);
    resources : list (string * float);
    coordinates : list (string * float) }.
End Progress.

(** An entry of [activeTasks].  [parameters] is kept as its two fields.
  The fields [progress], [botProgress], [resourceProgress] and
  [coordinateProgress] are written once and never read; they are left
  out. *)
Module TaskInfo.
Record t := {
    command : string;
    startTime : Z;
    bots : list string;
    action : option (string * string);
    item : option string;
    quantity : option string;
    location : option string;
    analysis : Analysis.t;
    status : string;
    currentStep : float;
    totalSteps : float;
    (** the handle returned by [setInterval], while it is registered *)
    progressInterval : option Z;
    lastUpdate : Z }.

Definition set_status (s : string) (ti : t) : t :=
    {| command := command ti; startTime := startTime ti; bots := bots ti;
       action := action ti; item := item ti; quantity := quantity ti;
       location := location ti; analysis := analysis ti; status := s;
       currentStep := currentStep ti; totalSteps := totalSteps ti;
       progressInterval := progressInterval ti; lastUpdate := lastUpdate ti |}.

Definition set_currentStep (c : float) (ti : t) : t :=
    {| command := command ti; startTime := startTime ti; bots := bots ti;
       action := action ti; item := item ti; quantity := quantity ti;
       location := location ti; analysis := analysis ti; status := status ti;
       currentStep := c; totalSteps := totalSteps ti;
       progressInterval := progressInterval ti; lastUpdate := lastUpdate ti |}.

Definition set_progressInterval (i : option Z) (ti : t) : t :=
    {| command := command ti; startTime := startTime ti; bots := bots ti;
       action := action ti; item := item ti; quantity := quantity ti;
       location := location ti; analysis := analysis ti; status := status ti;
       currentStep := currentStep ti; totalSteps := totalSteps ti;
       progressInterval := i; lastUpdate := lastUpdate ti |}.
End TaskInfo.

(** An entry of a task's update history ([storeProgressUpdate]). *)
Module Update.
Record t := {
    timestamp : Z;
    progress : float;
    botProgress : list (string * float);
    resourceProgress : list (string * float);
    coordinateProgress : list (string * float) }.
End Update.

(** What the orchestrator writes to the outside: console lines, chat
    requests to a bot, goals handed to a bot's pathfinder, timers, and
    the progress snapshots it sends.  [BotAction a bot] records that the
    handler of the action [a] ran for the bot. *)
Inductive Output :=
| ConsoleLog (line : string)
| ConsoleError (line : string)
| BotChat (bot : string) (message : string)
| BotAction (action : string) (bot : string)
| BotSetGoal (bot : string) (goal : Vec3.t)
| BotStatus (bot : string)
| SetInterval (handle : Z)
| ClearInterval (handle : Z)
| ProgressUpdate (taskId : string) (status : string) (overall : float).

Record CommandProcessor := {
  commands : gmap string Command.t;
  (** the keys of [this.bots], in insertion order *)
  bots : list string;
  teams : gmap string (gset string);
  savedLocations : gmap string (Vec3.t * string * Z);
  admins : gset string;
  adminPermissions : gmap string AdminPermission.t;
  (** [Object.entries(this.commandCategories)] *)
  commandCategories : list (string * list string);
  (** [this.commandParameters.items / .quantities / .locations] *)
  parameter_items : list string;
  parameter_quantities : list string;
  parameter_locations : list string;
  activeTasks : gmap string TaskInfo.t;
  taskProgress : gmap string Progress.t;
  taskUpdates : gmap string (list Update.t);
  output : list Output }.

Definition set_admins (a : gset string) (p : gmap string AdminPermission.t)
    (c : CommandProcessor) : CommandProcessor :=
  {| commands := commands c; bots := bots c; teams := teams c;
     savedLocations := savedLocations c; admins := a; adminPermissions := p;
     commandCategories := commandCategories c;
     parameter_items := parameter_items c;
     parameter_quantities := parameter_quantities c;
     parameter_locations := parameter_locations c;
     activeTasks := activeTasks c; taskProgress := taskProgress c;
     taskUpdates := taskUpdates c; output := output c |}.

Definition set_teams (t : gmap string (gset string))
    (c : CommandProcessor) : CommandProcessor :=
  {| commands := commands c; bots := bots c; teams := t;
     savedLocations := savedLocations c; admins := admins c;
     adminPermissions := adminPermissions c;
     commandCategories := commandCategories c;
     parameter_items := parameter_items c;
     parameter_quantities := parameter_quantities c;
     parameter_locations := parameter_locations c;
     activeTasks := activeTasks c; taskProgress := taskProgress c;
     taskUpdates := taskUpdates c; output := output c |}.

Definition set_savedLocations (l : gmap string (Vec3.t * string * Z))
    (c : CommandProcessor) : CommandProcessor :=
  {| commands := commands c; bots := bots c; teams := teams c;
     savedLocations := l; admins := admins c;
     adminPermissions := adminPermissions c;
     commandCategories := commandCategories c;
     parameter_items := parameter_items c;
     parameter_quantities := parameter_quantities c;
     parameter_locations := parameter_locations c;
     activeTasks := activeTasks c; taskProgress := taskProgress c;
     taskUpdates := taskUpdates c; output := output c |}.

Definition set_tasks (a : gmap string TaskInfo.t)
    (p : gmap string Progress.t) (u : gmap string (list Update.t))
    (c : CommandProcessor) : CommandProcessor :=
  {| commands := commands c; bots := bots c; teams := teams c;
     savedLocations := savedLocations c; admins := admins c;
     adminPermissions := adminPermissions c;
     commandCategories := commandCategories c;
     parameter_items := parameter_items c;
     parameter_quantities := parameter_quantities c;
     parameter_locations := parameter_locations c;
     activeTasks := a; taskProgress := p; taskUpdates := u;
     output := output c |}.

(** Appends one line to what has been written so far. *)
Definition emit (o : Output) (c : CommandProcessor) : CommandProcessor :=
  {| commands := commands c; bots := bots c; teams := teams c;
     savedLocations := savedLocations c; admins := admins c;
     adminPermissions := adminPermissions c;
     commandCategories := commandCategories c;
     parameter_items := parameter_items c;
     parameter_quantities := parameter_quantities c;
     parameter_locations := parameter_locations c;
     activeTasks := activeTasks c; taskProgress := taskProgress c;
     taskUpdates := taskUpdates c; output := output c ++ [o] |}.

(** *** Admin management *)

(** [initializeAdminPermissions]: the entry written for the super admin. *)
Definition super_admin_permissions (now : Z) : AdminPermission.t :=
  {| AdminPermission.level := "super_admin";
     AdminPermission.permissions :=
       ["all_commands"; "manage_admins"; "manage_bots"; "manage_teams";
        "teleport_anywhere"; "override_limits"];
     AdminPermission.addedBy := "system";
     AdminPermission.addedAt := now |}.

(** The constructor: every map is empty, [admins] holds the super admin.
    The tables read from configuration are arguments. *)
Definition constructor (cmds : gmap string Command.t)
    (categories : list (string * list string))
    (items quantities locations : list string) (now : Z)
  : CommandProcessor :=
  {| commands := cmds; bots := []; teams := ∅; savedLocations := ∅;
     admins := {["CodeDevPro"]};
     adminPermissions := {["CodeDevPro" := super_admin_permissions now]};
     commandCategories := categories;
     parameter_items := items; parameter_quantities := quantities;
     parameter_locations := locations;
     activeTasks := ∅; taskProgress := ∅; taskUpdates := ∅; output := [] |}.

Definition isAdmin (c : CommandProcessor) (username : string) : bool :=
  bool_decide (username ∈ admins c).

Definition addAdmin (now : Z) (adminName : string) (c : CommandProcessor)
  : bool * CommandProcessor :=
  if bool_decide (adminName ∈ admins c) then
    (false, emit (ConsoleLog ("Admin " +:+ adminName +:+ " already exists")) c)
  else
    let perm :=
      {| AdminPermission.level := "admin";
         AdminPermission.permissions :=
           ["basic_commands"; "manage_bots"; "manage_teams"];
         AdminPermission.addedBy := "CodeDevPro";
         AdminPermission.addedAt := now |} in
    (true,
     emit (ConsoleLog ("Added new admin: " +:+ adminName))
       (set_admins ({[adminName]} ∪ admins c)
                   (<[adminName := perm]> (adminPermissions c)) c)).

Definition removeAdmin (adminName : string) (c : CommandProcessor)
  : bool * CommandProcessor :=
  if String.eqb adminName "CodeDevPro" then
    (false, emit (ConsoleLog "Cannot remove super admin CodeDevPro") c)
  else
    (true,
     emit (ConsoleLog ("Removed admin: " +:+ adminName))
       (set_admins (admins c ∖ {[adminName]})
                   (delete adminName (adminPermissions c)) c)).

(** [getAdminPermissions]: the stored entry, [null] when there is none. *)
Definition getAdminPermissions (adminName : string) (c : CommandProcessor)
  : option AdminPermission.t * CommandProcessor :=
  match adminPermissions c !! adminName with
  | None => (None, emit (ConsoleLog ("No permissions found for " +:+ adminName)) c)
  | Some permissions =>
      (Some permissions,
       emit (ConsoleLog ("Permissions for " +:+ adminName +:+ ":")) c)
  end.

(** The object [getAdminStatus] returns. *)
Module AdminStatus.
Record t := { isAdmin : bool; permissions : option AdminPermission.t;
              level : string }.
End AdminStatus.

(** [getAdminStatus]: [level] is [permissions?.level || 'user']. *)
Definition getAdminStatus (adminName : string) (c : CommandProcessor)
  : AdminStatus.t * CommandProcessor :=
  let permissions := adminPermissions c !! adminName in
  ({| AdminStatus.isAdmin := bool_decide (adminName ∈ admins c);
      AdminStatus.permissions := permissions;
      AdminStatus.level :=
        match permissions with
        | Some p =>
            match AdminPermission.level p with
            | EmptyString => "user"
            | l => l
            end
        | None => "user"
        end |},
   emit (ConsoleLog ("Status for " +:+ adminName +:+ ":")) c).

Definition hasPermission (c : CommandProcessor) (username permission : string)
  : bool :=
  match adminPermissions c !! username with
  | None => false
  | Some userPermissions =>
      if JS.array_includes (AdminPermission.permissions userPermissions)
                           "all_commands"
      then true
      else JS.array_includes (AdminPermission.permissions userPermissions)
                             permission
  end.

(** *** Team management *)

Definition addToTeam (botName targetBot : string) (c : CommandProcessor)
  : CommandProcessor :=
  let members := default ∅ (teams c !! botName) in
  emit (ConsoleLog ("[" +:+ botName +:+ "] Added " +:+ targetBot +:+ " to team"))
    (set_teams (<[botName := {[targetBot]} ∪ members]> (teams c)) c).

Definition removeFromTeam (botName targetBot : string)
    (c : CommandProcessor) : CommandProcessor :=
  match teams c !! botName with
  | Some members =>
      emit (ConsoleLog ("[" +:+ botName +:+ "] Removed " +:+ targetBot
                        +:+ " from team"))
        (set_teams (<[botName := members ∖ {[targetBot]}]> (teams c)) c)
  | None => c
  end.

Definition listTeam (botName : string) (c : CommandProcessor)
  : CommandProcessor :=
  match teams c !! botName with
  | Some _ => emit (ConsoleLog ("[" +:+ botName +:+ "] Team members:")) c
  | None => c
  end.


(** What [listTeam] returns: the members of the bot's team, none when the
    bot has no team. *)
Definition listTeam_members (botName : string) (c : CommandProcessor)
  : gset string :=
  default ∅ (teams c !! botName).

(** *** The structured command path *)

(** The argument of [processCommand]. [params] is kept as the fields the
    handlers read. *)
Module CommandData.
Record t := {
  type : string; action : string; target : string; username : string;
  (** [params.message] *)
  message : string;
  (** [params.botName], [params.targetBot] *)
  botName : string; targetBot : string;
  (** [params.command], [params.admin_name] *)
  command : string; admin_name : string;
  (** [params.location_name] *)
  location_name : string;
  (** [params.x], [params.y], [params.z] *)
  coordinates : Vec3.t }.
End CommandData.

(** What the world reports while a command runs: the clock, the
    position of a bot's entity, and how building a goal and handing it
    to a bot's pathfinder end ([None]: the call returns, [Some message]:
    it raises).  The name [pathfinder] is bound to the [plugin] export
    of the pathfinder library; whether it has [goals] is the library's
    matter. *)
Record Env := {
  Date_now : Z;
  (** [bot.entity.position]; the bots of [this.bots] are taken to have
      an entity *)
  position_of : string -> Vec3.t;
  (** [new pathfinder.goals.GoalBlock(x, y, z)] *)
  GoalBlock_raises : option string;
  (** [bot.pathfinder.setGoal(goal)], for the bot of that name *)
  setGoal_raises : string -> option string }.

(** The text [(${x}, ${y}, ${z})] of the log lines. *)
Definition point_text (p : Vec3.t) : string :=
  "(" +:+ pretty (Vec3.x p) +:+ ", " +:+ pretty (Vec3.y p) +:+ ", "
  +:+ pretty (Vec3.z p) +:+ ")".

Definition handleMessage (d : CommandData.t) (c : CommandProcessor)
  : CommandProcessor :=
  if String.eqb (CommandData.target d) "all" then
    fold_left (fun c b => emit (BotChat b (CommandData.message d)) c) (bots c) c
  else if bool_decide (CommandData.target d ∈ bots c) then
    emit (BotChat (CommandData.target d) (CommandData.message d)) c
  else c.

(** [handleSaveLocation]; the result is the value it returns. *)
Definition handleSaveLocation (e : Env) (bot : string) (d : CommandData.t)
    (c : CommandProcessor) : bool * CommandProcessor :=
  let position := position_of e bot in
  (true,
   emit (ConsoleLog ("[" +:+ bot +:+ "] Saved location '"
                     +:+ CommandData.location_name d +:+ "' at "
                     +:+ point_text position))
     (set_savedLocations
        (<[CommandData.location_name d := (position, bot, Date_now e)]>
           (savedLocations c)) c)).

(** [handleGoto], with [x], [y], [z] of its [params] as [p].  Whatever
    building the goal or handing it to the pathfinder raises is caught:
    the handler writes an error line and returns [false]. *)
Definition handleGoto (e : Env) (bot : string) (p : Vec3.t)
    (c : CommandProcessor) : bool * CommandProcessor :=
  let failed := ConsoleError ("[" +:+ bot +:+ "] Goto failed:") in
  match GoalBlock_raises e with
  | Some _ => (false, emit failed c)
  | None =>
      let c1 := emit (BotSetGoal bot p) c in
      match setGoal_raises e bot with
      | Some _ => (false, emit failed c1)
      | None =>
          (true,
           emit (ConsoleLog ("[" +:+ bot +:+ "] Moving to " +:+ point_text p)) c1)
      end
  end.

Definition handleGotoLocation (e : Env) (bot : string) (d : CommandData.t)
    (c : CommandProcessor) : bool * CommandProcessor :=
  match savedLocations c !! CommandData.location_name d with
  | None =>
      (false,
       emit (ConsoleError ("[" +:+ bot +:+ "] Location '"
               +:+ CommandData.location_name d +:+ "' not found")) c)
  | Some (position, _, _) => handleGoto e bot position c
  end.

(** [handleAction]: what the handlers return is dropped.  The handlers
    of [mine], [build], [collect], [teleport] and [follow_coords] leave
    the orchestrator's tables alone; a call of one of them is recorded
    as one [BotAction], in place of the lines it writes and of what it
    asks of the bot. *)
Definition handleAction (e : Env) (d : CommandData.t) (c : CommandProcessor)
  : CommandProcessor :=
  let bot := CommandData.target d in
  if negb (bool_decide (bot ∈ bots c)) then c
  else
    let a := CommandData.action d in
    if JS.array_includes ["mine"; "build"; "collect"; "teleport"; "follow_coords"] a
    then emit (BotAction a bot) c
    else if String.eqb a "goto" then
      snd (handleGoto e bot (CommandData.coordinates d) c)
    else if String.eqb a "save_location" then snd (handleSaveLocation e bot d c)
    else if String.eqb a "goto_location" then snd (handleGotoLocation e bot d c)
    else c.

Definition handleStatus (d : CommandData.t) (c : CommandProcessor)
  : CommandProcessor :=
  if String.eqb (CommandData.target d) "all" then
    fold_left (fun c b => emit (BotStatus b) c) (bots c) c
  else if bool_decide (CommandData.target d ∈ bots c) then
    emit (BotStatus (CommandData.target d)) c
  else c.

Definition handleTeam (d : CommandData.t) (c : CommandProcessor)
  : CommandProcessor :=
  let a := CommandData.action d in
  if String.eqb a "add" then
    addToTeam (CommandData.botName d) (CommandData.targetBot d) c
  else if String.eqb a "remove" then
    removeFromTeam (CommandData.botName d) (CommandData.targetBot d) c
  else if String.eqb a "list" then listTeam (CommandData.botName d) c
  else c.

Definition handleAdminCommand (e : Env) (d : CommandData.t)
    (c : CommandProcessor) : CommandProcessor :=
  let k := CommandData.command d in
  let n := CommandData.admin_name d in
  if String.eqb k "list" then emit (ConsoleLog "Current Admins:") c
  else if String.eqb k "add" then snd (addAdmin (Date_now e) n c)
  else if String.eqb k "remove" then snd (removeAdmin n c)
  else if String.eqb k "permissions" then
    match adminPermissions c !! n with
    | None => emit (ConsoleLog ("No permissions found for " +:+ n)) c
    | Some _ => emit (ConsoleLog ("Permissions for " +:+ n +:+ ":")) c
    end
  else if String.eqb k "status" then
    emit (ConsoleLog ("Status for " +:+ n +:+ ":")) c
  else emit (ConsoleError ("Unknown admin command: " +:+ k)) c.

(** [command?.admin_only && !this.isAdmin(username)] *)
Definition admin_gate (d : CommandData.t) (c : CommandProcessor) : bool :=
  match commands c !! CommandData.action d with
  | Some cmd => Command.admin_only cmd && negb (isAdmin c (CommandData.username d))
  | None => false
  end.

(** [processCommand]: the result is [Some false] for the explicit
    [return false], [None] for falling off the end ([undefined]). *)
Definition processCommand (e : Env) (d : CommandData.t) (c : CommandProcessor)
  : option bool * CommandProcessor :=
  if admin_gate d c then
    (Some false,
     emit (ConsoleError ("User " +:+ CommandData.username d
             +:+ " is not authorized to use admin command: "
             +:+ CommandData.action d)) c)
  else
    let t := CommandData.type d in
    (None,
     if String.eqb t "message" then handleMessage d c
     else if String.eqb t "action" then handleAction e d c
     else if String.eqb t "status" then handleStatus d c
     else if String.eqb t "team" then handleTeam d c
     else if String.eqb t "admin" then handleAdminCommand e d c
     else emit (ConsoleError ("Unknown command type: " +:+ t)) c).

(** *** The natural-language path: intent extraction *)

(** [String.prototype.toLowerCase], on the ASCII letters. *)
Definition lower_char (ch : Ascii.ascii) : Ascii.ascii :=
  let n := Ascii.nat_of_ascii ch in
  if ((65 <=? n) && (n <=? 90))%nat then Ascii.ascii_of_nat (n + 32) else ch.

Fixpoint toLowerCase (s : string) : string :=
  match s with
  | String ch s' => String (lower_char ch) (toLowerCase s')
  | EmptyString => EmptyString
  end.

Definition is_digit (ch : Ascii.ascii) : bool :=
  let n := Ascii.nat_of_ascii ch in ((48 <=? n) && (n <=? 57))%nat.

(** The class [\s], on the ASCII range. *)
Definition is_space (ch : Ascii.ascii) : bool :=
  let n := Ascii.nat_of_ascii ch in ((n =? 32) || ((9 <=? n) && (n <=? 13)))%nat.

Fixpoint skip_spaces (s : string) : string :=
  match s with
  | String ch s' => if is_space ch then skip_spaces s' else s
  | EmptyString => s
  end.

(** The longest prefix of digits, and what follows it. *)
Fixpoint take_digits (s : string) : string * string :=
  match s with
  | String ch s' =>
      if is_digit ch then
        let '(d, r) := take_digits s' in (String ch d, r)
      else (EmptyString, s)
  | EmptyString => (EmptyString, s)
  end.

(** [\s*(\d+)] at the start of [s]: the captured digits and the rest. *)
Definition spaces_then_digits (s : string) : option (string * string) :=
  match take_digits (skip_spaces s) with
  | (EmptyString, _) => None
  | (d, r) => Some (d, r)
  end.

(** One attempt of [/(?:bot|bots?)\s*(\d+)/i] at the start of [s]; with
    the flag [i] the letters match in either case. *)
Definition match_bot_at (s : string) : option (string * string) :=
  if String.eqb (toLowerCase (String.substring 0 3 s)) "bot" then
    let s1 := String.substring 3 (String.length s - 3) s in
    match spaces_then_digits s1 with
    | Some r => Some r
    | None =>
        match s1 with
        | String ch s2 =>
            if Ascii.eqb (lower_char ch) "s" then spaces_then_digits s2
            else None
        | EmptyString => None
        end
    end
  else None.

(** [command.matchAll(botRegex)], keeping capture group 1 of each match;
    [fuel] bounds the number of positions tried. *)
Fixpoint matchAll_bot (fuel : nat) (s : string) : list string :=
  match fuel with
  | O => []
  | S fuel' =>
      match match_bot_at s with
      | Some (d, r) => d :: matchAll_bot fuel' r
      | None =>
          match s with
          | String _ s' => matchAll_bot fuel' s'
          | EmptyString => []
          end
      end
  end.

Definition extractBotNames (c : CommandProcessor) (command : string)
  : list string :=
  let matches := matchAll_bot (S (String.length command)) command in
  if JS.includes command "all bots" then bots c
  else map (fun d => "Bot" +:+ d) matches.

(** The first keyword of the first category that occurs in the text. *)
Fixpoint extractAction_in (command category : string) (actions : list string)
  : option (string * string) :=
  match actions with
  | [] => None
  | a :: rest =>
      if JS.includes command a then Some (category, a)
      else extractAction_in command category rest
  end.

Fixpoint extractAction_from (command : string)
    (categories : list (string * list string)) : option (string * string) :=
  match categories with
  | [] => None
  | (category, actions) :: rest =>
      match extractAction_in command category actions with
      | Some r => Some r
      | None => extractAction_from command rest
      end
  end.

Definition extractAction (c : CommandProcessor) (command : string)
  : option (string * string) :=
  extractAction_from command (commandCategories c).

(** The loops of [extractParameters] overwrite the field at every
    vocabulary word found, so the last one found is kept. *)
Definition last_included (command : string) (vocabulary : list string)
  : option string :=
  fold_left (fun acc w => if JS.includes command w then Some w else acc)
            vocabulary None.

Definition extractLocation (c : CommandProcessor) (command : string)
  : option string :=
  find (fun l => JS.includes command l) (parameter_locations c).

Definition parseNaturalCommand (c : CommandProcessor) (command : string)
  : ParsedCommand.t :=
  let commandLower := toLowerCase command in
  {| ParsedCommand.bots := extractBotNames c commandLower;
     ParsedCommand.action := extractAction c commandLower;
     ParsedCommand.item := last_included commandLower (parameter_items c);
     ParsedCommand.quantity := last_included commandLower (parameter_quantities c);
     ParsedCommand.location := extractLocation c commandLower;
     ParsedCommand.originalCommand := command |}.

(** *** Task tracking and progress aggregation *)

Definition initializeTaskTracking (now : Z) (taskId : string)
    (parsedCommand : ParsedCommand.t) (analysis : Analysis.t)
    (c : CommandProcessor) : CommandProcessor :=
  let n := JS.size_of (Analysis.step_by_step_plan analysis) in
  let taskInfo :=
    {| TaskInfo.command := ParsedCommand.originalCommand parsedCommand;
       TaskInfo.startTime := now;
       TaskInfo.bots := ParsedCommand.bots parsedCommand;
       TaskInfo.action := ParsedCommand.action parsedCommand;
       TaskInfo.item := ParsedCommand.item parsedCommand;
       TaskInfo.quantity := ParsedCommand.quantity parsedCommand;
       TaskInfo.location := ParsedCommand.location parsedCommand;
       TaskInfo.analysis := analysis;
       TaskInfo.status := "initialized";
       TaskInfo.currentStep := 0%float;
       TaskInfo.totalSteps := n;
       TaskInfo.progressInterval := None;
       TaskInfo.lastUpdate := now |} in
  let progress :=
    {| Progress.overall := 0%float;
       Progress.steps := map (fun _ => 0%float) (Analysis.step_by_step_plan analysis);
       Progress.bots :=
         fold_left (fun m b => JS.map_set b 0%float m)
                   (ParsedCommand.bots parsedCommand) [];
       Progress.resources := [];
       Progress.coordinates := [] |} in
  set_tasks (<[taskId := taskInfo]> (activeTasks c))
            (<[taskId := progress]> (taskProgress c))
            (<[taskId := []]> (taskUpdates c)) c.

(** What one progress update polls from the agents and the world.  The
    three helpers it goes through ([calculateBotProgress],
    [getCurrentResourceCount], [calculateDistance] of the current
    location) are not part of the sources; their results are given here. *)
Record Poll := {
  poll_now : Z;
  calculateBotProgress : string -> float;
  getCurrentResourceCount : string -> float;
  calculateDistance : float }.

Definition getBotProgress (p : Poll) (c : CommandProcessor) (bot : string)
  : float :=
  if negb (bool_decide (bot ∈ bots c)) then 0%float
  else calculateBotProgress p bot.

Definition getResourceProgress (p : Poll) (taskInfo : TaskInfo.t)
  : list (string * float) :=
  fold_left
    (fun progress '(resource, required) =>
       let current := getCurrentResourceCount p resource in
       let percentage := (current / required * 100)%float in
       JS.map_set resource (JS.Math_min percentage 100%float) progress)
    (Analysis.materials (TaskInfo.analysis taskInfo)) [].

Definition getCoordinateProgress (p : Poll) (taskInfo : TaskInfo.t)
  : list (string * float) :=
  match TaskInfo.location taskInfo with
  | Some (String _ _) =>
      let distance := calculateDistance p in
      let totalDistance :=
        Analysis.coordinate_plan_distance (TaskInfo.analysis taskInfo) in
      let percentage :=
        ((totalDistance - distance) / totalDistance * 100)%float in
      JS.map_set "travel" (JS.Math_min percentage 100%float) []
  | _ => []
  end.

(** The mean of one dimension: the sum of the values over the size. *)
Definition dimension_progress (m : list (string * float)) : float :=
  (JS.sum (JS.map_values m) / JS.size_of m)%float.

Definition calculateOverallProgress (progress : Progress.t) : float :=
  let overall := 0%float in
  let botProgress := dimension_progress (Progress.bots progress) in
  let overall := (overall + botProgress * 0.4)%float in
  let resourceProgress := dimension_progress (Progress.resources progress) in
  let overall := (overall + resourceProgress * 0.3)%float in
  let coordinateProgress := dimension_progress (Progress.coordinates progress) in
  let overall := (overall + coordinateProgress * 0.3)%float in
  JS.Math_min overall 100%float.

Definition sendProgressUpdate (taskId : string) (c : CommandProcessor)
  : CommandProcessor :=
  match activeTasks c !! taskId, taskProgress c !! taskId with
  | Some taskInfo, Some progress =>
      emit (ProgressUpdate taskId (TaskInfo.status taskInfo)
              (Progress.overall progress)) c
  | _, _ => c
  end.

Definition storeProgressUpdate (now : Z) (taskId : string)
    (progress : Progress.t) (c : CommandProcessor) : option CommandProcessor :=
  match taskUpdates c !! taskId with
  | Some history =>
      let update :=
        {| Update.timestamp := now;
           Update.progress := Progress.overall progress;
           Update.botProgress := Progress.bots progress;
           Update.resourceProgress := Progress.resources progress;
           Update.coordinateProgress := Progress.coordinates progress |} in
      Some (set_tasks (activeTasks c) (taskProgress c)
              (<[taskId := history ++ [update]]> (taskUpdates c)) c)
  | None => None
  end.

(** [updateProgress]: the body run by the one-second interval.  With no
    task under [taskId] the first property read raises and nothing is
    written; with no history under [taskId] the raise comes after the
    progress entry has been rewritten. *)
Definition updateProgress (p : Poll) (taskId : string) (c : CommandProcessor)
  : CommandProcessor :=
  match activeTasks c !! taskId, taskProgress c !! taskId with
  | Some taskInfo, Some progress =>
      let bots' :=
        fold_left (fun m bot => JS.map_set bot (getBotProgress p c bot) m)
                  (TaskInfo.bots taskInfo) (Progress.bots progress) in
      let progress1 :=
        {| Progress.overall := Progress.overall progress;
           Progress.steps := Progress.steps progress;
           Progress.bots := bots';
           Progress.resources := getResourceProgress p taskInfo;
           Progress.coordinates := getCoordinateProgress p taskInfo |} in
      let progress2 :=
        {| Progress.overall := calculateOverallProgress progress1;
           Progress.steps := Progress.steps progress1;
           Progress.bots := Progress.bots progress1;
           Progress.resources := Progress.resources progress1;
           Progress.coordinates := Progress.coordinates progress1 |} in
      let taskInfo' :=
        if ((TaskInfo.currentStep taskInfo + 1)
              * (100 / TaskInfo.totalSteps taskInfo)
            <=? Progress.overall progress2)%float
        then TaskInfo.set_currentStep (TaskInfo.currentStep taskInfo + 1)%float
               taskInfo
        else taskInfo in
      let c1 := set_tasks (<[taskId := taskInfo']> (activeTasks c))
                          (<[taskId := progress2]> (taskProgress c))
                          (taskUpdates c) c in
      match storeProgressUpdate (poll_now p) taskId progress2 c1 with
      | Some c2 => sendProgressUpdate taskId c2
      | None => c1
      end
  | _, _ => c
  end.

(** [startProgressTracking]: [None] when there is no task under [taskId]
    (the timer is registered, then storing its handle raises). *)
Definition startProgressTracking (handle : Z) (taskId : string)
    (c : CommandProcessor) : option CommandProcessor :=
  match activeTasks c !! taskId with
  | Some taskInfo =>
      Some (emit (SetInterval handle)
        (set_tasks
           (<[taskId := TaskInfo.set_progressInterval (Some handle) taskInfo]>
              (activeTasks c))
           (taskProgress c) (taskUpdates c) c))
  | None => None
  end.

Definition set_overall (v : float) (p : Progress.t) : Progress.t :=
  {| Progress.overall := v; Progress.steps := Progress.steps p;
     Progress.bots := Progress.bots p;
     Progress.resources := Progress.resources p;
     Progress.coordinates := Progress.coordinates p |}.

Definition updateTaskStatus (taskId status : string) (progress : float)
    (c : CommandProcessor) : CommandProcessor :=
  match activeTasks c !! taskId, taskProgress c !! taskId with
  | Some taskInfo, Some p =>
      let c1 :=
        set_tasks (<[taskId := TaskInfo.set_status status taskInfo]> (activeTasks c))
                  (<[taskId := set_overall progress p]> (taskProgress c))
                  (taskUpdates c) c in
      let c2 :=
        match TaskInfo.progressInterval taskInfo with
        | Some h => emit (ClearInterval h) c1
        | None => c1
        end in
      sendProgressUpdate taskId c2
  | _, _ => c
  end.

(** How [executeParsedCommand] (not part of the sources) ends. *)
Inductive Outcome := Returned (result : string) | Threw (error : string).

(** What the world supplies to one run of [processNaturalCommand]: the
    clock, the result of [analyzeCommand], the generated task id, the
    timer handle, the polls of the interval firings that happen while the
    command executes, and how the execution ends. *)
Record Run := {
  run_now : Z;
  analyzeCommand : ParsedCommand.t -> Analysis.t;
  generateTaskId : string;
  interval_handle : Z;
  interval_polls : list Poll;
  executeParsedCommand : ParsedCommand.t -> string -> Outcome }.

Definition executeWithProgressTracking (r : Run)
    (parsedCommand : ParsedCommand.t) (username taskId : string)
    (c : CommandProcessor) : Outcome * CommandProcessor :=
  match startProgressTracking (interval_handle r) taskId c with
  | None =>
      (Threw "TypeError", emit (SetInterval (interval_handle r)) c)
  | Some c1 =>
      let c2 := fold_left (fun c p => updateProgress p taskId c)
                          (interval_polls r) c1 in
      match executeParsedCommand r parsedCommand username with
      | Returned result =>
          (Returned result, updateTaskStatus taskId "completed" 100%float c2)
      | Threw error =>
          (Threw error,
           match taskProgress c2 !! taskId with
           | Some p => updateTaskStatus taskId "failed" (Progress.overall p) c2
           | None => c2
           end)
      end
  end.

(** [sendCommandAnalysis] is not part of the sources; it is passed the
    analysis and the task id only and is taken to write one line. *)
Definition processNaturalCommand (r : Run) (command username : string)
    (c : CommandProcessor) : Outcome * CommandProcessor :=
  let c0 := emit (ConsoleLog ("Processing natural command: " +:+ command
                              +:+ " from " +:+ username)) c in
  let parsedCommand := parseNaturalCommand c0 command in
  let analysis := analyzeCommand r parsedCommand in
  let taskId := generateTaskId r in
  let c1 := initializeTaskTracking (run_now r) taskId parsedCommand analysis c0 in
  let c2 := emit (ConsoleLog ("Command analysis: " +:+ taskId)) c1 in
  executeWithProgressTracking r parsedCommand username taskId c2.

End Orchestrator.

(** ** The agent ([BotProperties]) and its tick *)

Module Agent.

(** *** The world client ([mineflayerBot]) *)

(** An inventory stack.  The numeric item type is identified with the
    item name (the game data maps one to the other). *)
Module Item.
Record t := { name : string; count : Z }.
End Item.

Module Block.
Record t := { name : string; position : Vec3.t }.
#[global] Instance eq_dec : EqDecision t.
Proof. solve_decision. Defined.
End Block.

Module Recipe.
Record t := { result : string; ingredients : list string }.
End Recipe.

(** The [matching] argument of [findBlock]: a block id, or the predicate
    [block => woodItems.includes(block.name)]. *)
Inductive Matching := MatchId (name : string) | MatchWoodItems.

(** The classes of pathfinder goals the agent constructs. *)
Inductive GoalClass := GoalNear | GoalGetToBlock | GoalFollow.

#[global] Instance GoalClass_eq_dec : EqDecision GoalClass.
Proof. solve_decision. Defined.

(** A goal object: its class ([goal.constructor]), the [destination]
    property the agent reads ([None] when the object has none; the goal
    classes of the pathfinder library store their target as [x], [y],
    [z] and define no [destination]), the target position, the followed
    entity of a [GoalFollow], and the range. *)
Module Goal.
Record t := {
  constructor : GoalClass;
  destination : option Vec3.t;
  (** [x], [y], [z] *)
  position : option Vec3.t;
  entity : option string;
  range : Z }.
#[global] Instance eq_dec : EqDecision t.
Proof. solve_decision. Defined.
End Goal.

Definition new_GoalGetToBlock (p : Vec3.t) : Goal.t :=
  {| Goal.constructor := GoalGetToBlock; Goal.destination := None;
     Goal.position := Some p; Goal.entity := None; Goal.range := 0 |}.

Definition new_GoalNear (p : Vec3.t) (range : Z) : Goal.t :=
  {| Goal.constructor := GoalNear; Goal.destination := None;
     Goal.position := Some p; Goal.entity := None; Goal.range := range |}.

Definition new_GoalFollow (entity : string) (range : Z) : Goal.t :=
  {| Goal.constructor := GoalFollow; Goal.destination := None;
     Goal.position := None; Goal.entity := Some entity; Goal.range := range |}.

(** What the world client answers during one activation: the observable
    state of the bot and of the world around it, the clock and the random
    source, and how each primitive action ends ([None]: it succeeds,
    [Some message]: it raises or rejects with that message). *)
Module World.
Record t := {
  (** [mineflayerBot.entity] is set *)
  entity : bool;
  health : Z;
  food : Z;
  saturation : Q;
  (** [inventory.items()] *)
  items : list Item.t;
  heldItem : option string;
  (** [armor[0..3]] *)
  armor : list (option string);
  isDay : bool;
  isSleeping : bool;
  (** [findBlock({matching, maxDistance})] *)
  findBlock : Matching -> Z -> option Block.t;
  blockAt : Vec3.t -> option Block.t;
  canDigBlock : Block.t -> bool;
  recipesFor : string -> list Recipe.t;
  (** [entity.position.distanceTo(p)] *)
  distanceTo : Vec3.t -> Q;
  (** the position of a peer's entity, when the peer has one *)
  peer_entity : string -> option Vec3.t;
  Date_now : Z;
  Math_random : Q;
  equip : option string;
  consume : option string;
  sleep : option string;
  dig : option string;
  craft : Recipe.t -> option string;
  tossStack : option string;
  pathfinder_stop : option string;
  pathfinder_setGoal : option string }.
End World.

(** [inventory.findInventoryItem(id)]: the first stack of that item. *)
Definition findInventoryItem (w : World.t) (id : string) : option Item.t :=
  find (fun it => String.eqb (Item.name it) id) (World.items w).

(** The requests the agent sends to the world client and the lines it
    writes with [console.error], in order.  A chat request carries the
    time at which it is sent. *)
Inductive Call :=
| Chat (time : Z) (message : string)
| PathfinderStop
| PathfinderSetGoal (goal : Goal.t)
| Equip (item : string)
| Consume
| Sleep (bed : Block.t)
| Dig (block : Block.t)
| Craft (recipe : Recipe.t) (count : Z) (craftingTable : option Block.t)
| WaitForTicks (ticks : Z)
| TossStack (item : string)
| ConsoleError (message : string)
| UnhandledRejection (message : string).

(** *** The agent's own state *)

Inductive State :=
| idle | gathering_wood | placing_crafting_table | crafting_crafting_table
| crafting_tools | moving_to_crafting_table | moving_to_sleep | sleeping
| following | mining | exploring.

#[global] Instance State_eq_dec : EqDecision State.
Proof. solve_decision. Defined.

Module Equipment.
Record t := { hand : option string; head : option string;
              torso : option string; legs : option string;
              feet : option string }.
End Equipment.

Record BotProperties := {
  name : string;
  state : State;
  inventory : gmap string Z;
  health : Z;
  food : Z;
  saturation : Q;
  equipment : Equipment.t;
  lastChatTime : Z;
  chatCooldown : Z;
  requiredWoodCount : Z;
  hasCraftingTable : bool;
  needsBasicResources : bool;
  canEat : bool;
  canSleep : bool;
  (** the name of the followed peer *)
  targetBotToFollow : option string;
  followDistance : Z;
  currentGoal : option Goal.t }.

(** The constructor's initial values. *)
Definition new_BotProperties (name : string) : BotProperties :=
  {| name := name; state := idle; inventory := ∅;
     health := 20; food := 20; saturation := 5;
     equipment := {| Equipment.hand := None; Equipment.head := None;
                     Equipment.torso := None; Equipment.legs := None;
                     Equipment.feet := None |};
     lastChatTime := 0; chatCooldown := 5000;
     requiredWoodCount := 20; hasCraftingTable := false;
     needsBasicResources := true; canEat := true; canSleep := true;
     targetBotToFollow := None; followDistance := 5;
     currentGoal := None |}.

(** Field assignments ([this.f = v]). *)
Definition set_state (v : State) (b : BotProperties) : BotProperties :=
  {| name := name b; state := v; inventory := inventory b;
     health := health b; food := food b; saturation := saturation b;
     equipment := equipment b; lastChatTime := lastChatTime b;
     chatCooldown := chatCooldown b;
     requiredWoodCount := requiredWoodCount b;
     hasCraftingTable := hasCraftingTable b;
     needsBasicResources := needsBasicResources b;
     canEat := canEat b; canSleep := canSleep b;
     targetBotToFollow := targetBotToFollow b;
     followDistance := followDistance b; currentGoal := currentGoal b |}.

Definition set_currentGoal (v : option Goal.t) (b : BotProperties)
  : BotProperties :=
  {| name := name b; state := state b; inventory := inventory b;
     health := health b; food := food b; saturation := saturation b;
     equipment := equipment b; lastChatTime := lastChatTime b;
     chatCooldown := chatCooldown b;
     requiredWoodCount := requiredWoodCount b;
     hasCraftingTable := hasCraftingTable b;
     needsBasicResources := needsBasicResources b;
     canEat := canEat b; canSleep := canSleep b;
     targetBotToFollow := targetBotToFollow b;
     followDistance := followDistance b; currentGoal := v |}.

Definition set_lastChatTime (v : Z) (b : BotProperties) : BotProperties :=
  {| name := name b; state := state b; inventory := inventory b;
     health := health b; food := food b; saturation := saturation b;
     equipment := equipment b; lastChatTime := v;
     chatCooldown := chatCooldown b;
     requiredWoodCount := requiredWoodCount b;
     hasCraftingTable := hasCraftingTable b;
     needsBasicResources := needsBasicResources b;
     canEat := canEat b; canSleep := canSleep b;
     targetBotToFollow := targetBotToFollow b;
     followDistance := followDistance b; currentGoal := currentGoal b |}.

Definition set_hasCraftingTable (v : bool) (b : BotProperties)
  : BotProperties :=
  {| name := name b; state := state b; inventory := inventory b;
     health := health b; food := food b; saturation := saturation b;
     equipment := equipment b; lastChatTime := lastChatTime b;
     chatCooldown := chatCooldown b;
     requiredWoodCount := requiredWoodCount b;
     hasCraftingTable := v;
     needsBasicResources := needsBasicResources b;
     canEat := canEat b; canSleep := canSleep b;
     targetBotToFollow := targetBotToFollow b;
     followDistance := followDistance b; currentGoal := currentGoal b |}.

Definition set_needsBasicResources (v : bool) (b : BotProperties)
  : BotProperties :=
  {| name := name b; state := state b; inventory := inventory b;
     health := health b; food := food b; saturation := saturation b;
     equipment := equipment b; lastChatTime := lastChatTime b;
     chatCooldown := chatCooldown b;
     requiredWoodCount := requiredWoodCount b;
     hasCraftingTable := hasCraftingTable b;
     needsBasicResources := v;
     canEat := canEat b; canSleep := canSleep b;
     targetBotToFollow := targetBotToFollow b;
     followDistance := followDistance b; currentGoal := currentGoal b |}.

Definition set_targetBotToFollow (v : option string) (b : BotProperties)
  : BotProperties :=
  {| name := name b; state := state b; inventory := inventory b;
     health := health b; food := food b; saturation := saturation b;
     equipment := equipment b; lastChatTime := lastChatTime b;
     chatCooldown := chatCooldown b;
     requiredWoodCount := requiredWoodCount b;
     hasCraftingTable := hasCraftingTable b;
     needsBasicResources := needsBasicResources b;
     canEat := canEat b; canSleep := canSleep b;
     targetBotToFollow := v;
     followDistance := followDistance b; currentGoal := currentGoal b |}.

(** The first assignments of [update]: vitals, the inventory summed per
    item name, and the equipment, all read from the world client. *)
Definition refresh (w : World.t) (b : BotProperties) : BotProperties :=
  {| name := name b; state := state b;
     inventory :=
       fold_left
         (fun inv it =>
            <[Item.name it := default 0 (inv !! Item.name it) + Item.count it]> inv)
         (World.items w) ∅;
     health := World.health w; food := World.food w;
     saturation := World.saturation w;
     equipment :=
       {| Equipment.hand := World.heldItem w;
          Equipment.head := mjoin (World.armor w !! 3%nat);
          Equipment.torso := mjoin (World.armor w !! 2%nat);
          Equipment.legs := mjoin (World.armor w !! 1%nat);
          Equipment.feet := mjoin (World.armor w !! 0%nat) |};
     lastChatTime := lastChatTime b; chatCooldown := chatCooldown b;
     requiredWoodCount := requiredWoodCount b;
     hasCraftingTable := hasCraftingTable b;
     needsBasicResources := needsBasicResources b;
     canEat := canEat b; canSleep := canSleep b;
     targetBotToFollow := targetBotToFollow b;
     followDistance := followDistance b; currentGoal := currentGoal b |}.

(** *** Control flow: state, exceptions, awaited and detached calls *)

(** The agent together with the part of the world client that its own
    requests change (the pathfinder's active goal) and the requests sent
    so far. *)
Record Machine := {
  self : BotProperties;
  pathfinder_goal : option Goal.t;
  calls : list Call }.

(** How a piece of code ends: normally, by raising, or beyond the
    re-evaluations for which world answers were supplied. *)
Inductive Completion (A : Type) :=
| Normal (a : A)
| Throw (message : string)
| Unfinished.
Arguments Normal {A} a.
Arguments Throw {A} message.
Arguments Unfinished {A}.

Definition M (A : Type) : Type := Machine -> Completion A * Machine.

Definition ret {A} (a : A) : M A := fun m => (Normal a, m).

Definition bind {A B} (c : M A) (k : A -> M B) : M B :=
  fun m =>
    match c m with
    | (Normal a, m') => k a m'
    | (Throw e, m') => (Throw e, m')
    | (Unfinished, m') => (Unfinished, m')
    end.

#[global] Instance M_ret : MRet M := @ret.
#[global] Instance M_bind : MBind M := fun A B k c => bind c k.

Definition throw {A} (e : string) : M A := fun m => (Throw e, m).

Definition unfinished {A} : M A := fun m => (Unfinished, m).

(** [try { c } catch (e) { h e }] *)
Definition try_catch {A} (c : M A) (h : string -> M A) : M A :=
  fun m =>
    match c m with
    | (Throw e, m') => h e m'
    | r => r
    end.

Definition get {A} (f : BotProperties -> A) : M A :=
  fun m => (Normal (f (self m)), m).

Definition modify (f : BotProperties -> BotProperties) : M unit :=
  fun m => (Normal tt,
            {| self := f (self m); pathfinder_goal := pathfinder_goal m;
               calls := calls m |}).

Definition get_pathfinder_goal : M (option Goal.t) :=
  fun m => (Normal (pathfinder_goal m), m).

Definition set_pathfinder_goal (g : option Goal.t) : M unit :=
  fun m => (Normal tt,
            {| self := self m; pathfinder_goal := g; calls := calls m |}).

(** Sends one request to the world client. *)
Definition call (c : Call) : M unit :=
  fun m => (Normal tt,
            {| self := self m; pathfinder_goal := pathfinder_goal m;
               calls := calls m ++ [c] |}).

(** [await primitive(...)]: the request is sent and the caller continues
    with the settled result, raising when the primitive rejects. *)
Definition await (c : Call) (outcome : option string) : M unit :=
  call c;;
  match outcome with
  | Some e => throw e
  | None => mret tt
  end.

(** A call of an [async] method whose promise is dropped (no [await], no
    [catch]): the caller never sees how it ends.  The callee is run up to
    its end before the caller continues. *)
Definition detached (c : M unit) : M unit :=
  fun m =>
    match c m with
    | (Normal _, m') => (Normal tt, m')
    | (Throw e, m') =>
        (Normal tt, {| self := self m'; pathfinder_goal := pathfinder_goal m';
                       calls := calls m' ++ [UnhandledRejection e] |})
    | (Unfinished, m') => (Normal tt, m')
    end.

Definition when (b : bool) (c : M unit) : M unit :=
  if b then c else mret tt.

(** *** Chat *)

(** [mineflayerBot.chat(message)] *)
Definition mineflayerBot_chat (w : World.t) (message : string) : M unit :=
  call (Chat (World.Date_now w) message).

(** [chat]: the cooldown-gated wrapper. *)
Definition chat (w : World.t) (message : string) : M unit :=
  last ← get lastChatTime;
  cooldown ← get chatCooldown;
  if cooldown <? World.Date_now w - last then
    mineflayerBot_chat w message;;
    modify (set_lastChatTime (World.Date_now w))
  else mret tt.

(** [give]: [targetBot] is the name of the receiving peer when the
    argument and its world client are set.  The callback of [tossStack]
    is run with the error the world reports. *)
Definition give (w : World.t) (itemName : string) (targetBot : option string)
  : M unit :=
  match targetBot with
  | None => mret tt
  | Some target =>
      match findInventoryItem w itemName with
      | Some item =>
          call (TossStack itemName);;
          match World.tossStack w with
          | Some err =>
              mineflayerBot_chat w ("Error giving " +:+ itemName +:+ ": " +:+ err);;
              call (ConsoleError (itemName +:+ ": " +:+ err))
          | None =>
              mineflayerBot_chat w ("Giving " +:+ itemName +:+ " to " +:+ target +:+ "!")
          end
      | None => mineflayerBot_chat w ("I don't have " +:+ itemName +:+ ".")
      end
  end.

Definition help (w : World.t) : M unit :=
  mineflayerBot_chat w
    "Commands: tp <target>, give <item> <target>, chat <msg>, status, follow <botName>, unfollow".

Definition announceFinding (w : World.t) (itemName : string) (count : Z)
  : M unit :=
  last ← get lastChatTime;
  cooldown ← get chatCooldown;
  if (cooldown <? World.Date_now w - last) && (0 <? count) then
    needs ← get needsBasicResources;
    if negb (JS.array_includes ["dirt"; "cobblestone"; "stone"] itemName) || needs
    then
      chat w ("Found " +:+ pretty count +:+ " x " +:+ itemName +:+ "!");;
      modify (set_lastChatTime (World.Date_now w))
    else mret tt
  else mret tt.

(** *** Navigation goals *)

(** The test that opens [setGoal]: both goals are set, they have the same
    constructor, and their [destination] properties serialize to the same
    JSON text.  Serialization is one-to-one on integer triples, and two
    absent destinations both serialize to [undefined]. *)
Definition same_goal (cur goal : option Goal.t) : bool :=
  match cur, goal with
  | Some c, Some g =>
      bool_decide (Goal.constructor c = Goal.constructor g)
      && bool_decide (Goal.destination c = Goal.destination g)
  | _, _ => false
  end.

(** [pathfinder.stop()]: asks the pathfinder to stop.  The call itself
    leaves the pathfinder's goal in place; the pathfinder gives it up on
    its own later, after the activation. *)
Definition pathfinder_stop (w : World.t) : M unit :=
  call PathfinderStop;;
  match World.pathfinder_stop w with
  | Some e => throw e
  | None => mret tt
  end.

(** [pathfinder.setGoal(goal)]: makes [goal] the active goal. *)
Definition pathfinder_setGoal (w : World.t) (goal : Goal.t) : M unit :=
  call (PathfinderSetGoal goal);;
  match World.pathfinder_setGoal w with
  | Some e => throw e
  | None => set_pathfinder_goal (Some goal)
  end.

Definition setGoal (w : World.t) (goal : option Goal.t) : M unit :=
  cur ← get currentGoal;
  if same_goal cur goal then mret tt
  else
    active ← get_pathfinder_goal;
    when (JS.truthy active) (pathfinder_stop w);;
    modify (set_currentGoal goal);;
    match goal with
    | Some g =>
        try_catch (pathfinder_setGoal w g)
          (fun e =>
             call (ConsoleError ("Error setting pathfinder goal: " +:+ e));;
             modify (set_currentGoal None);;
             modify (set_state idle))
    | None => mret tt
    end.

(** *** Survival *)

Definition needsToEat (b : BotProperties) : bool :=
  (food b <? 20) || Qle_bool (saturation b) 0.

Definition foodItems : list string :=
  ["cooked_beef"; "cooked_porkchop"; "cooked_chicken"; "cooked_mutton";
   "cooked_rabbit"; "cooked_salmon"; "cooked_cod"; "bread"; "carrot";
   "baked_potato"; "apple"; "golden_apple"; "enchanted_golden_apple";
   "melon_slice"; "sweet_berries"; "dried_kelp"; "mushroom_stew";
   "beetroot_soup"; "rabbit_stew"].

Definition findFood (w : World.t) : option Item.t :=
  find (fun it => JS.array_includes foodItems (Item.name it) && (0 <? Item.count it))
       (World.items w).

(** [Math.random() < p] *)
Definition random_below (w : World.t) (p : Q) : bool :=
  negb (Qle_bool p (World.Math_random w)).

Definition handleEating (w : World.t) : M unit :=
  can ← get canEat;
  needs ← get needsToEat;
  if negb can || negb needs then mret tt
  else
    match findFood w with
    | Some food =>
        try_catch
          (match findInventoryItem w (Item.name food) with
           | Some item =>
               await (Equip (Item.name item)) (World.equip w);;
               await Consume (World.consume w);;
               when (random_below w (3 # 10))
                 (chat w ("Ah, that " +:+ Item.name food
                          +:+ " hit the spot! Hunger: " +:+ pretty (World.food w)))
           | None => mret tt
           end)
          (fun e => call (ConsoleError ("Error while eating: " +:+ e)))
    | None => mret tt
    end.

(** The condition of the first branch of [handleSleeping]:
    [!this.canSleep || !time.isDay && !isSleeping]. *)
Definition sleep_check (b : BotProperties) (w : World.t) : bool :=
  negb (canSleep b) || (negb (World.isDay w) && negb (World.isSleeping w)).

Definition handleSleeping (w : World.t) : M unit :=
  triggered ← get (fun b => sleep_check b w);
  st ← get state;
  active ← get_pathfinder_goal;
  if (triggered : bool) then
    match findInventoryItem w "red_bed" with
    | Some bed =>
        match World.findBlock w (MatchId "red_bed") 16 with
        | Some bedBlock =>
            modify (set_state moving_to_sleep);;
            setGoal w (Some (new_GoalGetToBlock (Block.position bedBlock)))
        | None =>
            when (random_below w (2 # 10))
              (chat w "It's getting dark, I need a bed!")
        end
    | None =>
        when (random_below w (2 # 10))
          (chat w "I need wool and wood to craft a bed for the night.")
    end
  else if World.isSleeping w then mret tt
  else if bool_decide (st = moving_to_sleep) && negb (JS.truthy active)
  then
    match World.findBlock w (MatchId "red_bed") 3 with
    | Some bedBlock =>
        if negb (Qle_bool 3 (World.distanceTo w (Block.position bedBlock))) then
          try_catch
            (await (Sleep bedBlock) (World.sleep w);;
             modify (set_state sleeping))
            (fun e =>
               call (ConsoleError ("Error trying to sleep: " +:+ e));;
               chat w "Couldn't sleep right now.";;
               modify (set_state idle);;
               setGoal w None)
        else modify (set_state idle);; setGoal w None
    | None => modify (set_state idle);; setGoal w None
    end
  else mret tt.

(** *** Resource progression *)

Definition woodItems : list string :=
  ["oak_log"; "spruce_log"; "birch_log"; "jungle_log"; "acacia_log";
   "dark_oak_log"].

(** The wood-equivalent count: a log counts 1, a plank a quarter. *)
Definition woodCount (w : World.t) : Q :=
  fold_left
    (fun (n : Q) it =>
       if JS.array_includes woodItems (Item.name it) then
         (n + inject_Z (Item.count it))%Q
       else if JS.endsWith (Item.name it) "_planks" then
         (n + inject_Z (Item.count it) / 4)%Q
       else n)
    (World.items w) 0%Q.

(** [craftBasicTools]'s loop over the needed tools, from the tool [tools]
    starts with. *)
Fixpoint craft_each_tool (w : World.t) (craftingTableBlock : Block.t)
    (tools : list string) : M bool :=
  match tools with
  | [] => mret true
  | toolName :: rest =>
      match World.recipesFor w toolName with
      | recipe :: _ =>
          crafted ←
            try_catch
              (await (Craft recipe 1 (Some craftingTableBlock)) (World.craft w recipe);;
               await (WaitForTicks 10) None;;
               mret true)
              (fun e =>
                 call (ConsoleError ("Error crafting " +:+ toolName +:+ ": " +:+ e));;
                 chat w ("Failed to craft " +:+ toolName +:+ ".");;
                 modify (set_state idle);;
                 mret false);
          if (crafted : bool) then craft_each_tool w craftingTableBlock rest
          else mret false
      | [] =>
          chat w ("Don't know how to craft " +:+ toolName +:+ ".");;
          modify (set_state idle);;
          mret false
      end
  end.

(** The tools [craftBasicTools] finds missing, in the order it tries them. *)
Definition neededTools (w : World.t) : list string :=
  (match findInventoryItem w "wooden_axe" with
   | None => ["wooden_axe"]
   | Some _ => []
   end)
  ++ (match findInventoryItem w "wooden_pickaxe" with
      | None => ["wooden_pickaxe"]
      | Some _ => []
      end).

(** [craftBasicTools], with the re-evaluation it ends with as argument. *)
Definition craftBasicTools_then (reevaluate : M unit) (w : World.t) : M unit :=
  match neededTools w with
  | [] => modify (set_state idle)
  | tools =>
      match World.findBlock w (MatchId "crafting_table") 3 with
      | None =>
          chat w "I need a crafting table to craft tools.";;
          modify (set_state idle)
      | Some craftingTableBlock =>
          if negb (Qle_bool (World.distanceTo w (Block.position craftingTableBlock)) 3)
          then
            setGoal w (Some (new_GoalNear (Block.position craftingTableBlock) 1));;
            modify (set_state moving_to_crafting_table)
          else
            all_crafted ← craft_each_tool w craftingTableBlock tools;
            if (all_crafted : bool) then
              modify (set_state idle);;
              detached reevaluate
            else mret tt
      end
  end.

(** The crafting-table stage of [handleBasicResourceGathering], entered
    with no table in the inventory and none placed nearby. *)
Definition craft_crafting_table (w : World.t) : M unit :=
  planksCount ← get (fun b => default 0 (inventory b !! "oak_planks"));
  required ← get requiredWoodCount;
  if 4 <=? planksCount then
    try_catch
      (match World.recipesFor w "crafting_table" with
       | craftingTableRecipe :: _ =>
           await (Craft craftingTableRecipe 1 None) (World.craft w craftingTableRecipe);;
           modify (set_hasCraftingTable true);;
           modify (set_state idle);;
           chat w "I crafted a crafting table!"
       | [] =>
           chat w "Hmm, I can't figure out how to craft a crafting table.";;
           modify (set_state idle)
       end)
      (fun e =>
         call (ConsoleError ("Error crafting crafting table: " +:+ e));;
         chat w "Crafting failed for some reason.";;
         modify (set_state idle))
  else if negb (Qle_bool (woodCount w) 0) && (planksCount <? 4) then
    match find (fun it => JS.array_includes woodItems (Item.name it)) (World.items w) with
    | Some logItem =>
        try_catch
          (match find (fun r => JS.array_includes (Recipe.ingredients r) (Item.name logItem))
                      (World.recipesFor w "oak_planks") with
           | Some plankRecipe =>
               let neededPlanks := 4 - planksCount in
               let neededLogs := (neededPlanks + 3) / 4 in
               let logsToCraft := Z.min (Item.count logItem) neededLogs in
               if 0 <? logsToCraft then
                 await (Craft plankRecipe logsToCraft None) (World.craft w plankRecipe);;
                 modify (set_state crafting_crafting_table)
               else modify (set_state idle)
           | None => modify (set_state idle)
           end)
          (fun e =>
             call (ConsoleError ("Error crafting planks: " +:+ e));;
             modify (set_state idle))
    | None => modify (set_state idle)
    end
  else
    chat w ("I need " +:+ pretty required +:+ " wood logs to get started.");;
    modify (set_state gathering_wood).

(** The body of [handleBasicResourceGathering], with its call of
    [craftBasicTools] as argument. *)
Definition handleBasicResourceGathering_with (craftBasicTools : M unit)
    (w : World.t) : M unit :=
  needs ← get needsBasicResources;
  if negb needs then mret tt
  else
    let craftingTableItem := findInventoryItem w "crafting_table" in
    let craftingTableBlock := World.findBlock w (MatchId "crafting_table") 16 in
    modify (set_hasCraftingTable
              (JS.truthy craftingTableItem
               || JS.truthy craftingTableBlock));;
    required ← get requiredWoodCount;
    hasTable ← get hasCraftingTable;
    st ← get state;
    if negb (Qle_bool (inject_Z required) (woodCount w)) then
      if negb (bool_decide (st = gathering_wood)) then
        modify (set_state gathering_wood);;
        setGoal w None
      else mret tt
    else if negb hasTable then
      match craftingTableItem with
      | Some _ =>
          if negb (bool_decide (st = placing_crafting_table)) then
            modify (set_state placing_crafting_table);;
            chat w "I have a crafting table, but don't know where to place it yet!";;
            modify (set_state idle)
          else mret tt
      | None =>
          if negb (bool_decide (st = crafting_crafting_table)) then
            craft_crafting_table w
          else mret tt
      end
    else
      let hasWoodAxe := JS.truthy (findInventoryItem w "wooden_axe") in
      let hasWoodPickaxe := JS.truthy (findInventoryItem w "wooden_pickaxe") in
      if negb hasWoodAxe || negb hasWoodPickaxe then
        if negb (bool_decide (st = crafting_tools)) then
          modify (set_state crafting_tools);;
          detached craftBasicTools
        else mret tt
      else
        modify (set_needsBasicResources false);;
        modify (set_state idle);;
        chat w "Okay, I'm geared up with basic tools!".

(** [handleBasicResourceGathering].  [later] holds the world's answers for
    the re-evaluations that follow a completed round of tool crafting. *)
Fixpoint handleBasicResourceGathering (later : list World.t) (w : World.t)
  : M unit :=
  handleBasicResourceGathering_with
    (craftBasicTools_then
       (match later with
        | [] => unfinished
        | w' :: later' => handleBasicResourceGathering later' w'
        end) w) w.

Definition craftBasicTools (later : list World.t) (w : World.t) : M unit :=
  craftBasicTools_then
    (match later with
     | [] => unfinished
     | w' :: later' => handleBasicResourceGathering later' w'
     end) w.

(** [gatherWood].  [later] holds the world's answers for the calls that
    follow a completed dig.  The comparison
    [currentGoal.destination.equals(goal.destination)] raises when one
    of the two goals has no [destination]. *)
Fixpoint gatherWood (later : list World.t) (w : World.t) : M unit :=
  required ← get requiredWoodCount;
  if Qle_bool (inject_Z required) (woodCount w) then
    modify (set_state idle);;
    setGoal w None;;
    detached (handleBasicResourceGathering later w)
  else
    match World.findBlock w MatchWoodItems 32 with
    | Some treeLog =>
        let goal := new_GoalGetToBlock (Block.position treeLog) in
        cur ← get currentGoal;
        already ←
          match cur with
          | Some c =>
              if bool_decide (Goal.constructor c = GoalGetToBlock) then
                match Goal.destination c, Goal.destination goal with
                | Some d, Some d' => mret (bool_decide (d = d'))
                | _, _ => throw "TypeError"
                end
              else mret false
          | None => mret false
          end;
        if (already : bool) then mret tt
        else
          setGoal w (Some goal);;
          if negb (Qle_bool 4 (World.distanceTo w (Block.position treeLog))) then
            match World.blockAt w (Block.position treeLog) with
            | Some blockToDig =>
                if JS.array_includes woodItems (Block.name blockToDig)
                   && World.canDigBlock w blockToDig
                then
                  setGoal w None;;
                  try_catch
                    (await (Dig blockToDig) (World.dig w);;
                     detached
                       (match later with
                        | [] => unfinished
                        | w' :: later' => gatherWood later' w'
                        end);;
                     chat w ("Found and dug some " +:+ Block.name blockToDig +:+ "!"))
                    (fun e =>
                       call (ConsoleError ("Error digging " +:+ Block.name blockToDig
                                           +:+ ": " +:+ e));;
                       chat w ("Couldn't dig " +:+ Block.name blockToDig +:+ ".");;
                       modify (set_state idle);;
                       setGoal w None)
                else modify (set_state idle);; setGoal w None
            | None => modify (set_state idle);; setGoal w None
            end
          else mret tt
    | None =>
        when (random_below w (1 # 10))
          (chat w "Can't find any trees nearby. Need to explore.");;
        modify (set_state exploring);;
        setGoal w None
    end.

(** *** Following *)

Definition clearTargetBotToFollow (w : World.t) : M unit :=
  target ← get targetBotToFollow;
  match target with
  | Some peer =>
      chat w ("No longer following " +:+ peer +:+ ".");;
      modify (set_targetBotToFollow None);;
      st ← get state;
      if bool_decide (st = following) then
        modify (set_state idle);;
        setGoal w None
      else mret tt
  | None => chat w "I wasn't following anyone."
  end.

(** [setTargetBotToFollow]: the argument is the name of a known agent, or
    [None] for anything that is not a [BotProperties] instance. *)
Definition setTargetBotToFollow (w : World.t) (targetBotProps : option string)
  : M unit :=
  me ← get name;
  match targetBotProps with
  | Some peer =>
      if negb (String.eqb peer me) then
        modify (set_targetBotToFollow (Some peer));;
        chat w ("Following " +:+ peer +:+ "!");;
        modify (set_state following)
      else chat w "Invalid bot specified to follow."
  | None => chat w "Invalid bot specified to follow."
  end.

Definition handleFollowing (w : World.t) : M unit :=
  target ← get targetBotToFollow;
  st ← get state;
  match target ≫= (fun peer => (fun pos => (peer, pos)) <$> World.peer_entity w peer) with
  | Some (peer, targetPos) =>
      followDist ← get followDistance;
      if negb (Qle_bool (World.distanceTo w targetPos) (inject_Z followDist)) then
        let goal := new_GoalFollow peer followDist in
        cur ← get currentGoal;
        if match cur with
           | Some c => bool_decide (Goal.constructor c = GoalFollow)
                       && bool_decide (Goal.entity c = Some peer)
           | None => false
           end
        then mret tt
        else
          setGoal w (Some goal);;
          modify (set_state following)
      else
        active ← get_pathfinder_goal;
        if bool_decide (st = following) && JS.truthy active then
          setGoal w None;;
          modify (set_state idle)
        else mret tt
  | None =>
      if bool_decide (st = following) then
        clearTargetBotToFollow w;;
        modify (set_state idle);;
        setGoal w None
      else mret tt
  end.

(** *** One tick *)

Definition update (later : list World.t) (w : World.t) : M unit :=
  if negb (World.entity w) then mret tt
  else
    modify (refresh w);;
    detached (handleEating w);;
    detached (handleSleeping w);;
    detached (handleBasicResourceGathering later w);;
    handleFollowing w;;
    st ← get state;
    match st with
    | idle =>
        needs ← get needsBasicResources;
        if (needs : bool) then modify (set_state gathering_wood) else mret tt
    | gathering_wood => detached (gatherWood later w)
    | _ => mret tt
    end.

(** The handler [createBot] installs with [setInterval(..., 500)]: it
    runs [update] inside [try] and writes what it catches to the console. *)
Definition tick (later : list World.t) (w : World.t) : M unit :=
  try_catch (update later w)
    (fun e => call (ConsoleError ("Error in update loop: " +:+ e))).

(** *** Commands *)

(** The text of a state, as it is stored in [this.state]. *)
Definition State_name (st : State) : string :=
  match st with
  | idle => "idle"
  | gathering_wood => "gathering_wood"
  | placing_crafting_table => "placing_crafting_table"
  | crafting_crafting_table => "crafting_crafting_table"
  | crafting_tools => "crafting_tools"
  | moving_to_crafting_table => "moving_to_crafting_table"
  | moving_to_sleep => "moving_to_sleep"
  | sleeping => "sleeping"
  | following => "following"
  | mining => "mining"
  | exploring => "exploring"
  end.

Definition importantItems : list string :=
  ["oak_log"; "spruce_log"; "birch_log"; "jungle_log"; "acacia_log";
   "dark_oak_log"; "oak_planks"; "crafting_table"; "wooden_axe";
   "wooden_pickaxe"; "stone_axe"; "stone_pickaxe"; "iron_axe";
   "iron_pickaxe"; "diamond_axe"; "diamond_pickaxe"; "netherite_axe";
   "netherite_pickaxe"; "cooked_beef"; "bread"; "golden_apple"; "bed";
   "red_bed"].

(** [s.slice(0, -2)] *)
Definition drop_last_two (s : string) : string :=
  String.substring 0 (String.length s - 2) s.

(** The inventory line of [status]: [None] when no important item is
    held. *)
Definition inventorySummary (w : World.t) : option string :=
  let listed :=
    List.filter (fun it => JS.array_includes importantItems (Item.name it))
                (World.items w) in
  match listed with
  | [] => None
  | _ =>
      Some (drop_last_two
              (fold_left
                 (fun acc it =>
                    acc +:+ Item.name it +:+ " x" +:+ pretty (Item.count it) +:+ ", ")
                 listed "Inventory: "))
  end.

(** The equipment line of [status]: [None] when no armor is worn.  An
    empty name is falsy, as an absent one. *)
Definition armorSummary (e : Equipment.t) : option string :=
  let part (label : string) (o : option string) : string :=
    match o with
    | Some (String _ _ as n) => label +:+ n +:+ ", "
    | _ => EmptyString
    end in
  let parts :=
    part "Head: " (Equipment.head e) +:+ part "Torso: " (Equipment.torso e)
    +:+ part "Legs: " (Equipment.legs e) +:+ part "Feet: " (Equipment.feet e) in
  match parts with
  | EmptyString => None
  | _ => Some (drop_last_two ("Equipment: " +:+ parts))
  end.

(** The world [w] at the clock reading [now]. *)
Definition at_time (now : Z) (w : World.t) : World.t :=
  {| World.entity := World.entity w; World.health := World.health w;
     World.food := World.food w; World.saturation := World.saturation w;
     World.items := World.items w; World.heldItem := World.heldItem w;
     World.armor := World.armor w; World.isDay := World.isDay w;
     World.isSleeping := World.isSleeping w;
     World.findBlock := World.findBlock w; World.blockAt := World.blockAt w;
     World.canDigBlock := World.canDigBlock w;
     World.recipesFor := World.recipesFor w;
     World.distanceTo := World.distanceTo w;
     World.peer_entity := World.peer_entity w;
     World.Date_now := now; World.Math_random := World.Math_random w;
     World.equip := World.equip w; World.consume := World.consume w;
     World.sleep := World.sleep w; World.dig := World.dig w;
     World.craft := World.craft w; World.tossStack := World.tossStack w;
     World.pathfinder_stop := World.pathfinder_stop w;
     World.pathfinder_setGoal := World.pathfinder_setGoal w |}.

(** [status]; [pos] is [mineflayerBot.entity.position].  Each of its
    [chat] calls reads the clock anew: the first reads the clock of [w],
    the second reads [t2] and the third [t3]. *)
Definition status (w : World.t) (pos : Vec3.t) (t2 t3 : Z) : M unit :=
  if negb (World.entity w) then chat w "I am not currently connected or ready."
  else
    st ← get state;
    hp ← get health;
    fd ← get food;
    chat w ("Status: " +:+ State_name st +:+ ". Pos: (" +:+ pretty (Vec3.x pos)
            +:+ ", " +:+ pretty (Vec3.y pos) +:+ ", " +:+ pretty (Vec3.z pos)
            +:+ "). Health: " +:+ pretty hp +:+ ", Food: " +:+ pretty fd +:+ ".");;
    chat (at_time t2 w)
         (default "Inventory: (No important items)" (inventorySummary w));;
    eq ← get equipment;
    chat (at_time t3 w) (default "Equipment: (None)" (armorSummary eq)).

(** [mineBlock]: [block] is [None] for a falsy argument. *)
Definition mineBlock (w : World.t) (block : option Block.t) : M unit :=
  if negb (World.entity w) then mret tt
  else
    match block with
    | Some b =>
        if World.canDigBlock w b then
          modify (set_state mining);;
          setGoal w (Some (new_GoalNear (Block.position b) 1));;
          if negb (Qle_bool 4 (World.distanceTo w (Block.position b))) then
            setGoal w None;;
            try_catch
              (await (Dig b) (World.dig w);;
               modify (set_state idle);;
               announceFinding w (Block.name b) 1)
              (fun e =>
                 call (ConsoleError ("Error mining " +:+ Block.name b +:+ ": " +:+ e));;
                 chat w ("Failed to mine " +:+ Block.name b +:+ ".");;
                 modify (set_state idle))
          else mret tt
        else mret tt
    | None => mret tt
    end.

End Agent.

(** ** The server monitor ([ServerStatus]) *)

Module ServerStatus.

(** The lines written with [console.log] and [console.error]. *)
Inductive Line := Log (message : string) | Error (message : string).

(** The error a rejected ping carries: its [code] and its [message]. *)
Module PingError.
Record t := { code : option string; message : option string }.
End PingError.

(** How [ping.status(host, port)] settles: resolved with a result (the
    players online and the maximum; [None] for a falsy result) or
    rejected. *)
Inductive Ping :=
| Resolved (result : option (Z * Z))
| Rejected (error : PingError.t).

Record t := {
  serverHost : option string;
  serverPort : option Z;
  isOnline : bool;
  lastCheck : option Z;
  errorCount : Z;
  maxRetries : Z;
  checkInterval : Z;
  output : list Line }.

Definition constructor (host : option string) (port : option Z) : t :=
  {| serverHost := host; serverPort := port; isOnline := false;
     lastCheck := None; errorCount := 0; maxRetries := 3;
     checkInterval := 60000; output := [] |}.

Definition emit (l : Line) (s : t) : t :=
  {| serverHost := serverHost s; serverPort := serverPort s;
     isOnline := isOnline s; lastCheck := lastCheck s;
     errorCount := errorCount s; maxRetries := maxRetries s;
     checkInterval := checkInterval s; output := output s ++ [l] |}.

Definition getErrorMessage (error : PingError.t) : string :=
  match PingError.code error with
  | Some code =>
      if String.eqb code "ECONNREFUSED" then
        "Connection refused - Server might be offline"
      else if String.eqb code "ETIMEDOUT" then
        "Connection timed out - Server might be overloaded"
      else if String.eqb code "ENOTFOUND" then
        "Server host not found - Check your server address"
      else
        match PingError.message error with
        | Some (String _ _ as m) => m
        | _ => "Unknown error occurred"
        end
  | None =>
      match PingError.message error with
      | Some (String _ _ as m) => m
      | _ => "Unknown error occurred"
      end
  end.

Definition handleError (error : PingError.t) (s : t) : t :=
  let s1 :=
    {| serverHost := serverHost s; serverPort := serverPort s;
       isOnline := false; lastCheck := lastCheck s;
       errorCount := errorCount s + 1; maxRetries := maxRetries s;
       checkInterval := checkInterval s; output := output s |} in
  let s2 := emit (Error ("Server Error: " +:+ getErrorMessage error)) s1 in
  if maxRetries s2 <=? errorCount s2 then
    emit (Error "Maximum retry attempts reached. Server might be down.") s2
  else s2.

(** [checkServerStatus]: [Some true] after a truthy result, [Some false]
    after a rejection, [None] ([undefined]) after a falsy result. *)
Definition checkServerStatus (ping : Ping) (now : Z) (s : t) : option bool * t :=
  match ping with
  | Resolved (Some (online, max)) =>
      (Some true,
       emit (Log ("Server is online! Players: " +:+ pretty online +:+ "/"
                  +:+ pretty max))
         {| serverHost := serverHost s; serverPort := serverPort s;
            isOnline := true; lastCheck := Some now;
            errorCount := 0; maxRetries := maxRetries s;
            checkInterval := checkInterval s; output := output s |})
  | Resolved None => (None, s)
  | Rejected error => (Some false, handleError error s)
  end.

(** [startMonitoring]: the first check and the checks of the interval
    firings, each with the way its ping settles and its time. *)
Definition startMonitoring (checks : list (Ping * Z)) (s : t) : t :=
  fold_left (fun s '(ping, now) => snd (checkServerStatus ping now s))
            checks
            (emit (Log ("Starting server monitoring for "
                        +:+ default "undefined" (serverHost s) +:+ ":"
                        +:+ from_option pretty "NaN" (serverPort s))) s).

(** [isServerReady]: pings only when the monitor is not online. *)
Definition isServerReady (ping : Ping) (now : Z) (s : t) : bool * t :=
  if negb (isOnline s) then
    let s' := snd (checkServerStatus ping now s) in (isOnline s', s')
  else (isOnline s, s).

(** The object [getStatusInfo] returns. *)
Module StatusInfo.
Record t := { isOnline : bool; lastCheck : option Z; errorCount : Z;
              serverHost : option string; serverPort : option Z }.
End StatusInfo.

Definition getStatusInfo (s : t) : StatusInfo.t :=
  {| StatusInfo.isOnline := isOnline s; StatusInfo.lastCheck := lastCheck s;
     StatusInfo.errorCount := errorCount s;
     StatusInfo.serverHost := serverHost s;
     StatusInfo.serverPort := serverPort s |}.

End ServerStatus.

(** ** Scenarios used by the statements *)

(** A sequence of admin operations, as [handleAdminCommand] can route them
    to [addAdmin] and [removeAdmin]. *)
Inductive AdminOp :=
| AddAdmin (now : Z) (adminName : string)
| RemoveAdmin (adminName : string).

Definition run_admin_op (c : Orchestrator.CommandProcessor) (op : AdminOp)
  : Orchestrator.CommandProcessor :=
  match op with
  | AddAdmin now n => snd (Orchestrator.addAdmin now n c)
  | RemoveAdmin n => snd (Orchestrator.removeAdmin n c)
  end.

Definition run_admin_ops (ops : list AdminOp)
    (c : Orchestrator.CommandProcessor) : Orchestrator.CommandProcessor :=
  fold_left run_admin_op ops c.

(** An orchestrator whose command table marks [ban] as admin-only and
    whose category table lists it under [admin]. *)
Definition demo_processor : Orchestrator.CommandProcessor :=
  Orchestrator.constructor
    {["ban" := {| Orchestrator.Command.admin_only := true |}]}
    [("admin", ["ban"; "kick"]); ("gather", ["collect"])]
    ["wood"] ["10"] ["village"] 0.

Definition demo_analysis : Orchestrator.Analysis.t :=
  {| Orchestrator.Analysis.step_by_step_plan := ["walk"; "collect"];
     Orchestrator.Analysis.materials := [("wood", 10%float)];
     Orchestrator.Analysis.coordinate_plan_distance := 100%float;
     Orchestrator.Analysis.estimated_time := 1%float |}.

(** A task for [Bot1] with a target location, 10 wood required and 100
    blocks to travel, marked as running. *)
Definition running_task : Orchestrator.CommandProcessor :=
  let c :=
    Orchestrator.initializeTaskTracking 0 "task_1"
      (Orchestrator.parseNaturalCommand demo_processor
         "Bot1 collect 10 wood at village")
      demo_analysis demo_processor in
  match Orchestrator.activeTasks c !! "task_1" with
  | Some taskInfo =>
      Orchestrator.set_tasks
        (<["task_1" := Orchestrator.TaskInfo.set_status "running" taskInfo]>
           (Orchestrator.activeTasks c))
        (Orchestrator.taskProgress c) (Orchestrator.taskUpdates c) c
  | None => c
  end.

(** Two successive polls: half of the wood and half of the way, then no
    wood left and the agent 200 blocks from the target. *)
Definition poll_halfway : Orchestrator.Poll :=
  {| Orchestrator.poll_now := 1000;
     Orchestrator.calculateBotProgress := fun _ => 0%float;
     Orchestrator.getCurrentResourceCount := fun _ => 5%float;
     Orchestrator.calculateDistance := 50%float |}.

Definition poll_farther : Orchestrator.Poll :=
  {| Orchestrator.poll_now := 2000;
     Orchestrator.calculateBotProgress := fun _ => 0%float;
     Orchestrator.getCurrentResourceCount := fun _ => 0%float;
     Orchestrator.calculateDistance := 200%float |}.

(** A run of a natural-language command during which the interval does
    not fire and the execution returns. *)
Definition demo_run : Orchestrator.Run :=
  {| Orchestrator.run_now := 5000;
     Orchestrator.analyzeCommand := fun _ => demo_analysis;
     Orchestrator.generateTaskId := "task_5000_abc";
     Orchestrator.interval_handle := 1;
     Orchestrator.interval_polls := [];
     Orchestrator.executeParsedCommand := fun _ _ => Orchestrator.Returned "ok" |}.

(** The same run, with an execution that raises. *)
Definition failing_run : Orchestrator.Run :=
  {| Orchestrator.run_now := 5000;
     Orchestrator.analyzeCommand := fun _ => demo_analysis;
     Orchestrator.generateTaskId := "task_5000_abc";
     Orchestrator.interval_handle := 1;
     Orchestrator.interval_polls := [];
     Orchestrator.executeParsedCommand :=
       fun _ _ => Orchestrator.Threw "bot offline" |}.

Definition demo_env : Orchestrator.Env :=
  {| Orchestrator.Date_now := 5000;
     Orchestrator.position_of := fun _ => {| Vec3.x := 0; Vec3.y := 64; Vec3.z := 0 |};
     Orchestrator.GoalBlock_raises := None;
     Orchestrator.setGoal_raises := fun _ => None |}.

(** The same world, in which building a goal raises. *)
Definition env_without_goals : Orchestrator.Env :=
  {| Orchestrator.Date_now := 5000;
     Orchestrator.position_of := fun _ => {| Vec3.x := 0; Vec3.y := 64; Vec3.z := 0 |};
     Orchestrator.GoalBlock_raises :=
       Some "Cannot read properties of undefined (reading 'goals')";
     Orchestrator.setGoal_raises := fun _ => None |}.

(** The structured form of the command [ban], sent by [Mallory]. *)
Definition ban_by_mallory : Orchestrator.CommandData.t :=
  {| Orchestrator.CommandData.type := "action";
     Orchestrator.CommandData.action := "ban";
     Orchestrator.CommandData.target := "Bot1";
     Orchestrator.CommandData.username := "Mallory";
     Orchestrator.CommandData.message := EmptyString;
     Orchestrator.CommandData.botName := EmptyString;
     Orchestrator.CommandData.targetBot := EmptyString;
     Orchestrator.CommandData.command := EmptyString;
     Orchestrator.CommandData.admin_name := EmptyString;
     Orchestrator.CommandData.location_name := EmptyString;
     Orchestrator.CommandData.coordinates :=
       {| Vec3.x := 0; Vec3.y := 0; Vec3.z := 0 |} |}.

(** ** Predicates used by the statements *)

(** A progress value is capped when it is [NaN] or at most 100. *)
Definition capped (v : float) : Prop :=
  v = nan \/ (v <=? 100)%float = true.

(** The progress entry [initializeTaskTracking] writes for a command
    that names [Bot1]. *)
Definition fresh_progress : Orchestrator.Progress.t :=
  {| Orchestrator.Progress.overall := 0%float;
     Orchestrator.Progress.steps := [0%float; 0%float];
     Orchestrator.Progress.bots := [("Bot1", 0%float)];
     Orchestrator.Progress.resources := [];
     Orchestrator.Progress.coordinates := [] |}.

(** The task entry of [running_task]. *)
Definition running_task_info : Orchestrator.TaskInfo.t :=
  {| Orchestrator.TaskInfo.command := "Bot1 collect 10 wood at village";
     Orchestrator.TaskInfo.startTime := 0;
     Orchestrator.TaskInfo.bots := ["Bot1"];
     Orchestrator.TaskInfo.action := Some ("gather", "collect");
     Orchestrator.TaskInfo.item := Some "wood";
     Orchestrator.TaskInfo.quantity := Some "10";
     Orchestrator.TaskInfo.location := Some "village";
     Orchestrator.TaskInfo.analysis := demo_analysis;
     Orchestrator.TaskInfo.status := "running";
     Orchestrator.TaskInfo.currentStep := 0%float;
     Orchestrator.TaskInfo.totalSteps := 2%float;
     Orchestrator.TaskInfo.progressInterval := None;
     Orchestrator.TaskInfo.lastUpdate := 0 |}.

(** The goal comparison in the words of the specification: same kind and
    same destination. *)
Definition structurally_identical (cur g : Agent.Goal.t) : Prop :=
  Agent.Goal.constructor cur = Agent.Goal.constructor g
  /\ Agent.Goal.destination cur = Agent.Goal.destination g.

Definition is_submission (c : Agent.Call) : bool :=
  match c with Agent.PathfinderSetGoal _ => true | _ => false end.

(** The number of goals submitted to the pathfinder in a list of calls. *)
Definition submissions (cs : list Agent.Call) : nat :=
  length (List.filter is_submission cs).

Definition is_craft (c : Agent.Call) : bool :=
  match c with Agent.Craft _ _ _ => true | _ => false end.

(** The wood-equivalent count has reached the threshold of 20. *)
Definition wood_threshold_met (w : Agent.World.t) : Prop :=
  (20 <= Agent.woodCount w)%Q.

(** A crafting table is in the inventory or placed within reach of the
    planner's search. *)
Definition station_exists (w : Agent.World.t) : Prop :=
  JS.truthy (Agent.findInventoryItem w "crafting_table") = true
  \/ JS.truthy (Agent.World.findBlock w (Agent.MatchId "crafting_table") 16) = true.

(** What the stage order allows of one request, given the world the
    planner evaluated: tools are crafted at a table ([Some] table
    argument), planks and the table itself without one. *)
Definition stage_ok (w : Agent.World.t) (c : Agent.Call) : Prop :=
  match c with
  | Agent.Craft _ _ (Some _) => wood_threshold_met w /\ station_exists w
  | Agent.Craft _ _ None => wood_threshold_met w
  | _ => True
  end.

(** The requests of successive evaluations of the planner, each
    evaluation against its own world: every craft request is allowed by
    the world of the evaluation that issues it. *)
Inductive justified : list Agent.World.t -> list Agent.Call -> Prop :=
| justified_nil ws : justified ws []
| justified_other ws c cs :
    is_craft c = false -> justified ws cs -> justified ws (c :: cs)
| justified_craft w ws c cs :
    stage_ok w c -> justified (w :: ws) cs -> justified (w :: ws) (c :: cs)
| justified_later w ws cs : justified ws cs -> justified (w :: ws) cs.

(** From an agent whose threshold is 20, [c] keeps the threshold and
    extends the calls by a list that satisfies [T]. *)
Definition traces {A} (T : list Agent.Call -> Prop) (c : Agent.M A) : Prop :=
  forall m,
    Agent.requiredWoodCount (Agent.self m) = 20 ->
    Agent.requiredWoodCount (Agent.self (snd (c m))) = 20
    /\ exists new, Agent.calls (snd (c m)) = Agent.calls m ++ new /\ T new.

Definition absorbs (P : Agent.Call -> Prop) (T : list Agent.Call -> Prop)
  : Prop :=
  T [] /\ forall x y, Forall P x -> T y -> T (x ++ y).

Definition benign (P : Agent.Call -> Prop) : Prop :=
  forall c, is_craft c = false -> P c.

(** The code [c] never runs past the supplied world answers. *)
Definition finishes {A} (c : Agent.M A) : Prop :=
  forall m, fst (c m) <> Agent.Unfinished.

(** The recipes of the [craft] requests in a list of calls, in order. *)
Definition craft_requests (cs : list Agent.Call) : list Agent.Recipe.t :=
  flat_map (fun c => match c with Agent.Craft r _ _ => [r] | _ => [] end) cs.

(** The recipe [craftBasicTools] requests for each tool of a list: the
    first one the world knows, none when it knows none. *)
Definition recipes_tried (w : Agent.World.t) (tools : list string)
  : list Agent.Recipe.t :=
  flat_map
    (fun t => match Agent.World.recipesFor w t with r :: _ => [r] | [] => [] end)
    tools.

(** Crafting [t] fails: no recipe is found, or the craft primitive
    rejects. *)
Definition tool_fails (w : Agent.World.t) (t : string) : Prop :=
  Agent.World.recipesFor w t = []
  \/ exists r rs e,
       Agent.World.recipesFor w t = r :: rs /\ Agent.World.craft w r = Some e.

Definition tool_succeeds (w : Agent.World.t) (t : string) : Prop :=
  exists r rs,
    Agent.World.recipesFor w t = r :: rs /\ Agent.World.craft w r = None.

(** The times of the chat requests in a list of calls, in order. *)
Definition chat_times (cs : list Agent.Call) : list Z :=
  flat_map (fun c => match c with Agent.Chat t _ => [t] | _ => [] end) cs.

(** Successive times are more than [cooldown] apart. *)
Fixpoint well_spaced (cooldown : Z) (times : list Z) : bool :=
  match times with
  | t1 :: ((t2 :: _) as rest) =>
      (cooldown <? t2 - t1) && well_spaced cooldown rest
  | _ => true
  end.

(** ** Agent scenarios *)

Definition origin : Vec3.t := {| Vec3.x := 0; Vec3.y := 64; Vec3.z := 0 |}.

(** A quiet daytime world: a healthy bot, the peer [Bot2] and every block
    two blocks away, every primitive succeeding unless stated.  The
    arguments are what the scenarios vary. *)
Definition world (now : Z) (items : list Agent.Item.t)
    (findBlock : Agent.Matching -> Z -> option Agent.Block.t)
    (recipesFor : string -> list Agent.Recipe.t)
    (craft : Agent.Recipe.t -> option string)
    (pathfinder_stop : option string) : Agent.World.t :=
  {| Agent.World.entity := true; Agent.World.health := 20;
     Agent.World.food := 20; Agent.World.saturation := 5;
     Agent.World.items := items; Agent.World.heldItem := None;
     Agent.World.armor := []; Agent.World.isDay := true;
     Agent.World.isSleeping := false;
     Agent.World.findBlock := findBlock;
     Agent.World.blockAt := fun _ => None;
     Agent.World.canDigBlock := fun _ => true;
     Agent.World.recipesFor := recipesFor;
     Agent.World.distanceTo := fun _ => 2%Q;
     Agent.World.peer_entity :=
       fun n => if String.eqb n "Bot2" then Some origin else None;
     Agent.World.Date_now := now; Agent.World.Math_random := (1 # 2)%Q;
     Agent.World.equip := None; Agent.World.consume := None;
     Agent.World.sleep := None; Agent.World.dig := None;
     Agent.World.craft := craft; Agent.World.tossStack := None;
     Agent.World.pathfinder_stop := pathfinder_stop;
     Agent.World.pathfinder_setGoal := None |}.

Definition nothing_found : Agent.Matching -> Z -> option Agent.Block.t :=
  fun _ _ => None.

Definition no_recipes : string -> list Agent.Recipe.t := fun _ => [].

Definition craft_succeeds : Agent.Recipe.t -> option string := fun _ => None.

Definition world_at (now : Z) : Agent.World.t :=
  world now [] nothing_found no_recipes craft_succeeds None.

(** The autonomy settings are public fields that can be toggled; this
    switches [canSleep]. *)
Definition set_canSleep (v : bool) (b : Agent.BotProperties)
  : Agent.BotProperties :=
  {| Agent.name := Agent.name b; Agent.state := Agent.state b;
     Agent.inventory := Agent.inventory b; Agent.health := Agent.health b;
     Agent.food := Agent.food b; Agent.saturation := Agent.saturation b;
     Agent.equipment := Agent.equipment b;
     Agent.lastChatTime := Agent.lastChatTime b;
     Agent.chatCooldown := Agent.chatCooldown b;
     Agent.requiredWoodCount := Agent.requiredWoodCount b;
     Agent.hasCraftingTable := Agent.hasCraftingTable b;
     Agent.needsBasicResources := Agent.needsBasicResources b;
     Agent.canEat := Agent.canEat b; Agent.canSleep := v;
     Agent.targetBotToFollow := Agent.targetBotToFollow b;
     Agent.followDistance := Agent.followDistance b;
     Agent.currentGoal := Agent.currentGoal b |}.

(** An agent with nothing requested yet and [active] as the pathfinder's
    goal. *)
Definition start (b : Agent.BotProperties) (active : option Agent.Goal.t)
  : Agent.Machine :=
  {| Agent.self := b; Agent.pathfinder_goal := active; Agent.calls := [] |}.

Definition fresh_agent : Agent.Machine :=
  start (Agent.new_BotProperties "Bot1") None.

Definition follow_goal : Agent.Goal.t := Agent.new_GoalFollow "Bot2" 5.

(** An agent past its basic resources that follows [Bot2], within follow
    distance, with the follow goal still active. *)
Definition follower : Agent.Machine :=
  start (Agent.set_currentGoal (Some follow_goal)
           (Agent.set_targetBotToFollow (Some "Bot2")
              (Agent.set_needsBasicResources false
                 (Agent.set_state Agent.following
                    (Agent.new_BotProperties "Bot1")))))
        (Some follow_goal).

(** The quiet world, in which stopping the pathfinder raises. *)
Definition world_stop_raises : Agent.World.t :=
  world 10000 [] nothing_found no_recipes craft_succeeds (Some "GoalChanged").

Definition bed_block : Agent.Block.t :=
  {| Agent.Block.name := "red_bed";
     Agent.Block.position := {| Vec3.x := 3; Vec3.y := 64; Vec3.z := 1 |} |}.

(** Daytime, a bed in the inventory and a placed bed nearby. *)
Definition world_day_with_bed : Agent.World.t :=
  world 10000 [{| Agent.Item.name := "red_bed"; Agent.Item.count := 1 |}]
    (fun q _ =>
       match q with
       | Agent.MatchId n =>
           if String.eqb n "red_bed" then Some bed_block else None
       | Agent.MatchWoodItems => None
       end)
    no_recipes craft_succeeds None.

(** An agent whose sleeping is switched off. *)
Definition no_sleep_agent : Agent.Machine :=
  start (set_canSleep false
           (Agent.set_needsBasicResources false
              (Agent.new_BotProperties "Bot1")))
        None.

(** [chat("hello")] at time 10000, then [give("stick", Bot2)] one
    millisecond later, by an agent that holds no stick. *)
Definition chat_then_give : Agent.M unit :=
  Agent.bind (Agent.chat (world_at 10000) "hello")
    (fun _ => Agent.give (world_at 10001) "stick" (Some "Bot2")).

Definition table_block : Agent.Block.t :=
  {| Agent.Block.name := "crafting_table";
     Agent.Block.position := {| Vec3.x := 1; Vec3.y := 64; Vec3.z := 1 |} |}.

Definition axe_recipe : Agent.Recipe.t :=
  {| Agent.Recipe.result := "wooden_axe";
     Agent.Recipe.ingredients := ["oak_planks"; "stick"] |}.

Definition pickaxe_recipe : Agent.Recipe.t :=
  {| Agent.Recipe.result := "wooden_pickaxe";
     Agent.Recipe.ingredients := ["oak_planks"; "stick"] |}.

Definition tool_recipes (t : string) : list Agent.Recipe.t :=
  if String.eqb t "wooden_axe" then [axe_recipe]
  else if String.eqb t "wooden_pickaxe" then [pickaxe_recipe]
  else [].

Definition find_table : Agent.Matching -> Z -> option Agent.Block.t :=
  fun q _ =>
    match q with
    | Agent.MatchId n =>
        if String.eqb n "crafting_table" then Some table_block else None
    | Agent.MatchWoodItems => None
    end.

(** Twenty logs in the inventory and a crafting table two blocks away;
    the craft primitive rejects the axe. *)
Definition world_axe_rejected : Agent.World.t :=
  world 10000 [{| Agent.Item.name := "oak_log"; Agent.Item.count := 20 |}]
    find_table tool_recipes
    (fun r => if String.eqb (Agent.Recipe.result r) "wooden_axe"
              then Some "missing ingredients" else None)
    None.

(** The same world with every craft succeeding. *)
Definition world_ready_for_tools : Agent.World.t :=
  world 10000 [{| Agent.Item.name := "oak_log"; Agent.Item.count := 20 |}]
    find_table tool_recipes craft_succeeds None.

(** ** Further scenarios and predicates *)

(** *** The orchestrator *)

(** The permissions [addAdmin] grants. *)
Definition regular_permissions : list string :=
  ["basic_commands"; "manage_bots"; "manage_teams"].

(** The admin set and the permissions map describe the same admins: the
    map has an entry exactly for the members of the set, the super admin
    holds the entry the constructor wrote, and every other entry is the
    one [addAdmin] writes. *)
Definition admin_tables_consistent (c : Orchestrator.CommandProcessor) : Prop :=
  dom (Orchestrator.adminPermissions c) = Orchestrator.admins c
  /\ (exists now,
        Orchestrator.adminPermissions c !! "CodeDevPro"
        = Some (Orchestrator.super_admin_permissions now))
  /\ (forall n p,
        n ≠ "CodeDevPro" ->
        Orchestrator.adminPermissions c !! n = Some p ->
        Orchestrator.AdminPermission.level p = "admin"
        /\ Orchestrator.AdminPermission.permissions p = regular_permissions).

(** The admin command [add Mallory], sent by [Mallory] under an action
    name that the command table does not mark. *)
Definition add_admin_by_mallory : Orchestrator.CommandData.t :=
  {| Orchestrator.CommandData.type := "admin";
     Orchestrator.CommandData.action := "manage";
     Orchestrator.CommandData.target := "Bot1";
     Orchestrator.CommandData.username := "Mallory";
     Orchestrator.CommandData.message := EmptyString;
     Orchestrator.CommandData.botName := EmptyString;
     Orchestrator.CommandData.targetBot := EmptyString;
     Orchestrator.CommandData.command := "add";
     Orchestrator.CommandData.admin_name := "Mallory";
     Orchestrator.CommandData.location_name := EmptyString;
     Orchestrator.CommandData.coordinates :=
       {| Vec3.x := 0; Vec3.y := 0; Vec3.z := 0 |} |}.

(** The write [this.bots.set(BOT_NAME, bot)] of the orchestrator's
    [createBot]: a new key goes to the end, a known key keeps its place. *)
Definition register_bot (botName : string) (c : Orchestrator.CommandProcessor)
  : Orchestrator.CommandProcessor :=
  {| Orchestrator.commands := Orchestrator.commands c;
     Orchestrator.bots :=
       if bool_decide (botName ∈ Orchestrator.bots c) then Orchestrator.bots c
       else Orchestrator.bots c ++ [botName];
     Orchestrator.teams := Orchestrator.teams c;
     Orchestrator.savedLocations := Orchestrator.savedLocations c;
     Orchestrator.admins := Orchestrator.admins c;
     Orchestrator.adminPermissions := Orchestrator.adminPermissions c;
     Orchestrator.commandCategories := Orchestrator.commandCategories c;
     Orchestrator.parameter_items := Orchestrator.parameter_items c;
     Orchestrator.parameter_quantities := Orchestrator.parameter_quantities c;
     Orchestrator.parameter_locations := Orchestrator.parameter_locations c;
     Orchestrator.activeTasks := Orchestrator.activeTasks c;
     Orchestrator.taskProgress := Orchestrator.taskProgress c;
     Orchestrator.taskUpdates := Orchestrator.taskUpdates c;
     Orchestrator.output := Orchestrator.output c |}.

(** The demo orchestrator with [Bot1] connected. *)
Definition fleet_processor : Orchestrator.CommandProcessor :=
  register_bot "Bot1" demo_processor.

(** An action command of [Alice] for [Bot1] about the location [home]. *)
Definition location_command (action : string) : Orchestrator.CommandData.t :=
  {| Orchestrator.CommandData.type := "action";
     Orchestrator.CommandData.action := action;
     Orchestrator.CommandData.target := "Bot1";
     Orchestrator.CommandData.username := "Alice";
     Orchestrator.CommandData.message := EmptyString;
     Orchestrator.CommandData.botName := EmptyString;
     Orchestrator.CommandData.targetBot := EmptyString;
     Orchestrator.CommandData.command := EmptyString;
     Orchestrator.CommandData.admin_name := EmptyString;
     Orchestrator.CommandData.location_name := "home";
     Orchestrator.CommandData.coordinates :=
       {| Vec3.x := 0; Vec3.y := 0; Vec3.z := 0 |} |}.

(** Every character of [s] is a decimal digit. *)
Fixpoint all_digits (s : string) : bool :=
  match s with
  | String ch s' => Orchestrator.is_digit ch && all_digits s'
  | EmptyString => true
  end.

(** A bot identifier as [extractBotNames] builds it: [Bot] followed by
    one or more digits. *)
Definition bot_identifier (name : string) : Prop :=
  exists digits,
    name = "Bot" +:+ digits /\ digits <> EmptyString /\ all_digits digits = true.

(** The handles of the timers registered, and of the timers cleared, in
    a list of outputs, in order. *)
Definition timers_set (o : list Orchestrator.Output) : list Z :=
  flat_map (fun x => match x with Orchestrator.SetInterval h => [h] | _ => [] end) o.

Definition timers_cleared (o : list Orchestrator.Output) : list Z :=
  flat_map (fun x => match x with Orchestrator.ClearInterval h => [h] | _ => [] end) o.

(** The task [id] is registered with a progress entry, the status
    [status] and the timer handle [h]. *)
Definition tracked (id : string) (status : string) (h : option Z)
    (c : Orchestrator.CommandProcessor) : Prop :=
  exists ti p,
    Orchestrator.activeTasks c !! id = Some ti
    /\ Orchestrator.taskProgress c !! id = Some p
    /\ Orchestrator.TaskInfo.status ti = status
    /\ Orchestrator.TaskInfo.progressInterval ti = h.

(** *** The agent *)

(** One activation of an agent: a tick of its update loop, or one of its
    commands. *)
Inductive Activation :=
| Tick (later : list Agent.World.t) (w : Agent.World.t)
| Say (w : Agent.World.t) (message : string)
| Status (w : Agent.World.t) (pos : Vec3.t) (t2 t3 : Z)
| Found (w : Agent.World.t) (itemName : string) (count : Z)
| MineBlock (w : Agent.World.t) (block : option Agent.Block.t)
| Follow (w : Agent.World.t) (target : option string)
| Unfollow (w : Agent.World.t)
| Give (w : Agent.World.t) (itemName : string) (target : option string)
| Help (w : Agent.World.t).

Definition activate (a : Activation) : Agent.M unit :=
  match a with
  | Tick later w => Agent.tick later w
  | Say w message => Agent.chat w message
  | Status w pos t2 t3 => Agent.status w pos t2 t3
  | Found w itemName count => Agent.announceFinding w itemName count
  | MineBlock w block => Agent.mineBlock w block
  | Follow w target => Agent.setTargetBotToFollow w target
  | Unfollow w => Agent.clearTargetBotToFollow w
  | Give w itemName target => Agent.give w itemName target
  | Help w => Agent.help w
  end.

(** The agent after a sequence of activations, each one run to its end
    before the next. *)
Definition activations (l : list Activation) (m : Agent.Machine)
  : Agent.Machine :=
  fold_left (fun m a => snd (activate a m)) l m.

(** The activations that speak through the [chat] wrapper only. *)
Definition speaks_through_wrapper (a : Activation) : bool :=
  match a with
  | Give _ _ _ | Help _ => false
  | _ => true
  end.

(** [c] keeps the invariant [I] of the machine, however it ends. *)
Definition keeps {A} (I : Agent.Machine -> Prop) (c : Agent.M A) : Prop :=
  forall m, I m -> I (snd (c m)).

(** The assignment [f] to the agent's fields keeps [I]. *)
Definition respects (I : Agent.Machine -> Prop)
    (f : Agent.BotProperties -> Agent.BotProperties) : Prop :=
  forall b pg cs,
    I {| Agent.self := b; Agent.pathfinder_goal := pg; Agent.calls := cs |} ->
    I {| Agent.self := f b; Agent.pathfinder_goal := pg; Agent.calls := cs |}.

(** Sending a request that satisfies [allowed] keeps [I]. *)
Definition admits (I : Agent.Machine -> Prop) (allowed : Agent.Call -> Prop)
  : Prop :=
  forall c b pg cs,
    allowed c ->
    I {| Agent.self := b; Agent.pathfinder_goal := pg; Agent.calls := cs |} ->
    I {| Agent.self := b; Agent.pathfinder_goal := pg; Agent.calls := cs ++ [c] |}.

(** [I] does not depend on the pathfinder's goal. *)
Definition any_goal (I : Agent.Machine -> Prop) : Prop :=
  forall g b pg cs,
    I {| Agent.self := b; Agent.pathfinder_goal := pg; Agent.calls := cs |} ->
    I {| Agent.self := b; Agent.pathfinder_goal := g; Agent.calls := cs |}.

(** The requests other than chat lines, equipping, sleeping, digging and
    tossing. *)
Definition routine (c : Agent.Call) : Prop :=
  match c with
  | Agent.Chat _ _ | Agent.Equip _ | Agent.Sleep _ | Agent.Dig _
  | Agent.TossStack _ => False
  | _ => True
  end.

(** The requests that are not chat lines. *)
Definition silent (c : Agent.Call) : Prop :=
  match c with Agent.Chat _ _ => False | _ => True end.

(** The settings of an agent: what the constructor fixes and no method
    assigns. *)
Definition settings (b : Agent.BotProperties)
  : string * Z * Z * bool * bool * Z :=
  (Agent.name b, Agent.chatCooldown b, Agent.requiredWoodCount b,
   Agent.canEat b, Agent.canSleep b, Agent.followDistance b).

(** The settings are those of [b0], and [needsBasicResources] is set only
    if it was set in [b0]. *)
Definition settings_kept (b0 : Agent.BotProperties) (m : Agent.Machine) : Prop :=
  settings (Agent.self m) = settings b0
  /\ (Agent.needsBasicResources (Agent.self m) = true ->
      Agent.needsBasicResources b0 = true).

(** The chat lines sent so far are more than [cooldown] apart, and the
    agent's [lastChatTime] is not before the latest of them. *)
Definition chat_disciplined (cooldown : Z) (m : Agent.Machine) : Prop :=
  Agent.chatCooldown (Agent.self m) = cooldown
  /\ well_spaced cooldown (chat_times (Agent.calls m)) = true
  /\ match last (chat_times (Agent.calls m)) with
     | Some t => t <= Agent.lastChatTime (Agent.self m)
     | None => True
     end.

(** What a tick may request of the world client: it digs logs only,
    equips food only, and tosses nothing. *)
Definition permitted (c : Agent.Call) : Prop :=
  match c with
  | Agent.Dig b => JS.array_includes Agent.woodItems (Agent.Block.name b) = true
  | Agent.Equip i => JS.array_includes Agent.foodItems i = true
  | Agent.TossStack _ => False
  | _ => True
  end.

(** The requests sent since [cs0] are all permitted. *)
Definition only_permitted (cs0 : list Agent.Call) (m : Agent.Machine) : Prop :=
  exists new, Agent.calls m = cs0 ++ new /\ Forall permitted new.

(** Stopping the pathfinder cannot raise in world [w] for machine [m]:
    no goal is active, or the world accepts the stop. *)
Definition stop_is_safe (w : Agent.World.t) (m : Agent.Machine) : Prop :=
  Agent.pathfinder_goal m = None \/ Agent.World.pathfinder_stop w = None.

(** The blocks of the [dig] requests in a list of calls, in order. *)
Definition dig_requests (cs : list Agent.Call) : list Agent.Block.t :=
  flat_map (fun c => match c with Agent.Dig b => [b] | _ => [] end) cs.

(** The total count of the stacks named [n]; [None] when there is none. *)
Definition stacks_total (items : list Agent.Item.t) (n : string) : option Z :=
  match List.filter (fun it => String.eqb (Agent.Item.name it) n) items with
  | [] => None
  | stacks => Some (fold_right Z.add 0 (map Agent.Item.count stacks))
  end.

(** The agent holds what the planner asks for: enough wood, a crafting
    table in the inventory or placed nearby, and both wooden tools. *)
Definition geared_up (b : Agent.BotProperties) (w : Agent.World.t) : Prop :=
  Qle_bool (inject_Z (Agent.requiredWoodCount b)) (Agent.woodCount w) = true
  /\ (JS.truthy (Agent.findInventoryItem w "crafting_table")
      || JS.truthy (Agent.World.findBlock w (Agent.MatchId "crafting_table") 16))
     = true
  /\ JS.truthy (Agent.findInventoryItem w "wooden_axe") = true
  /\ JS.truthy (Agent.findInventoryItem w "wooden_pickaxe") = true.

(** The world [w] with other peers in it: [peers] gives the position of
    each peer's entity, [distance] the distance to a position. *)
Definition set_peers (peers : string -> option Vec3.t) (distance : Vec3.t -> Q)
    (w : Agent.World.t) : Agent.World.t :=
  {| Agent.World.entity := Agent.World.entity w;
     Agent.World.health := Agent.World.health w;
     Agent.World.food := Agent.World.food w;
     Agent.World.saturation := Agent.World.saturation w;
     Agent.World.items := Agent.World.items w;
     Agent.World.heldItem := Agent.World.heldItem w;
     Agent.World.armor := Agent.World.armor w;
     Agent.World.isDay := Agent.World.isDay w;
     Agent.World.isSleeping := Agent.World.isSleeping w;
     Agent.World.findBlock := Agent.World.findBlock w;
     Agent.World.blockAt := Agent.World.blockAt w;
     Agent.World.canDigBlock := Agent.World.canDigBlock w;
     Agent.World.recipesFor := Agent.World.recipesFor w;
     Agent.World.distanceTo := distance;
     Agent.World.peer_entity := peers;
     Agent.World.Date_now := Agent.World.Date_now w;
     Agent.World.Math_random := Agent.World.Math_random w;
     Agent.World.equip := Agent.World.equip w;
     Agent.World.consume := Agent.World.consume w;
     Agent.World.sleep := Agent.World.sleep w;
     Agent.World.dig := Agent.World.dig w;
     Agent.World.craft := Agent.World.craft w;
     Agent.World.tossStack := Agent.World.tossStack w;
     Agent.World.pathfinder_stop := Agent.World.pathfinder_stop w;
     Agent.World.pathfinder_setGoal := Agent.World.pathfinder_setGoal w |}.

(** The quiet world with no peer in it. *)
Definition world_alone : Agent.World.t :=
  set_peers (fun _ => None) (fun _ => 2%Q) (world_at 10000).

(** The quiet world with the peer [Bot3] ten blocks away. *)
Definition world_with_bot3 : Agent.World.t :=
  set_peers (fun n => if String.eqb n "Bot3" then Some origin else None)
            (fun _ => 10%Q) (world_at 10000).

(** The follower of [Bot2], told to follow [Bot3] instead. *)
Definition retargeted_follower : Agent.Machine :=
  start (Agent.set_targetBotToFollow (Some "Bot3") (Agent.self follower))
        (Some follow_goal).

(** Twenty logs, a crafting table and both wooden tools in the
    inventory. *)
Definition world_geared_up : Agent.World.t :=
  world 10000
    [{| Agent.Item.name := "oak_log"; Agent.Item.count := 20 |};
     {| Agent.Item.name := "crafting_table"; Agent.Item.count := 1 |};
     {| Agent.Item.name := "wooden_axe"; Agent.Item.count := 1 |};
     {| Agent.Item.name := "wooden_pickaxe"; Agent.Item.count := 1 |}]
    nothing_found no_recipes craft_succeeds None.

Definition stone_block : Agent.Block.t :=
  {| Agent.Block.name := "stone";
     Agent.Block.position := {| Vec3.x := 2; Vec3.y := 63; Vec3.z := 0 |} |}.

(** A chat command, a status command that starts one millisecond later
    and takes two milliseconds, and a tick ten seconds after that. *)
Definition talkative_session : list Activation :=
  [Say (world_at 10000) "hello"; Status (world_at 10001) origin 10002 10003;
   Tick [] (world_at 20000)].

(** The beds of the [sleep] requests in a list of calls, in order. *)
Definition sleep_requests (cs : list Agent.Call) : list Agent.Block.t :=
  flat_map (fun c => match c with Agent.Sleep b => [b] | _ => [] end) cs.

(** The requests that are not sleep requests. *)
Definition awake (c : Agent.Call) : Prop :=
  match c with Agent.Sleep _ => False | _ => True end.

(** No sleep request was sent since the list [beds] was recorded. *)
Definition no_new_sleep (beds : list Agent.Block.t) (m : Agent.Machine) : Prop :=
  sleep_requests (Agent.calls m) = beds.

(** The world [w] at night. *)
Definition at_night (w : Agent.World.t) : Agent.World.t :=
  {| Agent.World.entity := Agent.World.entity w;
     Agent.World.health := Agent.World.health w;
     Agent.World.food := Agent.World.food w;
     Agent.World.saturation := Agent.World.saturation w;
     Agent.World.items := Agent.World.items w;
     Agent.World.heldItem := Agent.World.heldItem w;
     Agent.World.armor := Agent.World.armor w;
     Agent.World.isDay := false;
     Agent.World.isSleeping := Agent.World.isSleeping w;
     Agent.World.findBlock := Agent.World.findBlock w;
     Agent.World.blockAt := Agent.World.blockAt w;
     Agent.World.canDigBlock := Agent.World.canDigBlock w;
     Agent.World.recipesFor := Agent.World.recipesFor w;
     Agent.World.distanceTo := Agent.World.distanceTo w;
     Agent.World.peer_entity := Agent.World.peer_entity w;
     Agent.World.Date_now := Agent.World.Date_now w;
     Agent.World.Math_random := Agent.World.Math_random w;
     Agent.World.equip := Agent.World.equip w;
     Agent.World.consume := Agent.World.consume w;
     Agent.World.sleep := Agent.World.sleep w;
     Agent.World.dig := Agent.World.dig w;
     Agent.World.craft := Agent.World.craft w;
     Agent.World.tossStack := Agent.World.tossStack w;
     Agent.World.pathfinder_stop := Agent.World.pathfinder_stop w;
     Agent.World.pathfinder_setGoal := Agent.World.pathfinder_setGoal w |}.

(** An agent past its basic resources that has arrived where it went to
    sleep: the state [moving_to_sleep] and no active goal. *)
Definition drowsy_agent : Agent.Machine :=
  start (Agent.set_state Agent.moving_to_sleep
           (Agent.set_needsBasicResources false
              (Agent.new_BotProperties "Bot1")))
        None.

(** *** The server monitor *)

(** The monitor's counters agree with its flag: while it reports the
    server online no error is counted and a check time is recorded; the
    count is never negative and the retry limit is the constructor's. *)
Definition monitor_consistent (s : ServerStatus.t) : Prop :=
  0 <= ServerStatus.errorCount s
  /\ ServerStatus.maxRetries s = 3
  /\ (ServerStatus.isOnline s = true ->
      ServerStatus.errorCount s = 0 /\ is_Some (ServerStatus.lastCheck s)).

(** A ping that is rejected with an error, at a time. *)
Definition rejected_at (e : ServerStatus.PingError.t * Z)
  : ServerStatus.Ping * Z :=
  (ServerStatus.Rejected (fst e), snd e).

(** The number of times the retry warning was written. *)
Definition warnings (o : list ServerStatus.Line) : nat :=
  length (List.filter
            (fun l => match l with
                      | ServerStatus.Error m =>
                          String.eqb m "Maximum retry attempts reached. Server might be down."
                      | _ => false
                      end) o).

Definition connection_refused : ServerStatus.PingError.t :=
  {| ServerStatus.PingError.code := Some "ECONNREFUSED";
     ServerStatus.PingError.message := Some "connect ECONNREFUSED" |}.

(** ** Properties of the orchestrator *)

Section FloatFacts.
Local Open Scope float_scope.

Lemma add_nan_r x : x + nan = nan.
Proof.
  apply Prim2SF_inj. rewrite add_spec.
  change (Prim2SF nan) with S754_nan.
  destruct (Prim2SF x) as [s|s| |s m e]; reflexivity.
Qed.

Lemma add_nan_l x : nan + x = nan.
Proof.
  apply Prim2SF_inj. rewrite add_spec.
  change (Prim2SF nan) with S754_nan. reflexivity.
Qed.

Lemma ltb_leb x y : (x <? y) = true -> (x <=? y) = true.
Proof.
  rewrite ltb_spec, leb_spec. unfold SFltb, SFleb.
  destruct (SFcompare _ _) as [[]|]; congruence.
Qed.

Lemma eqb_leb x y : (x =? y) = true -> (x <=? y) = true.
Proof.
  rewrite FloatAxioms.eqb_spec, leb_spec. unfold SFeqb, SFleb.
  destruct (SFcompare _ _) as [[]|]; congruence.
Qed.

Lemma Math_min_capped x : capped (JS.Math_min x 100).
Proof.
  unfold capped, JS.Math_min.
  destruct (PrimFloat.is_nan x) eqn:Hn; [left; reflexivity|].
  change (PrimFloat.is_nan 100) with false. cbn [orb].
  destruct (x <? 100) eqn:Hlt; [right; now apply ltb_leb|].
  destruct (x =? 100) eqn:Heq; [|right; reflexivity].
  right. destruct (get_sign x); [now apply eqb_leb | reflexivity].
Qed.

Lemma dimension_progress_empty : Orchestrator.dimension_progress [] = nan.
Proof. reflexivity. Qed.

End FloatFacts.

Section OrchestratorProperties.
Import Orchestrator.

(** *** The admin set *)

Lemma removeAdmin_super c :
  fst (removeAdmin "CodeDevPro" c) = false
  /\ admins (snd (removeAdmin "CodeDevPro" c)) = admins c
  /\ adminPermissions (snd (removeAdmin "CodeDevPro" c)) = adminPermissions c.
Proof. repeat split. Qed.

Lemma removeAdmin_other n c :
  n ≠ "CodeDevPro" ->
  fst (removeAdmin n c) = true
  /\ admins (snd (removeAdmin n c)) = admins c ∖ {[n]}
  /\ adminPermissions (snd (removeAdmin n c)) = delete n (adminPermissions c).
Proof.
  intros Hn. unfold removeAdmin.
  destruct (String.eqb_spec n "CodeDevPro") as [->|_]; [done|].
  repeat split.
Qed.

Lemma super_admin_kept_by_op op c :
  "CodeDevPro" ∈ admins c -> "CodeDevPro" ∈ admins (run_admin_op c op).
Proof.
  intros H. destruct op as [now n|n]; simpl.
  - unfold addAdmin. case_bool_decide; simpl; set_solver.
  - unfold removeAdmin.
    destruct (String.eqb_spec n "CodeDevPro") as [->|Hn]; simpl; set_solver.
Qed.

Lemma super_admin_kept ops c :
  "CodeDevPro" ∈ admins c -> "CodeDevPro" ∈ admins (run_admin_ops ops c).
Proof.
  revert c. induction ops as [|op ops IH]; intros c H; simpl; [done|].
  apply IH, super_admin_kept_by_op, H.
Qed.

(** C9. [removeAdmin('CodeDevPro')] returns [false] and leaves the admin
    set and the permissions map as they were; [removeAdmin] of any other
    name returns [true] and deletes the name from both; after any
    sequence of [addAdmin] and [removeAdmin] calls on a constructed
    orchestrator, [CodeDevPro] is still an admin. *)
Theorem super_admin_is_permanent :
  (forall c,
      fst (removeAdmin "CodeDevPro" c) = false
      /\ admins (snd (removeAdmin "CodeDevPro" c)) = admins c
      /\ adminPermissions (snd (removeAdmin "CodeDevPro" c)) = adminPermissions c)
  /\ (forall n c,
      n ≠ "CodeDevPro" ->
      fst (removeAdmin n c) = true
      /\ (n ∉ admins (snd (removeAdmin n c)))
      /\ (adminPermissions (snd (removeAdmin n c)) !! n = None)
      /\ admins (snd (removeAdmin n c)) = admins c ∖ {[n]}
      /\ adminPermissions (snd (removeAdmin n c)) = delete n (adminPermissions c))
  /\ (forall ops cmds categories items quantities locations now,
      isAdmin (run_admin_ops ops
                 (constructor cmds categories items quantities locations now))
              "CodeDevPro" = true).
Proof.
  split; [apply removeAdmin_super|]. split.
  - intros n c Hn. destruct (removeAdmin_other n c Hn) as (H1 & H2 & H3).
    rewrite H1, H2, H3. repeat split; [|apply lookup_delete_eq].
    apply not_elem_of_difference. right. apply elem_of_singleton. reflexivity.
  - intros. unfold isAdmin. apply bool_decide_eq_true.
    apply super_admin_kept. simpl. set_solver.
Qed.

Lemma super_admin_is_permanent_witness :
  "Alice" ≠ "CodeDevPro"
  /\ fst (removeAdmin "Alice" (snd (addAdmin 7 "Alice" demo_processor))) = true.
Proof.
  split; [discriminate|].
  apply (proj1 (proj2 super_admin_is_permanent) "Alice"). discriminate.
Defined.

(** *** Progress aggregation *)

Local Open Scope float_scope.

Lemma map_set_values {V} (P : V -> Prop) k v (m : list (string * V)) :
  P v -> Forall (fun kv => P (snd kv)) m ->
  Forall (fun kv => P (snd kv)) (JS.map_set k v m).
Proof.
  intros Hv. induction 1 as [|[k' v'] m Hkv Hm IH]; simpl.
  - repeat constructor; exact Hv.
  - destruct (String.eqb k k'); constructor; auto.
Qed.

Lemma getResourceProgress_capped p ti :
  Forall (fun kv => capped (snd kv)) (getResourceProgress p ti).
Proof.
  unfold getResourceProgress.
  generalize (Analysis.materials (TaskInfo.analysis ti)).
  assert (H : Forall (fun kv : string * float => capped (snd kv)) []) by constructor.
  revert H. generalize (@nil (string * float)) as acc.
  intros acc H l. revert acc H.
  induction l as [|[r q] l IH]; intros acc H; simpl; [exact H|].
  apply IH, map_set_values; [apply Math_min_capped | exact H].
Qed.

Lemma getCoordinateProgress_capped p ti :
  Forall (fun kv => capped (snd kv)) (getCoordinateProgress p ti).
Proof.
  unfold getCoordinateProgress.
  destruct (TaskInfo.location ti) as [[|a s]|]; try constructor.
  - apply Math_min_capped.
  - constructor.
Qed.

Lemma running_task_entry :
  activeTasks running_task !! "task_1"%string = Some running_task_info
  /\ taskProgress running_task !! "task_1"%string = Some fresh_progress.
Proof. vm_compute. split; reflexivity. Qed.

(** C1, as the code has it.  The overall progress is the sum of the three
    dimension means weighted 0.4 (agents), 0.3 (resources) and 0.3
    (coordinates), passed through [Math.min(_, 100)]: it is [NaN] or at
    most 100.  The dimension values enter the sum as they are; the
    resource and travel entries are capped at 100 (not floored at 0) when
    they are computed.  Nothing bounds the result from below and nothing
    compares it with the previous one. *)
Theorem overall_progress_is_capped_weighted_sum :
  (forall p,
      calculateOverallProgress p
      = JS.Math_min (0 + dimension_progress (Progress.bots p) * 0.4
                       + dimension_progress (Progress.resources p) * 0.3
                       + dimension_progress (Progress.coordinates p) * 0.3) 100)
  /\ (forall p, capped (calculateOverallProgress p))
  /\ (forall poll taskInfo k v,
        In (k, v) (getResourceProgress poll taskInfo
                   ++ getCoordinateProgress poll taskInfo) ->
        capped v).
Proof.
  split; [reflexivity|]. split.
  - intros p. apply Math_min_capped.
  - intros poll ti k v Hin.
    assert (H : Forall (fun kv : string * float => capped (snd kv))
                  (getResourceProgress poll ti ++ getCoordinateProgress poll ti)).
    { apply Forall_app. split;
        [apply getResourceProgress_capped | apply getCoordinateProgress_capped]. }
    rewrite Forall_forall in H. apply (H (k, v)).
    apply list_elem_of_In. exact Hin.
Qed.

Lemma overall_progress_is_capped_weighted_sum_witness :
  In ("travel"%string, (-100))
     (getResourceProgress poll_farther running_task_info
      ++ getCoordinateProgress poll_farther running_task_info)
  /\ capped (-100).
Proof.
  assert (H : In ("travel"%string, (-100))
                (getResourceProgress poll_farther running_task_info
                 ++ getCoordinateProgress poll_farther running_task_info)).
  { vm_compute. right. left. reflexivity. }
  split; [exact H|].
  exact (proj2 (proj2 overall_progress_is_capped_weighted_sum)
           poll_farther running_task_info "travel"%string (-100) H).
Defined.

(** C1 fails on the code: for a running task, two successive progress
    updates report 30 and then -30; the second is lower than the first
    and below 0, and the travel dimension enters the sum as -100. *)
Lemma overall_progress_regresses_below_zero :
  let c1 := updateProgress poll_halfway "task_1" running_task in
  let c2 := updateProgress poll_farther "task_1" c1 in
  TaskInfo.status <$> activeTasks c1 !! "task_1"%string = Some "running"%string
  /\ Progress.overall <$> taskProgress c1 !! "task_1"%string = Some 30
  /\ TaskInfo.status <$> activeTasks c2 !! "task_1"%string = Some "running"%string
  /\ Progress.overall <$> taskProgress c2 !! "task_1"%string = Some (-30)
  /\ Progress.coordinates <$> taskProgress c2 !! "task_1"%string
     = Some [("travel"%string, -100)]
  /\ (-30 <? 30) = true /\ (-30 <? 0) = true /\ (-100 <? 0) = true.
Proof. vm_compute. repeat split. Qed.

Lemma calculateOverallProgress_empty p :
  Progress.bots p = [] \/ Progress.resources p = []
  \/ Progress.coordinates p = [] ->
  calculateOverallProgress p = nan.
Proof.
  intros H. unfold calculateOverallProgress.
  destruct H as [H|[H|H]]; rewrite H, dimension_progress_empty.
  - change (nan * 0.4) with nan. rewrite add_nan_r, !add_nan_l. reflexivity.
  - change (nan * 0.3) with nan. rewrite add_nan_r, !add_nan_l. reflexivity.
  - change (nan * 0.3) with nan. rewrite add_nan_r. reflexivity.
Qed.




Local Close Scope float_scope.

(** *** The command gate *)

Lemma sendProgressUpdate_activeTasks t c :
  activeTasks (sendProgressUpdate t c) = activeTasks c.
Proof.
  unfold sendProgressUpdate.
  destruct (activeTasks c !! t), (taskProgress c !! t); reflexivity.
Qed.

Lemma updateProgress_keeps_task p t c id :
  is_Some (activeTasks c !! id) ->
  is_Some (activeTasks (updateProgress p t c) !! id).
Proof.
  intros H. unfold updateProgress.
  destruct (activeTasks c !! t) as [ti|] eqn:Ht; [|exact H].
  destruct (taskProgress c !! t) as [pr|] eqn:Hp; [|exact H].
  match goal with
  | |- context [storeProgressUpdate ?n ?i ?q ?c1] =>
      assert (Hc1 : is_Some (activeTasks c1 !! id));
      [|destruct (storeProgressUpdate n i q c1) as [c2|] eqn:Hs; [|exact Hc1]]
  end.
  - simpl. rewrite lookup_insert_is_Some. destruct (decide (t = id)); auto.
  - rewrite sendProgressUpdate_activeTasks.
    unfold storeProgressUpdate in Hs.
    match type of Hs with
    | match ?l with _ => _ end = _ => destruct l; [|discriminate]
    end.
    injection Hs as <-. exact Hc1.
Qed.

Lemma updateTaskStatus_keeps_task t s v c id :
  is_Some (activeTasks c !! id) ->
  is_Some (activeTasks (updateTaskStatus t s v c) !! id).
Proof.
  intros H. unfold updateTaskStatus.
  destruct (activeTasks c !! t) as [ti|] eqn:Ht; [|exact H].
  destruct (taskProgress c !! t) as [pr|] eqn:Hp; [|exact H].
  rewrite sendProgressUpdate_activeTasks.
  destruct (TaskInfo.progressInterval ti); simpl;
    rewrite lookup_insert_is_Some; destruct (decide (t = id)); auto.
Qed.

Lemma polls_keep_task ps t c id :
  is_Some (activeTasks c !! id) ->
  is_Some (activeTasks (fold_left (fun c p => updateProgress p t c) ps c) !! id).
Proof.
  revert c. induction ps as [|p ps IH]; intros c H; simpl; [exact H|].
  apply IH, updateProgress_keeps_task, H.
Qed.

(** The natural-language path registers its task whoever asks and
    whatever the command is: neither [isAdmin] nor [admin_only] is read. *)
Lemma processNaturalCommand_registers_task r command username c :
  is_Some (activeTasks (snd (processNaturalCommand r command username c))
           !! generateTaskId r).
Proof.
  unfold processNaturalCommand, executeWithProgressTracking.
  set (c1 := emit _ (initializeTaskTracking _ _ _ _ _)).
  assert (H1 : is_Some (activeTasks c1 !! generateTaskId r)).
  { subst c1. simpl. rewrite lookup_insert_eq. eauto. }
  unfold startProgressTracking.
  destruct (activeTasks c1 !! generateTaskId r) as [ti|] eqn:Hti;
    [|destruct H1; discriminate].
  match goal with
  | |- context [fold_left ?f ?ps ?c0] =>
      assert (H2 : is_Some (activeTasks (fold_left f ps c0) !! generateTaskId r))
  end.
  { apply polls_keep_task. simpl. rewrite lookup_insert_eq. eauto. }
  destruct (executeParsedCommand r _ username); simpl.
  - apply updateTaskStatus_keeps_task, H2.
  - match goal with |- context [taskProgress ?c !! ?k] =>
      destruct (taskProgress c !! k) end;
      [apply updateTaskStatus_keeps_task, H2 | exact H2].
Qed.

(** On the structured path a gated command changes nothing but the
    console. *)
Lemma processCommand_gate e d c :
  admin_gate d c = true ->
  processCommand e d c
  = (Some false,
     emit (ConsoleError ("User " +:+ CommandData.username d
             +:+ " is not authorized to use admin command: "
             +:+ CommandData.action d)) c).
Proof. intros H. unfold processCommand. rewrite H. reflexivity. Qed.

(** C8, the code at the failing input.  [Mallory] is not an admin and
    [ban] is marked admin-only.  The structured path rejects the command
    and creates no task; the natural-language path parses the same
    command to the action [ban], registers a task for it and runs it to
    completion. *)
Theorem natural_command_bypasses_admin_gate :
  let after :=
    processNaturalCommand demo_run "Bot1 ban Steve" "Mallory" demo_processor in
  isAdmin demo_processor "Mallory" = false
  /\ Command.admin_only <$> commands demo_processor !! "ban" = Some true
  /\ ParsedCommand.action (parseNaturalCommand demo_processor "Bot1 ban Steve")
     = Some ("admin", "ban")
  /\ fst (processCommand demo_env ban_by_mallory demo_processor) = Some false
  /\ activeTasks (snd (processCommand demo_env ban_by_mallory demo_processor)) = ∅
  /\ fst after = Returned "ok"
  /\ TaskInfo.status <$> activeTasks (snd after) !! "task_5000_abc"
     = Some "completed".
Proof. vm_compute. tauto. Qed.

End OrchestratorProperties.

(** ** Properties of the agent *)

Ltac msimpl :=
  cbv beta iota zeta delta
    [mbind mret Agent.M_bind Agent.M_ret Agent.bind Agent.ret
     Agent.get Agent.modify Agent.call Agent.throw Agent.unfinished
     Agent.when Agent.await Agent.get_pathfinder_goal
     Agent.set_pathfinder_goal Agent.try_catch Agent.detached JS.truthy];
  cbn [Agent.self Agent.pathfinder_goal Agent.calls fst snd].

Ltac tr_unfold :=
  cbv beta delta [mbind mret Agent.M_bind Agent.M_ret
                  Agent.when Agent.await].

Section AgentProperties.
Import Agent.

(** *** Navigation goals *)

Lemma same_goal_iff cur g :
  same_goal (Some cur) (Some g) = true <-> structurally_identical cur g.
Proof.
  unfold same_goal, structurally_identical.
  rewrite andb_true_iff, !bool_decide_eq_true. tauto.
Qed.

Lemma setGoal_same w m goal :
  same_goal (currentGoal (self m)) goal = true ->
  setGoal w goal m = (Normal tt, m).
Proof.
  intros H. destruct m as [b pg cs]. unfold setGoal. msimpl.
  simpl in H. rewrite H. reflexivity.
Qed.

Lemma submissions_app a b :
  submissions (a ++ b) = (submissions a + submissions b)%nat.
Proof. unfold submissions. rewrite List.filter_app, length_app. reflexivity. Qed.

Lemma setGoal_new w m g :
  same_goal (currentGoal (self m)) (Some g) = false ->
  World.pathfinder_stop w = None -> World.pathfinder_setGoal w = None ->
  setGoal w (Some g) m
  = (Normal tt,
     {| self := set_currentGoal (Some g) (self m);
        pathfinder_goal := Some g;
        calls := calls m
                 ++ (if JS.truthy (pathfinder_goal m) then [PathfinderStop] else [])
                 ++ [PathfinderSetGoal g] |}).
Proof.
  intros H Hs Hg. destruct m as [b pg cs]. simpl in H.
  unfold setGoal, pathfinder_stop, pathfinder_setGoal. msimpl.
  rewrite H, Hs, Hg.
  destruct pg as [a|]; msimpl; rewrite <- ?app_assoc; reflexivity.
Qed.



(** *** The trace logic *)

Section Traces.
Context (P : Call -> Prop) (T : list Call -> Prop) (HT : absorbs P T).

Lemma absorbs_Forall : absorbs P (Forall P).
Proof. split; [constructor|]. intros x y Hx Hy. apply Forall_app; auto. Qed.

Lemma traces_ret {A} (a : A) : traces T (ret a).
Proof.
  intros m Hm. split; [exact Hm|]. exists []. rewrite app_nil_r.
  split; [reflexivity | apply HT].
Qed.

Lemma traces_throw {A} e : traces T (@throw A e).
Proof.
  intros m Hm. split; [exact Hm|]. exists []. rewrite app_nil_r.
  split; [reflexivity | apply HT].
Qed.

Lemma traces_unfinished {A} : traces T (@unfinished A).
Proof.
  intros m Hm. split; [exact Hm|]. exists []. rewrite app_nil_r.
  split; [reflexivity | apply HT].
Qed.

Lemma traces_bind {A B} (c : M A) (k : A -> M B) :
  traces (Forall P) c -> (forall a, traces T (k a)) -> traces T (bind c k).
Proof.
  intros Hc Hk m Hm. unfold bind.
  destruct (Hc m Hm) as (Hr & new & Hnew & HP).
  destruct (c m) as [[a|e|] m'] eqn:Hcm; simpl in *.
  - destruct (Hk a m' Hr) as (Hr' & new' & Hnew' & HT').
    split; [exact Hr'|]. exists (new ++ new').
    rewrite Hnew', Hnew, app_assoc. split; [reflexivity|].
    apply HT; assumption.
  - split; [exact Hr|]. exists new. split; [exact Hnew|].
    rewrite <- (app_nil_r new). apply HT; [exact HP | apply HT].
  - split; [exact Hr|]. exists new. split; [exact Hnew|].
    rewrite <- (app_nil_r new). apply HT; [exact HP | apply HT].
Qed.

Lemma traces_get {A B} (f : BotProperties -> A) (k : A -> M B) :
  (forall a, traces T (k a)) -> traces T (bind (get f) k).
Proof. intros Hk m Hm. unfold bind, get. apply Hk, Hm. Qed.

Lemma traces_get_required {B} (k : Z -> M B) :
  traces T (k 20) -> traces T (bind (get requiredWoodCount) k).
Proof. intros Hk m Hm. unfold bind, get. rewrite Hm. apply Hk, Hm. Qed.

Lemma traces_get_pathfinder_goal {B} (k : option Goal.t -> M B) :
  (forall a, traces T (k a)) -> traces T (bind get_pathfinder_goal k).
Proof. intros Hk m Hm. unfold bind, get_pathfinder_goal. apply Hk, Hm. Qed.

Lemma traces_modify f :
  (forall b, requiredWoodCount (f b) = requiredWoodCount b) ->
  traces T (modify f).
Proof.
  intros Hf m Hm. unfold modify; simpl. rewrite Hf. split; [exact Hm|].
  exists []. rewrite app_nil_r. split; [reflexivity | apply HT].
Qed.

Lemma traces_set_pathfinder_goal g : traces T (set_pathfinder_goal g).
Proof.
  intros m Hm. split; [exact Hm|]. exists []. simpl. rewrite app_nil_r.
  split; [reflexivity | apply HT].
Qed.

Lemma traces_call c : P c -> traces (Forall P) (call c).
Proof.
  intros Hc m Hm. split; [exact Hm|]. exists [c]. split; [reflexivity|].
  repeat constructor. exact Hc.
Qed.

Lemma traces_weaken {A} (c : M A) : traces (Forall P) c -> traces T c.
Proof.
  intros Hc m Hm. destruct (Hc m Hm) as (Hr & new & Hnew & HP).
  split; [exact Hr|]. exists new. split; [exact Hnew|].
  rewrite <- (app_nil_r new). apply HT; [exact HP | apply HT].
Qed.

Lemma traces_try_catch {A} (c : M A) h :
  traces (Forall P) c -> (forall e, traces T (h e)) -> traces T (try_catch c h).
Proof.
  intros Hc Hh m Hm. unfold try_catch.
  destruct (Hc m Hm) as (Hr & new & Hnew & HP).
  destruct (c m) as [[a|e|] m'] eqn:Hcm; simpl in *.
  - split; [exact Hr|]. exists new. split; [exact Hnew|].
    rewrite <- (app_nil_r new). apply HT; [exact HP | apply HT].
  - destruct (Hh e m' Hr) as (Hr' & new' & Hnew' & HT').
    split; [exact Hr'|]. exists (new ++ new').
    rewrite Hnew', Hnew, app_assoc. split; [reflexivity|].
    apply HT; assumption.
  - split; [exact Hr|]. exists new. split; [exact Hnew|].
    rewrite <- (app_nil_r new). apply HT; [exact HP | apply HT].
Qed.

Lemma traces_detached (T' : list Call -> Prop) (c : M unit) :
  traces T' c ->
  (forall x, T' x -> T x) ->
  (forall x e, T' x -> T (x ++ [UnhandledRejection e])) ->
  traces T (detached c).
Proof.
  intros Hc Hw Hrej m Hm. unfold detached.
  destruct (Hc m Hm) as (Hr & new & Hnew & HP).
  destruct (c m) as [[a|e|] m'] eqn:Hcm; simpl in *.
  - split; [exact Hr|]. exists new. split; [exact Hnew | auto].
  - split; [exact Hr|]. exists (new ++ [UnhandledRejection e]).
    rewrite Hnew, app_assoc. split; [reflexivity | auto].
  - split; [exact Hr|]. exists new. split; [exact Hnew | auto].
Qed.

End Traces.

Ltac tr_leaf HT HP :=
  lazymatch goal with
  | |- traces _ (ret _) => eapply traces_ret; exact HT
  | |- traces _ (throw _) => eapply traces_throw; exact HT
  | |- traces _ unfinished => eapply traces_unfinished; exact HT
  | |- traces _ (modify _) =>
      eapply traces_modify; [exact HT | intro; reflexivity]
  | |- traces _ (set_pathfinder_goal _) =>
      eapply traces_set_pathfinder_goal; exact HT
  | |- traces _ (call _) =>
      eapply traces_weaken;
      [exact HT | apply traces_call; try (apply HP; reflexivity)]
  | |- _ => idtac
  end.

Ltac tr_with leaf P HT HP :=
  tr_unfold;
  lazymatch goal with
  | |- traces _ (bind (get requiredWoodCount) _) =>
      apply traces_get_required; tr_with leaf P HT HP
  | |- traces _ (bind (get _) _) =>
      apply traces_get; intro; tr_with leaf P HT HP
  | |- traces _ (bind get_pathfinder_goal _) =>
      apply traces_get_pathfinder_goal; intro; tr_with leaf P HT HP
  | |- traces _ (bind _ _) =>
      eapply traces_bind;
      [ exact HT
      | tr_with leaf P (absorbs_Forall P) HP
      | intro; tr_with leaf P HT HP ]
  | |- traces _ (try_catch _ _) =>
      eapply traces_try_catch;
      [ exact HT
      | tr_with leaf P (absorbs_Forall P) HP
      | intro; tr_with leaf P HT HP ]
  | |- traces _ (if ?b then _ else _) =>
      destruct b eqn:?; tr_with leaf P HT HP
  | |- traces _ (match ?x with _ => _ end) =>
      destruct x eqn:?; tr_with leaf P HT HP
  | |- _ => leaf HT HP
  end.

Section Benign.
Context (P : Call -> Prop) (T : list Call -> Prop) (HT : absorbs P T)
        (HP : benign P).

Lemma traces_chat w msg : traces T (chat w msg).
Proof. unfold chat, mineflayerBot_chat. tr_with tr_leaf P HT HP. Qed.

Lemma traces_setGoal w goal : traces T (setGoal w goal).
Proof.
  unfold setGoal, pathfinder_stop, pathfinder_setGoal.
  tr_with tr_leaf P HT HP.
Qed.

End Benign.

Ltac stage_leaf HT HP :=
  lazymatch goal with
  | |- traces _ (chat _ _) => eapply traces_chat; [exact HT | exact HP]
  | |- traces _ (setGoal _ _) => eapply traces_setGoal; [exact HT | exact HP]
  | |- _ => tr_leaf HT HP
  end.

(** *** The resource progression planner *)

Lemma stage_ok_benign w : benign (stage_ok w).
Proof. intros [] H; try discriminate H; exact I. Qed.

Lemma benign_not_craft : benign (fun c => is_craft c = false).
Proof. intros c H. exact H. Qed.

Lemma justified_absorbs w ws : absorbs (stage_ok w) (justified (w :: ws)).
Proof.
  split; [constructor|]. intros x y Hx Hy.
  induction Hx as [|c x Hc Hx IH]; simpl; [exact Hy|].
  apply justified_craft; assumption.
Qed.

Lemma justified_absorbs_other ws :
  absorbs (fun c => is_craft c = false) (justified ws).
Proof.
  split; [constructor|]. intros x y Hx Hy.
  induction Hx as [|c x Hc Hx IH]; simpl; [exact Hy|].
  apply justified_other; assumption.
Qed.

Lemma justified_rejection ws x e :
  justified ws x -> justified ws (x ++ [UnhandledRejection e]).
Proof.
  induction 1; simpl.
  - apply justified_other; [reflexivity | constructor].
  - apply justified_other; assumption.
  - apply justified_craft; assumption.
  - apply justified_later; assumption.
Qed.

Lemma traces_after_table_check (T : list Call -> Prop) X
    (k : Z -> bool -> State -> M unit) :
  (forall st, traces T (k 20 X st)) ->
  traces T
    (bind (modify (set_hasCraftingTable X))
       (fun _ =>
          bind (get requiredWoodCount)
            (fun required =>
               bind (get hasCraftingTable)
                 (fun hasTable =>
                    bind (get state) (fun st => k required hasTable st))))).
Proof.
  intros H m Hm. unfold bind, modify, get. simpl.
  rewrite Hm.
  apply (H (state (self m))
           {| self := set_hasCraftingTable X (self m);
              pathfinder_goal := pathfinder_goal m; calls := calls m |}).
  exact Hm.
Qed.

Section Planner.
Context (w : World.t).
Let P := stage_ok w.
Let HP : benign P := stage_ok_benign w.

Ltac tr HT := tr_with stage_leaf P HT HP.

Lemma traces_craft_each_tool table tools :
  wood_threshold_met w -> station_exists w ->
  traces (Forall P) (craft_each_tool w table tools).
Proof.
  intros Hw Hs. induction tools as [|t tools IH]; simpl.
  - tr (absorbs_Forall P).
  - tr (absorbs_Forall P); [split; assumption | exact IH].
Qed.

Lemma traces_craftBasicTools_then later reevaluate :
  wood_threshold_met w -> station_exists w ->
  traces (justified later) reevaluate ->
  traces (justified (w :: later)) (craftBasicTools_then reevaluate w).
Proof.
  intros Hw Hs HR. unfold craftBasicTools_then.
  pose proof (justified_absorbs w later) as HT.
  tr HT.
  - apply traces_craft_each_tool; assumption.
  - eapply traces_detached; [exact HR | |].
    + intros x Hx. apply justified_later, Hx.
    + intros x e Hx. apply justified_later, justified_rejection, Hx.
Qed.

Lemma traces_craft_crafting_table :
  wood_threshold_met w -> traces (Forall P) (craft_crafting_table w).
Proof.
  intros Hw. unfold craft_crafting_table.
  tr (absorbs_Forall P); exact Hw.
Qed.

Lemma traces_handleBasicResourceGathering_with later K :
  (wood_threshold_met w -> station_exists w ->
   traces (justified (w :: later)) K) ->
  traces (justified (w :: later)) (handleBasicResourceGathering_with K w).
Proof.
  intros HK. pose proof (justified_absorbs w later) as HT.
  unfold handleBasicResourceGathering_with. tr_unfold.
  apply traces_get; intros needs. destruct (negb needs); [tr HT|].
  cbv zeta. apply traces_after_table_check. intros st.
  destruct (negb (Qle_bool (inject_Z 20) (woodCount w))) eqn:Hwood; [tr HT|].
  assert (Hw : wood_threshold_met w).
  { apply negb_false_iff, Qle_bool_iff in Hwood. exact Hwood. }
  destruct (negb (JS.truthy _ || JS.truthy _)) eqn:Htable.
  - tr HT. eapply traces_weaken; [exact HT|].
    apply traces_craft_crafting_table, Hw.
  - assert (Hs : station_exists w).
    { apply negb_false_iff, orb_true_iff in Htable. exact Htable. }
    tr HT. eapply traces_detached; [apply HK; assumption | auto |].
    intros x e Hx. apply justified_rejection, Hx.
Qed.

End Planner.

Lemma traces_handleBasicResourceGathering later :
  forall w,
    traces (justified (w :: later)) (handleBasicResourceGathering later w).
Proof.
  induction later as [|w' later IH]; intros w; simpl;
    apply traces_handleBasicResourceGathering_with; intros Hw Hs;
    apply traces_craftBasicTools_then; try assumption.
  - eapply traces_unfinished, justified_absorbs_other.
  - apply IH.
Qed.

Lemma setGoal_None_state w m :
  state (self (snd (setGoal w None m))) = state (self m).
Proof.
  destruct m as [b pg cs]. unfold setGoal, pathfinder_stop, same_goal. msimpl.
  destruct (currentGoal b); destruct pg; destruct (World.pathfinder_stop w);
    reflexivity.
Qed.

Lemma no_craft_filter cs new :
  Forall (fun c => is_craft c = false) new ->
  List.filter is_craft (cs ++ new) = List.filter is_craft cs.
Proof.
  intros H. rewrite List.filter_app.
  induction H as [|c new Hc H IH]; simpl; [apply app_nil_r|].
  rewrite Hc. exact IH.
Qed.

Lemma handleBasicResourceGathering_with_wood_stage K w m :
  needsBasicResources (self m) = true ->
  requiredWoodCount (self m) = 20 ->
  (woodCount w < 20)%Q ->
  state (self (snd (handleBasicResourceGathering_with K w m))) = gathering_wood
  /\ List.filter is_craft (calls (snd (handleBasicResourceGathering_with K w m)))
     = List.filter is_craft (calls m).
Proof.
  intros Hn Hr Hlt.
  assert (Hq : Qle_bool (inject_Z 20) (woodCount w) = false).
  { apply not_true_is_false. rewrite Qle_bool_iff. apply Qlt_not_le, Hlt. }
  set (X := JS.truthy (findInventoryItem w "crafting_table")
            || JS.truthy (World.findBlock w (MatchId "crafting_table") 16)).
  set (m1 := {| self := set_hasCraftingTable X (self m);
                pathfinder_goal := pathfinder_goal m; calls := calls m |}).
  assert (E : handleBasicResourceGathering_with K w m
              = if negb (bool_decide (state (self m) = gathering_wood))
                then setGoal w None
                       {| self := set_state gathering_wood (self m1);
                          pathfinder_goal := pathfinder_goal m1;
                          calls := calls m1 |}
                else (Normal tt, m1)).
  { unfold handleBasicResourceGathering_with. subst m1 X.
    cbv beta iota zeta delta [mbind mret M_bind M_ret bind ret get modify].
    rewrite Hn. simpl. rewrite Hr, Hq. simpl.
    destruct (negb (bool_decide (state (self m) = gathering_wood))); reflexivity. }
  rewrite E. clear E.
  destruct (negb (bool_decide (state (self m) = gathering_wood))) eqn:Hst.
  - split; [rewrite setGoal_None_state; reflexivity|].
    match goal with |- context [setGoal w None ?m0] =>
      destruct (traces_setGoal _ _ (absorbs_Forall _) benign_not_craft w None m0)
        as (_ & new & Hnew & Hno); [exact Hr|] end.
    rewrite Hnew. apply no_craft_filter, Hno.
  - apply negb_false_iff, bool_decide_eq_true in Hst.
    split; [exact Hst | reflexivity].
Qed.

(** Three logs and eight planks count as five logs. *)
Example woodCount_three_logs_eight_planks :
  (woodCount (world 0 [{| Item.name := "oak_log"; Item.count := 3 |};
                       {| Item.name := "birch_planks"; Item.count := 8 |}]
                nothing_found no_recipes craft_succeeds None)
   == 5)%Q.
Proof. reflexivity. Qed.



(** *** Tool crafting *)

Lemma craft_requests_app a b :
  craft_requests (a ++ b) = craft_requests a ++ craft_requests b.
Proof. apply flat_map_app. Qed.

Lemma chat_effect w msg m :
  exists m', chat w msg m = (Normal tt, m')
    /\ state (self m') = state (self m)
    /\ needsBasicResources (self m') = needsBasicResources (self m)
    /\ craft_requests (calls m') = craft_requests (calls m).
Proof.
  destruct m as [b pg cs]. unfold chat, mineflayerBot_chat. msimpl.
  destruct (_ <? _); eexists; (split; [reflexivity|]); simpl; repeat split.
  rewrite craft_requests_app. simpl. apply app_nil_r.
Qed.

Lemma craft_each_tool_failure w table after t :
  tool_fails w t ->
  forall before m,
    Forall (tool_succeeds w) before ->
    exists m',
      craft_each_tool w table (before ++ t :: after) m = (Normal false, m')
      /\ state (self m') = idle
      /\ needsBasicResources (self m') = needsBasicResources (self m)
      /\ craft_requests (calls m')
         = craft_requests (calls m) ++ recipes_tried w (before ++ [t]).
Proof.
  intros Hfail. induction before as [|u before IH]; intros m Hok.
  - simpl. destruct Hfail as [Hnone|(r & rs & e & Hr & He)].
    + rewrite Hnone. msimpl.
      destruct (chat_effect w ("Don't know how to craft " +:+ t +:+ ".") m)
        as (m1 & -> & Hs & Hn & Hc).
      eexists. split; [reflexivity|]. simpl. rewrite Hn, Hc, app_nil_r. auto.
    + rewrite Hr. msimpl. rewrite He.
      match goal with |- context [chat w ?msg ?m0] =>
        destruct (chat_effect w msg m0) as (m1 & -> & Hs & Hn & Hc) end.
      eexists. split; [reflexivity|]. simpl. simpl in Hn, Hc.
      rewrite Hn, Hc, !craft_requests_app. simpl. rewrite !app_nil_r. auto.
  - inversion Hok as [|? ? (r & rs & Hr & Hc) Hok']; subst.
    simpl. rewrite Hr. msimpl. rewrite Hc.
    match goal with |- context [craft_each_tool w table _ ?m0] =>
      destruct (IH m0 Hok') as (m' & -> & Hs & Hn & Hq) end.
    eexists. split; [reflexivity|]. split; [exact Hs|]. split; [exact Hn|].
    rewrite Hq. simpl. rewrite !craft_requests_app. simpl.
    rewrite !app_nil_r, <- app_assoc. reflexivity.
Qed.

(** C6. In the tool-crafting stage (tools are missing and the agent
    stands at a crafting table), when the tools before [t] are crafted
    and crafting [t] fails, because no recipe is found or because the
    craft primitive rejects, [craftBasicTools] ends with the agent idle
    and its needs-basic-resources flag as it was, and the craft requests
    it sent are those for the tools up to [t]: none of the tools after
    [t] is tried. *)
Theorem failed_tool_aborts_batch later w m table before t after :
  neededTools w = before ++ t :: after ->
  World.findBlock w (MatchId "crafting_table") 3 = Some table ->
  Qle_bool (World.distanceTo w (Block.position table)) 3 = true ->
  Forall (tool_succeeds w) before ->
  tool_fails w t ->
  let result := craftBasicTools later w m in
  fst result = Normal tt
  /\ state (self (snd result)) = idle
  /\ needsBasicResources (self (snd result)) = needsBasicResources (self m)
  /\ craft_requests (calls (snd result))
     = craft_requests (calls m) ++ recipes_tried w (before ++ [t]).
Proof.
  intros Hneeded Htable Hnear Hok Hfail.
  assert (E : craftBasicTools later w m
              = bind (craft_each_tool w table (before ++ t :: after))
                  (fun _ => ret tt) m).
  { unfold craftBasicTools, craftBasicTools_then. rewrite Hneeded, Htable, Hnear.
    destruct (craft_each_tool_failure w table after t Hfail before m Hok)
      as (m' & Hrun & _).
    destruct before; cbn [app] in *; msimpl; cbn [negb]; rewrite Hrun;
      reflexivity. }
  cbv zeta. rewrite E. unfold bind, ret.
  destruct (craft_each_tool_failure w table after t Hfail before m Hok)
    as (m' & -> & Hs & Hn & Hc).
  simpl. auto.
Qed.

Lemma failed_tool_aborts_batch_witness :
  tool_fails world_axe_rejected "wooden_axe"
  /\ fst (craftBasicTools [] world_axe_rejected fresh_agent) = Normal tt
  /\ state (self (snd (craftBasicTools [] world_axe_rejected fresh_agent))) = idle
  /\ needsBasicResources
       (self (snd (craftBasicTools [] world_axe_rejected fresh_agent))) = true
  /\ craft_requests
       (calls (snd (craftBasicTools [] world_axe_rejected fresh_agent)))
     = [axe_recipe].
Proof.
  assert (Hfail : tool_fails world_axe_rejected "wooden_axe").
  { right. exists axe_recipe, [], "missing ingredients"%string.
    split; reflexivity. }
  split; [exact Hfail|].
  exact (failed_tool_aborts_batch [] world_axe_rejected fresh_agent
           table_block [] "wooden_axe" ["wooden_pickaxe"]
           eq_refl eq_refl eq_refl (List.Forall_nil _) Hfail).
Defined.

(** *** The tick boundary *)

Lemma finishes_ret {A} (a : A) : finishes (ret a).
Proof. intros m; discriminate. Qed.

Lemma finishes_throw {A} e : finishes (@throw A e).
Proof. intros m; discriminate. Qed.

Lemma finishes_get {A} (f : BotProperties -> A) : finishes (get f).
Proof. intros m; discriminate. Qed.

Lemma finishes_modify f : finishes (modify f).
Proof. intros m; discriminate. Qed.

Lemma finishes_call c : finishes (call c).
Proof. intros m; discriminate. Qed.

Lemma finishes_get_pathfinder_goal : finishes get_pathfinder_goal.
Proof. intros m; discriminate. Qed.

Lemma finishes_set_pathfinder_goal g : finishes (set_pathfinder_goal g).
Proof. intros m; discriminate. Qed.

Lemma finishes_detached c : finishes (detached c).
Proof. intros m. unfold detached. destruct (c m) as [[]]; discriminate. Qed.

Lemma finishes_bind {A B} (c : M A) (k : A -> M B) :
  finishes c -> (forall a, finishes (k a)) -> finishes (bind c k).
Proof.
  intros Hc Hk m. unfold bind. specialize (Hc m).
  destruct (c m) as [[a|e|] m']; simpl in *;
    [apply Hk | discriminate | congruence].
Qed.

Lemma finishes_try_catch {A} (c : M A) h :
  finishes c -> (forall e, finishes (h e)) -> finishes (try_catch c h).
Proof.
  intros Hc Hh m. unfold try_catch. specialize (Hc m).
  destruct (c m) as [[a|e|] m']; simpl in *;
    [discriminate | apply Hh | congruence].
Qed.

Ltac fin_with leaf :=
  tr_unfold;
  lazymatch goal with
  | |- finishes (bind _ _) =>
      apply finishes_bind; [fin_with leaf | intro; fin_with leaf]
  | |- finishes (try_catch _ _) =>
      apply finishes_try_catch; [fin_with leaf | intro; fin_with leaf]
  | |- finishes (if ?b then _ else _) => destruct b; fin_with leaf
  | |- finishes (match ?x with _ => _ end) => destruct x; fin_with leaf
  | |- finishes (ret _) => apply finishes_ret
  | |- finishes (throw _) => apply finishes_throw
  | |- finishes (get _) => apply finishes_get
  | |- finishes (modify _) => apply finishes_modify
  | |- finishes (call _) => apply finishes_call
  | |- finishes get_pathfinder_goal => apply finishes_get_pathfinder_goal
  | |- finishes (set_pathfinder_goal _) => apply finishes_set_pathfinder_goal
  | |- finishes (detached _) => apply finishes_detached
  | |- _ => leaf tt
  end.

Lemma finishes_chat w msg : finishes (chat w msg).
Proof. unfold chat, mineflayerBot_chat. fin_with ltac:(fun _ => idtac). Qed.

Lemma finishes_setGoal w goal : finishes (setGoal w goal).
Proof.
  unfold setGoal, pathfinder_stop, pathfinder_setGoal.
  fin_with ltac:(fun _ => idtac).
Qed.

Ltac fin_leaf x :=
  lazymatch goal with
  | |- finishes (chat _ _) => apply finishes_chat
  | |- finishes (setGoal _ _) => apply finishes_setGoal
  | |- _ => idtac
  end.

Lemma finishes_clearTargetBotToFollow w : finishes (clearTargetBotToFollow w).
Proof. unfold clearTargetBotToFollow. fin_with fin_leaf. Qed.

Lemma finishes_handleFollowing w : finishes (handleFollowing w).
Proof.
  unfold handleFollowing. fin_with fin_leaf.
  all: apply finishes_clearTargetBotToFollow.
Qed.

Lemma finishes_update later w : finishes (update later w).
Proof.
  unfold update. fin_with fin_leaf. all: apply finishes_handleFollowing.
Qed.

(** C2, as the code has it.  A tick always ends normally: an exception
    that escapes [update] is caught at the tick boundary and written to
    the console.  The handler does nothing else: the agent keeps the
    state and the goal it had when the exception was raised, and the
    pathfinder keeps its goal. *)
Theorem tick_catches_and_only_logs later w m :
  fst (tick later w m) = Normal tt
  /\ (forall e m1,
        update later w m = (Throw e, m1) ->
        tick later w m
        = (Normal tt,
           {| self := self m1; pathfinder_goal := pathfinder_goal m1;
              calls := calls m1
                       ++ [ConsoleError ("Error in update loop: " +:+ e)] |})).
Proof.
  unfold tick, try_catch. pose proof (finishes_update later w m) as Hfin.
  destruct (update later w m) as [[[]|e|] m1]; simpl in Hfin.
  - split; [reflexivity|]. intros e m2 H. discriminate H.
  - split; [reflexivity|]. intros e' m2 H. injection H as <- <-. reflexivity.
  - congruence.
Qed.

Lemma tick_catches_and_only_logs_witness :
  fst (update [] world_stop_raises follower) = Throw "GoalChanged"
  /\ tick [] world_stop_raises follower
     = (Normal tt,
        {| self := self follower; pathfinder_goal := Some follow_goal;
           calls := [PathfinderStop;
                     ConsoleError "Error in update loop: GoalChanged"] |}).
Proof.
  split; [reflexivity|].
  apply (proj2 (tick_catches_and_only_logs [] world_stop_raises follower)
           "GoalChanged"
           {| self := self follower; pathfinder_goal := Some follow_goal;
              calls := [PathfinderStop] |}).
  reflexivity.
Defined.

(** C2 fails on the code: stopping the pathfinder raises while the
    follower clears its goal; the tick catches and logs the exception,
    and the agent is left in the following state with its follow goal
    still stored and still active in the pathfinder. *)
Lemma tick_leaves_following_with_goal :
  let after := snd (tick [] world_stop_raises follower) in
  fst (tick [] world_stop_raises follower) = Normal tt
  /\ calls after
     = [PathfinderStop; ConsoleError "Error in update loop: GoalChanged"]
  /\ state (self after) = following
  /\ state (self after) <> idle
  /\ currentGoal (self after) = Some follow_goal
  /\ pathfinder_goal after = Some follow_goal.
Proof. vm_compute. repeat split. discriminate. Qed.

(** *** The sleep check *)

Lemma sleep_check_enabled b w :
  canSleep b = true ->
  sleep_check b w = negb (World.isDay w) && negb (World.isSleeping w).
Proof. intros H. unfold sleep_check. rewrite H. reflexivity. Qed.

Lemma sleep_check_disabled b w : canSleep b = false -> sleep_check b w = true.
Proof. intros H. unfold sleep_check. rewrite H. reflexivity. Qed.

(** C5, the code at the failing input.  With sleeping switched off, in
    daytime and awake, the sleep check is taken: the agent goes to the
    moving-to-sleep state and submits a goal to the bed. *)
Theorem sleep_check_taken_when_disabled :
  let after := snd (handleSleeping world_day_with_bed no_sleep_agent) in
  canSleep (self no_sleep_agent) = false
  /\ World.isDay world_day_with_bed = true
  /\ World.isSleeping world_day_with_bed = false
  /\ sleep_check (self no_sleep_agent) world_day_with_bed = true
  /\ state (self no_sleep_agent) = idle
  /\ state (self after) = moving_to_sleep
  /\ calls after
     = [PathfinderSetGoal (new_GoalGetToBlock (Block.position bed_block))].
Proof. vm_compute. repeat split. Qed.

(** *** The chat cooldown *)

Lemma chat_gate w msg m :
  chat w msg m
  = if chatCooldown (self m) <? World.Date_now w - lastChatTime (self m)
    then (Normal tt,
          {| self := set_lastChatTime (World.Date_now w) (self m);
             pathfinder_goal := pathfinder_goal m;
             calls := calls m ++ [Chat (World.Date_now w) msg] |})
    else (Normal tt, m).
Proof.
  destruct m as [b pg cs]. unfold chat, mineflayerBot_chat. msimpl.
  destruct (_ <? _); reflexivity.
Qed.

(** C7, the code at the failing input.  An agent chats at time 10000 and
    fails to give a stick at time 10001: both messages are sent, one
    millisecond apart, under a cooldown of 5000. *)
Theorem give_ignores_chat_cooldown :
  let after := snd (chat_then_give fresh_agent) in
  chatCooldown (self fresh_agent) = 5000
  /\ calls after = [Chat 10000 "hello"; Chat 10001 "I don't have stick."]
  /\ chat_times (calls after) = [10000; 10001]
  /\ well_spaced (chatCooldown (self fresh_agent)) (chat_times (calls after))
     = false.
Proof. vm_compute. repeat split. Qed.

End AgentProperties.

(** ** Further properties of the orchestrator *)

Section OrchestratorCoverage.
Import Orchestrator.

(** *** The admin tables *)

Lemma admin_tables_consistent_op op c :
  admin_tables_consistent c -> admin_tables_consistent (run_admin_op c op).
Proof.
  intros (Hdom & (now0 & Hsuper) & Hreg).
  destruct op as [now n|n]; simpl.
  - unfold addAdmin. case_bool_decide as Hin; simpl.
    + split; [exact Hdom|]. split; [eauto | exact Hreg].
    + assert (Hn : n ≠ "CodeDevPro").
      { intros ->. apply Hin. rewrite <- Hdom. apply elem_of_dom. eauto. }
      split; [|split].
      * simpl. rewrite dom_insert_L, Hdom. reflexivity.
      * exists now0. simpl. rewrite lookup_insert_ne by done. exact Hsuper.
      * intros n0 p Hn0 Hp. simpl in Hp.
        destruct (decide (n = n0)) as [->|Hne].
        -- rewrite lookup_insert_eq in Hp. injection Hp as <-.
           split; reflexivity.
        -- rewrite lookup_insert_ne in Hp by done. apply (Hreg n0 p Hn0 Hp).
  - unfold removeAdmin.
    destruct (String.eqb_spec n "CodeDevPro") as [->|Hn]; simpl.
    + split; [exact Hdom|]. split; [eauto | exact Hreg].
    + split; [|split].
      * simpl. rewrite dom_delete_L, Hdom. reflexivity.
      * exists now0. simpl. rewrite lookup_delete_ne by done. exact Hsuper.
      * intros n0 p Hn0 Hp. simpl in Hp.
        apply lookup_delete_Some in Hp as [_ Hp]. apply (Hreg n0 p Hn0 Hp).
Qed.

Lemma admin_tables_consistent_constructor cmds categories items quantities
    locations now :
  admin_tables_consistent
    (constructor cmds categories items quantities locations now).
Proof.
  split; [|split]; simpl.
  - apply dom_singleton_L.
  - exists now. apply lookup_singleton_eq.
  - intros n p Hn Hp. rewrite lookup_singleton_ne in Hp by done. discriminate.
Qed.

Lemma admin_tables_consistent_ops ops c :
  admin_tables_consistent c -> admin_tables_consistent (run_admin_ops ops c).
Proof.
  unfold run_admin_ops. revert c.
  induction ops as [|op ops IH]; intros c H; simpl; [exact H|].
  apply IH, admin_tables_consistent_op, H.
Qed.

(** X1. After any sequence of [addAdmin] and [removeAdmin] calls on a
    constructed orchestrator, the permissions map has an entry exactly
    for the members of the admin set; the super admin still holds the
    entry the constructor wrote, and every other admin holds the level
    [admin] with the three permissions [addAdmin] grants. *)
Theorem admin_tables_stay_consistent ops cmds categories items quantities
    locations now :
  admin_tables_consistent
    (run_admin_ops ops (constructor cmds categories items quantities locations now)).
Proof.
  apply admin_tables_consistent_ops, admin_tables_consistent_constructor.
Qed.

(** X2. After any sequence of [addAdmin] and [removeAdmin] calls on a
    constructed orchestrator, [hasPermission] grants the super admin
    every permission, grants nothing to a name that is not an admin, and
    grants any other admin exactly the three permissions [addAdmin]
    wrote; [getAdminPermissions] finds an entry exactly for the admins;
    and [getAdminStatus] reports the membership of the admin set with
    the level [super_admin] for the super admin, [admin] for any other
    admin and [user] for everybody else. *)
Theorem permissions_follow_admin_set ops cmds categories items quantities
    locations now :
  let c :=
    run_admin_ops ops (constructor cmds categories items quantities locations now) in
  (forall permission, hasPermission c "CodeDevPro" permission = true)
  /\ (forall n permission, hasPermission c n permission = true -> isAdmin c n = true)
  /\ (forall n permission,
        n ≠ "CodeDevPro" -> isAdmin c n = true ->
        hasPermission c n permission
        = JS.array_includes regular_permissions permission)
  /\ (forall n, JS.truthy (fst (getAdminPermissions n c)) = isAdmin c n)
  /\ (forall n,
        AdminStatus.isAdmin (fst (getAdminStatus n c)) = isAdmin c n
        /\ AdminStatus.level (fst (getAdminStatus n c))
           = if isAdmin c n then
               if String.eqb n "CodeDevPro" then "super_admin" else "admin"
             else "user").
Proof.
  intros c.
  destruct (admin_tables_consistent_ops ops _
              (admin_tables_consistent_constructor cmds categories items
                 quantities locations now))
    as (Hdom & (now0 & Hsuper) & Hreg).
  fold c in Hdom, Hsuper, Hreg.
  assert (Hentry : forall n,
             isAdmin c n = JS.truthy (adminPermissions c !! n)).
  { intros n. unfold isAdmin. rewrite <- Hdom.
    destruct (adminPermissions c !! n) as [q|] eqn:Hq; simpl.
    - apply bool_decide_eq_true, elem_of_dom. eauto.
    - apply bool_decide_eq_false. rewrite elem_of_dom, Hq. intros [? ?].
      discriminate. }
  split; [|split; [|split; [|split]]].
  - intros p. unfold hasPermission. rewrite Hsuper. reflexivity.
  - intros n p H. unfold hasPermission in H. rewrite Hentry.
    destruct (adminPermissions c !! n); [reflexivity | discriminate].
  - intros n p Hn Hadm. rewrite Hentry in Hadm.
    destruct (adminPermissions c !! n) as [q|] eqn:Hq; [|discriminate].
    unfold hasPermission. rewrite Hq.
    destruct (Hreg n q Hn Hq) as [_ ->]. reflexivity.
  - intros n. rewrite Hentry. unfold getAdminPermissions.
    destruct (adminPermissions c !! n); reflexivity.
  - intros n. unfold getAdminStatus. cbn [fst AdminStatus.isAdmin AdminStatus.level].
    split; [reflexivity|]. rewrite Hentry.
    destruct (adminPermissions c !! n) as [q|] eqn:Hq; cbn [JS.truthy];
      [|reflexivity].
    destruct (String.eqb_spec n "CodeDevPro") as [->|Hn].
    + rewrite Hsuper in Hq. injection Hq as <-. reflexivity.
    + destruct (Hreg n q Hn Hq) as [-> _]. reflexivity.
Qed.

Lemma permissions_follow_admin_set_witness :
  let c := run_admin_ops [AddAdmin 7 "Alice"; AddAdmin 8 "Bob"; RemoveAdmin "Bob"]
             demo_processor in
  "Alice" ≠ "CodeDevPro"
  /\ isAdmin c "Alice" = true
  /\ hasPermission c "Alice" "manage_bots" = true
  /\ hasPermission c "Alice" "manage_admins" = false
  /\ hasPermission c "Bob" "manage_bots" = false.
Proof.
  assert (Hne : "Alice" ≠ "CodeDevPro") by discriminate.
  assert (Hadm : isAdmin (run_admin_ops
                            [AddAdmin 7 "Alice"; AddAdmin 8 "Bob"; RemoveAdmin "Bob"]
                            demo_processor) "Alice" = true) by reflexivity.
  pose proof (proj1 (proj2 (proj2 (permissions_follow_admin_set
     [AddAdmin 7 "Alice"; AddAdmin 8 "Bob"; RemoveAdmin "Bob"]
     {["ban" := {| Orchestrator.Command.admin_only := true |}]}
     [("admin", ["ban"; "kick"]); ("gather", ["collect"])]
     ["wood"] ["10"] ["village"] 0))) "Alice") as H.
  cbv zeta. split; [exact Hne|]. split; [exact Hadm|].
  split; [exact (H "manage_bots" Hne Hadm)|].
  split; [exact (H "manage_admins" Hne Hadm)|].
  reflexivity.
Defined.

(** X3. For a name that is neither an admin nor the super admin and has
    no permissions entry: [addAdmin] returns [true] and makes it an
    admin; a second [addAdmin] returns [false] and changes neither
    table; [removeAdmin] then returns [true] and restores the admin set
    and the permissions map to what they were before the name was
    added. *)
Theorem addAdmin_removeAdmin_round_trip now now' n c :
  n ∉ admins c -> adminPermissions c !! n = None -> n ≠ "CodeDevPro" ->
  let added := snd (addAdmin now n c) in
  fst (addAdmin now n c) = true
  /\ isAdmin added n = true
  /\ fst (addAdmin now' n added) = false
  /\ admins (snd (addAdmin now' n added)) = admins added
  /\ adminPermissions (snd (addAdmin now' n added)) = adminPermissions added
  /\ fst (removeAdmin n added) = true
  /\ admins (snd (removeAdmin n added)) = admins c
  /\ adminPermissions (snd (removeAdmin n added)) = adminPermissions c.
Proof.
  intros Hin Hperm Hn. cbv zeta.
  assert (E : addAdmin now n c
              = (true,
                 emit (ConsoleLog ("Added new admin: " +:+ n))
                   (set_admins ({[n]} ∪ admins c)
                      (<[n := {| AdminPermission.level := "admin";
                                 AdminPermission.permissions :=
                                   ["basic_commands"; "manage_bots"; "manage_teams"];
                                 AdminPermission.addedBy := "CodeDevPro";
                                 AdminPermission.addedAt := now |}]>
                         (adminPermissions c)) c))).
  { unfold addAdmin. rewrite bool_decide_eq_false_2 by exact Hin. reflexivity. }
  rewrite E. cbn [fst snd].
  assert (Hadded : n ∈ admins (emit (ConsoleLog ("Added new admin: " +:+ n))
                   (set_admins ({[n]} ∪ admins c)
                      (<[n := {| AdminPermission.level := "admin";
                                 AdminPermission.permissions :=
                                   ["basic_commands"; "manage_bots"; "manage_teams"];
                                 AdminPermission.addedBy := "CodeDevPro";
                                 AdminPermission.addedAt := now |}]>
                         (adminPermissions c)) c))).
  { simpl. apply elem_of_union_l, elem_of_singleton. reflexivity. }
  split; [reflexivity|]. split; [apply bool_decide_eq_true, Hadded|].
  unfold addAdmin. rewrite bool_decide_eq_true_2 by exact Hadded. cbn [fst snd].
  split; [reflexivity|]. split; [reflexivity|]. split; [reflexivity|].
  unfold removeAdmin.
  destruct (String.eqb_spec n "CodeDevPro") as [->|_]; [done|]. cbn [fst snd].
  split; [reflexivity|]. simpl. split.
  - apply set_eq. intros x.
    rewrite elem_of_difference, elem_of_union, !elem_of_singleton.
    split; [intros [[->|H] Hx]; [done | exact H]
           | intros H; split; [right; exact H | intros ->; done]].
  - rewrite delete_insert_eq. apply delete_id, Hperm.
Qed.

Lemma addAdmin_removeAdmin_round_trip_witness :
  ("Alice" ∉ admins demo_processor)
  /\ admins (snd (removeAdmin "Alice" (snd (addAdmin 7 "Alice" demo_processor))))
     = admins demo_processor.
Proof.
  assert (H1 : "Alice" ∉ admins demo_processor).
  { simpl. intros H. apply elem_of_singleton in H. discriminate H. }
  split; [exact H1|].
  apply (addAdmin_removeAdmin_round_trip 7 8 "Alice" demo_processor H1).
  - reflexivity.
  - discriminate.
Defined.

(** *** The structured command path *)

(** X4. The privilege check of [processCommand] reads
    [commands[action]] only.  When that entry does not gate the caller,
    a command of type [admin] is carried out whoever sends it: [add]
    makes the named user an admin, [remove] of a name other than the
    super admin removes it. *)
Theorem admin_command_runs_when_action_unmarked e d c :
  admin_gate d c = false ->
  CommandData.type d = "admin" ->
  (CommandData.command d = "add" ->
   isAdmin (snd (processCommand e d c)) (CommandData.admin_name d) = true)
  /\ (CommandData.command d = "remove" ->
      CommandData.admin_name d ≠ "CodeDevPro" ->
      isAdmin (snd (processCommand e d c)) (CommandData.admin_name d) = false).
Proof.
  intros Hgate Htype. unfold processCommand. rewrite Hgate, Htype. cbn [snd].
  change (String.eqb "admin" "message") with false.
  change (String.eqb "admin" "action") with false.
  change (String.eqb "admin" "status") with false.
  change (String.eqb "admin" "team") with false.
  change (String.eqb "admin" "admin") with true. cbv iota.
  unfold handleAdminCommand. split.
  - intros ->. cbn. unfold isAdmin. apply bool_decide_eq_true.
    unfold addAdmin.
    destruct (bool_decide (CommandData.admin_name d ∈ admins c)) eqn:Hin; cbn.
    + apply bool_decide_eq_true in Hin. exact Hin.
    + apply elem_of_union_l, elem_of_singleton. reflexivity.
  - intros -> Hn. cbn. unfold isAdmin. apply bool_decide_eq_false.
    unfold removeAdmin.
    destruct (String.eqb_spec (CommandData.admin_name d) "CodeDevPro") as [E|_];
      [done|]. cbn.
    apply not_elem_of_difference. right. apply elem_of_singleton. reflexivity.
Qed.

Lemma admin_command_runs_when_action_unmarked_witness :
  isAdmin demo_processor "Mallory" = false
  /\ admin_gate add_admin_by_mallory demo_processor = false
  /\ isAdmin (snd (processCommand demo_env add_admin_by_mallory demo_processor))
             "Mallory" = true.
Proof.
  split; [reflexivity|]. split; [reflexivity|].
  apply (proj1 (admin_command_runs_when_action_unmarked demo_env
                  add_admin_by_mallory demo_processor eq_refl eq_refl)).
  reflexivity.
Defined.

(** X5. [processCommand] returns [false] exactly when the command table
    marks the action admin-only and the sender is not an admin; it then
    leaves the admin tables, the teams, the saved locations and the
    tasks as they were and writes one line with [console.error]. *)
Theorem gated_command_only_logs e d c :
  (fst (processCommand e d c) = Some false
   <-> exists cmd,
         commands c !! CommandData.action d = Some cmd
         /\ Command.admin_only cmd = true
         /\ (CommandData.username d ∉ admins c))
  /\ (fst (processCommand e d c) = Some false ->
      let c' := snd (processCommand e d c) in
      admins c' = admins c /\ adminPermissions c' = adminPermissions c
      /\ teams c' = teams c /\ savedLocations c' = savedLocations c
      /\ activeTasks c' = activeTasks c
      /\ exists line, output c' = output c ++ [ConsoleError line]).
Proof.
  assert (Hg : admin_gate d c = true
               <-> exists cmd,
                     commands c !! CommandData.action d = Some cmd
                     /\ Command.admin_only cmd = true
                     /\ (CommandData.username d ∉ admins c)).
  { unfold admin_gate, isAdmin.
    destruct (commands c !! CommandData.action d) as [cmd|]; split.
    - intros H. apply andb_true_iff in H as [H1 H2].
      apply negb_true_iff, bool_decide_eq_false in H2. eauto.
    - intros (cmd' & E & H1 & H2). injection E as <-.
      rewrite H1. simpl. apply negb_true_iff, bool_decide_eq_false, H2.
    - discriminate.
    - intros (cmd' & E & _). discriminate. }
  unfold processCommand. destruct (admin_gate d c) eqn:Hgate; cbn [fst snd].
  - split; [split; [intros _; apply Hg; reflexivity | reflexivity]|].
    intros _. cbv zeta. repeat split. eexists. reflexivity.
  - split; [split; [discriminate | intros H; apply Hg in H; discriminate]|].
    discriminate.
Qed.

Lemma gated_command_only_logs_witness :
  fst (processCommand demo_env ban_by_mallory demo_processor) = Some false
  /\ teams (snd (processCommand demo_env ban_by_mallory demo_processor))
     = teams demo_processor.
Proof.
  assert (H : fst (processCommand demo_env ban_by_mallory demo_processor) = Some false)
    by reflexivity.
  split; [exact H|].
  apply (proj2 (gated_command_only_logs demo_env ban_by_mallory demo_processor) H).
Defined.

(** X6. Team membership: after [addToTeam] the target is a member of the
    bot's team, after [removeFromTeam] it is not; removing a member that
    was added to a team it was not in restores the team; [removeFromTeam]
    for a bot without a team does nothing at all; neither operation
    touches the team of another bot. *)
Theorem team_membership_round_trip botName targetBot c :
  (targetBot ∈ listTeam_members botName (addToTeam botName targetBot c))
  /\ (targetBot ∉ listTeam_members botName (removeFromTeam botName targetBot c))
  /\ (targetBot ∉ listTeam_members botName c ->
      listTeam_members botName
        (removeFromTeam botName targetBot (addToTeam botName targetBot c))
      = listTeam_members botName c)
  /\ (teams c !! botName = None -> removeFromTeam botName targetBot c = c)
  /\ (forall other,
        other ≠ botName ->
        listTeam_members other (addToTeam botName targetBot c)
        = listTeam_members other c
        /\ listTeam_members other (removeFromTeam botName targetBot c)
           = listTeam_members other c).
Proof.
  unfold listTeam_members, addToTeam, removeFromTeam. repeat split.
  - simpl. rewrite lookup_insert_eq. simpl.
    apply elem_of_union_l, elem_of_singleton. reflexivity.
  - destruct (teams c !! botName) as [members|] eqn:E; simpl.
    + rewrite lookup_insert_eq. simpl.
      apply not_elem_of_difference. right. apply elem_of_singleton. reflexivity.
    + rewrite E. simpl. apply not_elem_of_empty.
  - intros Hnot. simpl. rewrite lookup_insert_eq. simpl.
    rewrite lookup_insert_eq. simpl.
    apply set_eq. intros x.
    rewrite elem_of_difference, elem_of_union, !elem_of_singleton.
    split; [intros [[->|H] Hx]; [done | exact H]
           | intros H; split; [right; exact H | intros ->; done]].
  - intros ->. reflexivity.
  - simpl. rewrite lookup_insert_ne by done. reflexivity.
  - destruct (teams c !! botName) as [members|] eqn:E; simpl; [|reflexivity].
    rewrite lookup_insert_ne by done. reflexivity.
Qed.

Lemma team_membership_round_trip_witness :
  teams demo_processor !! "Bot1" = None
  /\ removeFromTeam "Bot1" "Bot2" demo_processor = demo_processor.
Proof.
  assert (H : teams demo_processor !! "Bot1" = None) by reflexivity.
  split; [exact H|].
  exact (proj1 (proj2 (proj2 (proj2
           (team_membership_round_trip "Bot1" "Bot2" demo_processor)))) H).
Defined.

(** X7. [save_location] for a registered bot stores the bot's position,
    its name and the time under the given name and leaves every other
    saved name as it was.  A later [goto_location] with that name finds
    the entry and runs [handleGoto] on the saved position: when building
    the goal raises it only writes the line [Goto failed]; otherwise it
    hands the bot's pathfinder a goal at the saved position, and writes
    [Goto failed] when the pathfinder raises and [Moving to] with the
    saved position when it does not.  With a name that was never saved
    [goto_location] only writes the line [not found].  Neither outcome
    changes the saved locations. *)
Theorem saved_location_is_found e d c :
  CommandData.target d ∈ bots c ->
  CommandData.action d = "save_location" ->
  let saved := handleAction e d c in
  let position := position_of e (CommandData.target d) in
  savedLocations saved !! CommandData.location_name d
  = Some (position, CommandData.target d, Date_now e)
  /\ (forall other,
        other ≠ CommandData.location_name d ->
        savedLocations saved !! other = savedLocations c !! other)
  /\ (forall e' d',
        CommandData.target d' ∈ bots c ->
        CommandData.action d' = "goto_location" ->
        CommandData.location_name d' = CommandData.location_name d ->
        let bot := CommandData.target d' in
        let failed := ConsoleError ("[" +:+ bot +:+ "] Goto failed:") in
        output (handleAction e' d' saved)
        = output saved
          ++ match GoalBlock_raises e' with
             | Some _ => [failed]
             | None =>
                 BotSetGoal bot position
                 :: match setGoal_raises e' bot with
                    | Some _ => [failed]
                    | None =>
                        [ConsoleLog ("[" +:+ bot +:+ "] Moving to "
                                     +:+ point_text position)]
                    end
             end
        /\ savedLocations (handleAction e' d' saved) = savedLocations saved)
  /\ (forall e' d',
        CommandData.target d' ∈ bots c ->
        CommandData.action d' = "goto_location" ->
        CommandData.location_name d' ≠ CommandData.location_name d ->
        savedLocations c !! CommandData.location_name d' = None ->
        output (handleAction e' d' saved)
        = output saved
          ++ [ConsoleError ("[" +:+ CommandData.target d' +:+ "] Location '"
                            +:+ CommandData.location_name d' +:+ "' not found")]
        /\ savedLocations (handleAction e' d' saved) = savedLocations saved).
Proof.
  intros Hbot Hact. cbv zeta.
  assert (E : handleAction e d c
              = snd (handleSaveLocation e (CommandData.target d) d c)).
  { unfold handleAction. rewrite bool_decide_eq_true_2 by exact Hbot.
    rewrite Hact. reflexivity. }
  rewrite E.
  set (saved := snd (handleSaveLocation e (CommandData.target d) d c)).
  assert (G : forall e' d',
             CommandData.target d' ∈ bots c ->
             CommandData.action d' = "goto_location" ->
             handleAction e' d' saved
             = snd (handleGotoLocation e' (CommandData.target d') d' saved)).
  { intros e' d' Hbot' Hact'. unfold handleAction.
    change (bots saved) with (bots c).
    rewrite bool_decide_eq_true_2 by exact Hbot'. rewrite Hact'. reflexivity. }
  split; [|split; [|split]].
  - simpl. apply lookup_insert_eq.
  - intros other Hne. simpl. apply lookup_insert_ne. congruence.
  - intros e' d' Hbot' Hact' Hname. rewrite (G e' d' Hbot' Hact').
    unfold handleGotoLocation. rewrite Hname.
    change (savedLocations saved)
      with (<[CommandData.location_name d :=
                (position_of e (CommandData.target d), CommandData.target d,
                 Date_now e)]> (savedLocations c)).
    rewrite lookup_insert_eq. unfold handleGoto.
    destruct (GoalBlock_raises e') as [err|]; [split; reflexivity|].
    destruct (setGoal_raises e' (CommandData.target d')) as [err|]; simpl;
      rewrite <- app_assoc; split; reflexivity.
  - intros e' d' Hbot' Hact' Hname Hnone. rewrite (G e' d' Hbot' Hact').
    unfold handleGotoLocation.
    change (savedLocations saved)
      with (<[CommandData.location_name d :=
                (position_of e (CommandData.target d), CommandData.target d,
                 Date_now e)]> (savedLocations c)).
    rewrite lookup_insert_ne by congruence. rewrite Hnone. split; reflexivity.
Qed.

Lemma saved_location_is_found_witness :
  let saved :=
    handleAction demo_env (location_command "save_location") fleet_processor in
  ("Bot1" ∈ bots fleet_processor)
  /\ output (handleAction demo_env (location_command "goto_location") saved)
     = output saved
       ++ [BotSetGoal "Bot1" {| Vec3.x := 0; Vec3.y := 64; Vec3.z := 0 |};
           ConsoleLog "[Bot1] Moving to (0, 64, 0)"]
  /\ output (handleAction env_without_goals (location_command "goto_location")
               saved)
     = output saved ++ [ConsoleError "[Bot1] Goto failed:"].
Proof.
  assert (H : "Bot1" ∈ bots fleet_processor) by (vm_compute; constructor).
  split; [exact H|]. split.
  - exact (proj1 (proj1 (proj2 (proj2
             (saved_location_is_found demo_env (location_command "save_location")
                fleet_processor H eq_refl)))
             demo_env (location_command "goto_location") H eq_refl eq_refl)).
  - exact (proj1 (proj1 (proj2 (proj2
             (saved_location_is_found demo_env (location_command "save_location")
                fleet_processor H eq_refl)))
             env_without_goals (location_command "goto_location") H eq_refl
             eq_refl)).
Defined.

(** *** Intent extraction *)

Lemma take_digits_all_digits s : all_digits (fst (take_digits s)) = true.
Proof.
  induction s as [|ch s IH]; simpl; [reflexivity|].
  destruct (is_digit ch) eqn:E; [|reflexivity].
  destruct (take_digits s) as [d r]. simpl in *. rewrite E, IH. reflexivity.
Qed.

Lemma spaces_then_digits_Some s d r :
  spaces_then_digits s = Some (d, r) ->
  d <> EmptyString /\ all_digits d = true.
Proof.
  unfold spaces_then_digits.
  pose proof (take_digits_all_digits (skip_spaces s)) as H.
  destruct (take_digits (skip_spaces s)) as [[|ch d'] r']; [discriminate|].
  intros [= <- <-]. split; [discriminate | exact H].
Qed.

Lemma match_bot_at_Some s d r :
  match_bot_at s = Some (d, r) -> d <> EmptyString /\ all_digits d = true.
Proof.
  unfold match_bot_at.
  destruct (String.eqb (toLowerCase (substring 0 3 s)) "bot"); [|discriminate].
  destruct (spaces_then_digits (substring 3 (String.length s - 3) s))
    as [[d1 r1]|] eqn:E1.
  - intros [= <- <-]. eapply spaces_then_digits_Some, E1.
  - destruct (substring 3 (String.length s - 3) s) as [|ch s2]; [discriminate|].
    destruct (Ascii.eqb (lower_char ch) "s"); [|discriminate].
    apply spaces_then_digits_Some.
Qed.

Lemma matchAll_bot_digits fuel s :
  Forall (fun d => d <> EmptyString /\ all_digits d = true) (matchAll_bot fuel s).
Proof.
  revert s. induction fuel as [|fuel IH]; intros s; simpl; [constructor|].
  destruct (match_bot_at s) as [[d r]|] eqn:E.
  - constructor; [eapply match_bot_at_Some, E | apply IH].
  - destruct s; [constructor | apply IH].
Qed.

Lemma skip_spaces_length s : (String.length (skip_spaces s) <= String.length s)%nat.
Proof.
  induction s as [|ch s IH]; simpl; [lia|].
  destruct (is_space ch); simpl; lia.
Qed.

Lemma take_digits_length s :
  (String.length (fst (take_digits s)) + String.length (snd (take_digits s))
   = String.length s)%nat.
Proof.
  induction s as [|ch s IH]; simpl; [reflexivity|].
  destruct (is_digit ch); [|simpl; lia].
  destruct (take_digits s) as [d r]. simpl in *. lia.
Qed.

Lemma spaces_then_digits_shorter s d r :
  spaces_then_digits s = Some (d, r) -> (String.length r < String.length s)%nat.
Proof.
  unfold spaces_then_digits.
  pose proof (take_digits_length (skip_spaces s)) as H.
  pose proof (skip_spaces_length s) as H'.
  destruct (take_digits (skip_spaces s)) as [[|ch d'] r']; [discriminate|].
  intros [= <- <-]. simpl in H. lia.
Qed.

Lemma substring_length_le n m s :
  (String.length (substring n m s) <= String.length s)%nat.
Proof.
  revert n m. induction s as [|ch s IH]; intros [|n] [|m]; simpl; try lia.
  - specialize (IH 0%nat m). lia.
  - specialize (IH n 0%nat). lia.
  - specialize (IH n (S m)). lia.
Qed.

Lemma match_bot_at_shorter s d r :
  match_bot_at s = Some (d, r) -> (String.length r < String.length s)%nat.
Proof.
  unfold match_bot_at.
  destruct (String.eqb (toLowerCase (substring 0 3 s)) "bot"); [|discriminate].
  pose proof (substring_length_le 3 (String.length s - 3) s) as Hs.
  destruct (spaces_then_digits (substring 3 (String.length s - 3) s))
    as [[d1 r1]|] eqn:E1.
  - intros [= <- <-]. apply spaces_then_digits_shorter in E1. lia.
  - destruct (substring 3 (String.length s - 3) s) as [|ch s2]; [discriminate|].
    destruct (Ascii.eqb (lower_char ch) "s"); [|discriminate].
    intros H. apply spaces_then_digits_shorter in H. simpl in Hs. lia.
Qed.

(** The bound given to [matchAll_bot] is enough: a larger one finds the
    same matches. *)
Lemma matchAll_bot_fuel n : forall s m,
  (String.length s < n)%nat -> (String.length s < m)%nat ->
  matchAll_bot n s = matchAll_bot m s.
Proof.
  induction n as [|n IH]; intros s m Hn Hm; [lia|].
  destruct m as [|m]; [lia|]. simpl.
  destruct (match_bot_at s) as [[d r]|] eqn:E.
  - apply match_bot_at_shorter in E. f_equal. apply IH; lia.
  - destruct s as [|ch s]; [reflexivity|]. simpl in *. apply IH; lia.
Qed.

(** X8. With the words [all bots] in the text, [extractBotNames] answers
    with every connected bot; otherwise each name it returns is [Bot]
    followed by the one or more digits of a match.  The scan is
    complete: trying more positions than the text has characters finds
    the same matches. *)
Theorem extractBotNames_shape c command :
  (JS.includes command "all bots" = true ->
   extractBotNames c command = bots c)
  /\ (JS.includes command "all bots" = false ->
      Forall bot_identifier (extractBotNames c command))
  /\ (forall fuel,
        (String.length command < fuel)%nat ->
        matchAll_bot fuel command
        = matchAll_bot (S (String.length command)) command).
Proof.
  unfold extractBotNames. split; [intros ->; reflexivity|]. split.
  - intros ->.
    induction (matchAll_bot_digits (S (String.length command)) command)
      as [|d l [Hne Hd] _ IH]; simpl; constructor; [|exact IH].
    exists d. auto.
  - intros fuel H. apply matchAll_bot_fuel; lia.
Qed.

Lemma extractBotNames_shape_witness :
  JS.includes "bot1 and bots 22 dig" "all bots" = false
  /\ Forall bot_identifier (extractBotNames demo_processor "bot1 and bots 22 dig")
  /\ extractBotNames demo_processor "bot1 and bots 22 dig" = ["Bot1"; "Bot22"].
Proof.
  split; [reflexivity|]. split; [|reflexivity].
  exact (proj1 (proj2 (extractBotNames_shape demo_processor "bot1 and bots 22 dig"))
           eq_refl).
Defined.

Lemma extractAction_in_Some command category actions r :
  extractAction_in command category actions = Some r ->
  exists a, r = (category, a) /\ In a actions /\ JS.includes command a = true.
Proof.
  induction actions as [|a actions IH]; simpl; [discriminate|].
  destruct (JS.includes command a) eqn:E.
  - intros [= <-]. exists a. auto.
  - intros H. destruct (IH H) as (a' & -> & Hin & Hinc). exists a'. auto.
Qed.

Lemma extractAction_in_None command category actions :
  extractAction_in command category actions = None <->
  forall a, In a actions -> JS.includes command a = false.
Proof.
  induction actions as [|a actions IH]; simpl.
  - split; [intros _ a [] | reflexivity].
  - destruct (JS.includes command a) eqn:E.
    + split; [discriminate|]. intros H. rewrite (H a) in E by auto. discriminate.
    + rewrite IH. split.
      * intros H a' [<-|Hin]; auto.
      * intros H a' Hin. apply H. auto.
Qed.

(** X9. [extractAction] answers with a category of the table and one of
    its keywords that occurs in the text, and with nothing exactly when
    no keyword of any category occurs in the text. *)
Theorem extractAction_finds_a_listed_keyword c command :
  (forall category action,
      extractAction c command = Some (category, action) ->
      exists actions,
        In (category, actions) (commandCategories c)
        /\ In action actions /\ JS.includes command action = true)
  /\ (extractAction c command = None <->
      forall category actions action,
        In (category, actions) (commandCategories c) ->
        In action actions -> JS.includes command action = false).
Proof.
  unfold extractAction. induction (commandCategories c) as [|[cat acts] l IH]; simpl.
  - split; [discriminate|]. split; [intros _ ? ? ? [] | reflexivity].
  - destruct IH as [IH1 IH2].
    destruct (extractAction_in command cat acts) as [r|] eqn:E.
    + split.
      * intros category action [= ->].
        destruct (extractAction_in_Some _ _ _ _ E) as (a & [= <- <-] & Hin & Hinc).
        exists acts. auto.
      * split; [discriminate|]. intros H.
        destruct (extractAction_in_Some _ _ _ _ E) as (a & _ & Hin & Hinc).
        rewrite (H cat acts a) in Hinc by auto. discriminate.
    + split.
      * intros category action H. destruct (IH1 _ _ H) as (actions & ? & ? & ?).
        exists actions. auto.
      * rewrite IH2. rewrite extractAction_in_None in E. split.
        -- intros H category actions action [[= <- <-]|Hin] Ha; [auto | eauto].
        -- intros H category actions action Hin Ha. eapply H; eauto.
Qed.

Lemma extractAction_finds_a_listed_keyword_witness :
  extractAction demo_processor "bot1 collect wood" = Some ("gather", "collect")
  /\ exists actions,
       In ("gather", actions) (commandCategories demo_processor)
       /\ In "collect" actions
       /\ JS.includes "bot1 collect wood" "collect" = true.
Proof.
  split; [reflexivity|].
  exact (proj1 (extractAction_finds_a_listed_keyword demo_processor
                  "bot1 collect wood") "gather" "collect" eq_refl).
Defined.

Lemma find_append {A} (f : A -> bool) l1 l2 :
  find f (l1 ++ l2)
  = match find f l1 with Some x => Some x | None => find f l2 end.
Proof.
  induction l1 as [|x l1 IH]; simpl; [reflexivity|].
  destruct (f x); [reflexivity | exact IH].
Qed.

Lemma find_nothing {A} (f : A -> bool) l :
  find f l = None <-> forall x, In x l -> f x = false.
Proof.
  split; [apply find_none|].
  induction l as [|x l IH]; simpl; [reflexivity|]. intros H.
  rewrite (H x) by auto. apply IH. intros y Hy. apply H. auto.
Qed.

Lemma last_included_spec command vocabulary acc :
  fold_left (fun acc w => if JS.includes command w then Some w else acc)
            vocabulary acc
  = match find (fun w => JS.includes command w) (rev vocabulary) with
    | Some w => Some w
    | None => acc
    end.
Proof.
  revert acc. induction vocabulary as [|w l IH]; intros acc; simpl; [reflexivity|].
  rewrite IH, find_append. destruct (find _ (rev l)); [reflexivity|].
  simpl. destruct (JS.includes command w); reflexivity.
Qed.

(** X10. In the parsed command the item and the quantity are the last
    word of their vocabulary that occurs in the lower-cased text, the
    location is the first; a field is empty exactly when no word of its
    vocabulary occurs, and a word found is a vocabulary word that occurs
    in the text. *)
Theorem parameters_are_vocabulary_words c command :
  let p := parseNaturalCommand c command in
  let text := toLowerCase command in
  ParsedCommand.item p
  = find (fun w => JS.includes text w) (rev (parameter_items c))
  /\ ParsedCommand.quantity p
     = find (fun w => JS.includes text w) (rev (parameter_quantities c))
  /\ ParsedCommand.location p
     = find (fun w => JS.includes text w) (parameter_locations c)
  /\ (ParsedCommand.item p = None <->
      forall w, In w (parameter_items c) -> JS.includes text w = false)
  /\ (ParsedCommand.location p = None <->
      forall w, In w (parameter_locations c) -> JS.includes text w = false)
  /\ (forall w, ParsedCommand.item p = Some w ->
        In w (parameter_items c) /\ JS.includes text w = true)
  /\ (forall w, ParsedCommand.location p = Some w ->
        In w (parameter_locations c) /\ JS.includes text w = true).
Proof.
  cbv zeta. unfold parseNaturalCommand, last_included, extractLocation. simpl.
  rewrite !last_included_spec.
  set (text := toLowerCase command).
  assert (E : forall l, match find (fun w => JS.includes text w) l with
                        | Some w => Some w | None => None end
                        = find (fun w => JS.includes text w) l).
  { intros l. destruct (find _ l); reflexivity. }
  rewrite !E.
  split; [reflexivity|]. split; [reflexivity|]. split; [reflexivity|].
  split; [|split; [|split]].
  - rewrite (find_nothing (fun w => JS.includes text w)). split.
    + intros H w Hin. apply H, in_rev. rewrite rev_involutive. exact Hin.
    + intros H w Hin. apply H, in_rev, Hin.
  - apply (find_nothing (fun w => JS.includes text w)).
  - intros w H. apply find_some in H as [Hin Hinc]. split; [|exact Hinc].
    apply in_rev, Hin.
  - intros w H. apply find_some in H. exact H.
Qed.

Lemma parameters_are_vocabulary_words_witness :
  ParsedCommand.item
    (parseNaturalCommand demo_processor "Bot1 collect 10 WOOD at village")
  = Some "wood"
  /\ In "wood" (parameter_items demo_processor)
  /\ JS.includes (toLowerCase "Bot1 collect 10 WOOD at village") "wood" = true.
Proof.
  split; [reflexivity|].
  exact (proj1 (proj2 (proj2 (proj2 (proj2 (proj2
           (parameters_are_vocabulary_words demo_processor
              "Bot1 collect 10 WOOD at village"))))))
           "wood" eq_refl).
Defined.

Lemma lower_char_idempotent ch : lower_char (lower_char ch) = lower_char ch.
Proof. destruct ch as [[] [] [] [] [] [] [] []]; reflexivity. Qed.

Lemma toLowerCase_idempotent s : toLowerCase (toLowerCase s) = toLowerCase s.
Proof.
  induction s as [|ch s IH]; simpl; [reflexivity|].
  rewrite lower_char_idempotent, IH. reflexivity.
Qed.

(** X11. Intent extraction does not depend on the case of the ASCII
    letters of the command: the command and its lower-cased form parse
    to the same bots, action, item, quantity and location. *)
Theorem parse_ignores_letter_case c command :
  let p := parseNaturalCommand c command in
  let q := parseNaturalCommand c (toLowerCase command) in
  ParsedCommand.bots q = ParsedCommand.bots p
  /\ ParsedCommand.action q = ParsedCommand.action p
  /\ ParsedCommand.item q = ParsedCommand.item p
  /\ ParsedCommand.quantity q = ParsedCommand.quantity p
  /\ ParsedCommand.location q = ParsedCommand.location p.
Proof.
  cbv zeta. unfold parseNaturalCommand. simpl.
  rewrite toLowerCase_idempotent. repeat split.
Qed.

(** *** The life of a task *)

Lemma timers_set_app a b : timers_set (a ++ b) = timers_set a ++ timers_set b.
Proof. apply flat_map_app. Qed.

Lemma timers_cleared_app a b :
  timers_cleared (a ++ b) = timers_cleared a ++ timers_cleared b.
Proof. apply flat_map_app. Qed.

Lemma sendProgressUpdate_effect t c :
  activeTasks (sendProgressUpdate t c) = activeTasks c
  /\ taskProgress (sendProgressUpdate t c) = taskProgress c
  /\ taskUpdates (sendProgressUpdate t c) = taskUpdates c
  /\ exists new, output (sendProgressUpdate t c) = output c ++ new
                 /\ timers_set new = [] /\ timers_cleared new = [].
Proof.
  unfold sendProgressUpdate.
  destruct (activeTasks c !! t), (taskProgress c !! t); simpl;
    (split; [reflexivity|]); (split; [reflexivity|]); (split; [reflexivity|]);
    try (exists []; rewrite app_nil_r; repeat split; fail).
  eexists. split; [reflexivity|]. split; reflexivity.
Qed.

Lemma updateProgress_tracked poll t c id status h :
  tracked id status h c ->
  tracked id status h (updateProgress poll t c)
  /\ exists new, output (updateProgress poll t c) = output c ++ new
                 /\ timers_set new = [] /\ timers_cleared new = [].
Proof.
  intros (ti & p & Hti & Hp & Hs & Hh). unfold updateProgress.
  destruct (activeTasks c !! t) as [ti'|] eqn:Et;
    [|split; [exists ti, p; auto | exists []; rewrite app_nil_r; auto]].
  destruct (taskProgress c !! t) as [p'|] eqn:Ep;
    [|split; [exists ti, p; auto | exists []; rewrite app_nil_r; auto]].
  match goal with
  | |- context [storeProgressUpdate ?n ?i ?q ?c1] =>
      assert (Hc1 : tracked id status h c1
                    /\ output c1 = output c);
      [|destruct (storeProgressUpdate n i q c1) as [c2|] eqn:Hst]
  end.
  - split; [|reflexivity]. unfold tracked. simpl.
    destruct (decide (t = id)) as [->|Hne].
    + rewrite !lookup_insert_eq. rewrite Hti in Et. injection Et as <-.
      eexists _, _. split; [reflexivity|]. split; [reflexivity|].
      destruct (_ <=? _)%float; simpl; auto.
    + rewrite !lookup_insert_ne by done. exists ti, p. auto.
  - destruct Hc1 as [(ti1 & p1 & H1 & H2 & H3 & H4) Hout].
    unfold storeProgressUpdate in Hst.
    match type of Hst with
    | match ?l with _ => _ end = _ => destruct l; [|discriminate]
    end.
    injection Hst as <-.
    match goal with |- context [sendProgressUpdate t ?c2] =>
      destruct (sendProgressUpdate_effect t c2) as (Ea & Ep' & _ & new & Eo & Hn1 & Hn2)
    end.
    split.
    + exists ti1, p1. rewrite Ea, Ep'. auto.
    + exists new. rewrite Eo. split; [|auto]. f_equal.
  - destruct Hc1 as [Hc1 Hout]. split; [exact Hc1|].
    exists []. rewrite app_nil_r, Hout. auto.
Qed.

Lemma polls_tracked polls t id status h : forall c,
  tracked id status h c ->
  tracked id status h (fold_left (fun c p => updateProgress p t c) polls c)
  /\ exists new,
       output (fold_left (fun c p => updateProgress p t c) polls c)
       = output c ++ new
       /\ timers_set new = [] /\ timers_cleared new = [].
Proof.
  induction polls as [|poll polls IH]; intros c H; simpl.
  - split; [exact H|]. exists []. rewrite app_nil_r. auto.
  - destruct (updateProgress_tracked poll t c id status h H)
      as (H1 & new1 & E1 & S1 & C1).
    destruct (IH _ H1) as (H2 & new2 & E2 & S2 & C2).
    split; [exact H2|]. exists (new1 ++ new2).
    rewrite E2, E1, <- app_assoc, timers_set_app, timers_cleared_app, S1, S2, C1, C2.
    auto.
Qed.

Lemma updateTaskStatus_terminal id status v h c :
  (exists st, tracked id st (Some h) c) ->
  tracked id status (Some h) (updateTaskStatus id status v c)
  /\ (exists p, taskProgress (updateTaskStatus id status v c) !! id = Some p
                /\ Progress.overall p = v)
  /\ output (updateTaskStatus id status v c)
     = output c ++ [ClearInterval h; ProgressUpdate id status v].
Proof.
  intros (st & ti & p & Hti & Hp & Hs & Hh). unfold updateTaskStatus.
  rewrite Hti, Hp, Hh. unfold sendProgressUpdate. simpl.
  rewrite !lookup_insert_eq. simpl. split; [|split].
  - eexists _, _. simpl. rewrite !lookup_insert_eq. repeat split. exact Hh.
  - eexists. rewrite lookup_insert_eq. split; reflexivity.
  - rewrite <- app_assoc. reflexivity.
Qed.

(** X12. Whatever the command, the sender and the progress polls in
    between, [processNaturalCommand] leaves its task registered in a
    terminal status: [completed] with overall progress 100 when the
    execution returns, [failed] when it throws.  It registers the
    progress timer once and clears that same timer once, and the last
    thing it writes is the progress snapshot with the final status and
    value. *)
Theorem natural_command_ends_its_task r command username c :
  let result := processNaturalCommand r command username c in
  let id := generateTaskId r in
  exists ti p new,
    activeTasks (snd result) !! id = Some ti
    /\ taskProgress (snd result) !! id = Some p
    /\ match fst result with
       | Returned _ =>
           TaskInfo.status ti = "completed" /\ Progress.overall p = 100%float
       | Threw _ => TaskInfo.status ti = "failed"
       end
    /\ output (snd result) = output c ++ new
    /\ timers_set new = [interval_handle r]
    /\ timers_cleared new = [interval_handle r]
    /\ last new
       = Some (ProgressUpdate id (TaskInfo.status ti) (Progress.overall p)).
Proof.
  cbv zeta. unfold processNaturalCommand, executeWithProgressTracking.
  set (parsed := parseNaturalCommand _ command).
  set (id := generateTaskId r). set (h := interval_handle r).
  set (c0 := emit (ConsoleLog _) c).
  set (c1 := emit _ (initializeTaskTracking _ id parsed _ c0)).
  assert (Hti : exists ti, activeTasks c1 !! id = Some ti
                           /\ TaskInfo.status ti = "initialized"
                           /\ is_Some (taskProgress c1 !! id)).
  { subst c1. simpl. rewrite !lookup_insert_eq. eexists. repeat split. eauto. }
  destruct Hti as (ti0 & Hti0 & Hst0 & [p0 Hp0]).
  unfold startProgressTracking. rewrite Hti0.
  set (c2 := emit (SetInterval h) _).
  assert (H2 : tracked id "initialized" (Some h) c2).
  { subst c2. unfold tracked. simpl. rewrite lookup_insert_eq.
    eexists _, p0. repeat split; [exact Hp0 | exact Hst0]. }
  assert (O2 : output c2
               = output c
                 ++ [ConsoleLog ("Processing natural command: " +:+ command
                                 +:+ " from " +:+ username);
                     ConsoleLog ("Command analysis: " +:+ id); SetInterval h]).
  { subst c2 c1 c0. simpl. rewrite <- !app_assoc. reflexivity. }
  destruct (polls_tracked (interval_polls r) id id _ _ c2 H2)
    as (H3 & new3 & O3 & S3 & C3).
  set (c3 := fold_left _ (interval_polls r) c2) in *.
  destruct (executeParsedCommand r parsed username) as [res|err]; cbn [fst snd].
  - destruct (updateTaskStatus_terminal id "completed" 100%float h c3
                (ex_intro (fun st => tracked id st (Some h) c3) _ H3))
      as ((ti & p & Ha & Hp & Hs & Hh) & (p' & Hp' & Hv) & Ho).
    rewrite Hp in Hp'. injection Hp' as <-.
    exists ti, p. eexists. split; [exact Ha|]. split; [exact Hp|].
    split; [auto|]. rewrite Ho, O3, O2, <- !app_assoc. split; [reflexivity|].
    rewrite !timers_set_app, !timers_cleared_app, S3, C3. simpl.
    split; [reflexivity|]. split; [reflexivity|].
    rewrite Hs, Hv.
    rewrite app_comm_cons, last_app. reflexivity.
  - destruct H3 as (ti3 & p3 & Ha3 & Hp3 & Hs3 & Hh3). rewrite Hp3.
    destruct (updateTaskStatus_terminal id "failed" (Progress.overall p3) h c3)
      as ((ti & p & Ha & Hp & Hs & Hh) & (p' & Hp' & Hv) & Ho).
    { exists "initialized"%string, ti3, p3. auto. }
    rewrite Hp in Hp'. injection Hp' as <-.
    exists ti, p. eexists. split; [exact Ha|]. split; [exact Hp|].
    split; [exact Hs|]. rewrite Ho, O3, O2, <- !app_assoc. split; [reflexivity|].
    rewrite !timers_set_app, !timers_cleared_app, S3, C3. simpl.
    split; [reflexivity|]. split; [reflexivity|].
    rewrite Hs, Hv.
    rewrite app_comm_cons, last_app. reflexivity.
Qed.

(** X13. One firing of the progress interval on a task that has a
    progress entry and a history: the stored overall value is
    [calculateOverallProgress] of the stored maps, the resource and
    coordinate maps are the freshly polled ones, the history grows by
    exactly one entry that carries the poll's time and the new overall
    value, the status is unchanged, one snapshot with the new value is
    sent, and the entries of every other task are untouched. *)
Theorem progress_update_appends_one_snapshot poll taskId c taskInfo progress
    history :
  activeTasks c !! taskId = Some taskInfo ->
  taskProgress c !! taskId = Some progress ->
  taskUpdates c !! taskId = Some history ->
  let c' := updateProgress poll taskId c in
  exists progress' update,
    taskProgress c' !! taskId = Some progress'
    /\ Progress.overall progress' = calculateOverallProgress progress'
    /\ Progress.resources progress' = getResourceProgress poll taskInfo
    /\ Progress.coordinates progress' = getCoordinateProgress poll taskInfo
    /\ taskUpdates c' !! taskId = Some (history ++ [update])
    /\ Update.timestamp update = poll_now poll
    /\ Update.progress update = Progress.overall progress'
    /\ Update.botProgress update = Progress.bots progress'
    /\ (TaskInfo.status <$> activeTasks c' !! taskId)
       = Some (TaskInfo.status taskInfo)
    /\ output c'
       = output c ++ [ProgressUpdate taskId (TaskInfo.status taskInfo)
                        (Progress.overall progress')]
    /\ (forall other, other ≠ taskId ->
          activeTasks c' !! other = activeTasks c !! other
          /\ taskProgress c' !! other = taskProgress c !! other
          /\ taskUpdates c' !! other = taskUpdates c !! other).
Proof.
  intros Ha Hp Hu. cbv zeta. unfold updateProgress. rewrite Ha, Hp. cbv zeta.
  match goal with
  | |- context [storeProgressUpdate _ _ ?p2 (set_tasks (<[_ := ?ti']> _) _ _ _)] =>
      set (P2 := p2); set (TI := ti')
  end.
  assert (Hst : TaskInfo.status TI = TaskInfo.status taskInfo).
  { subst TI. destruct (_ <=? _)%float; reflexivity. }
  unfold storeProgressUpdate. cbn [taskUpdates set_tasks]. rewrite Hu.
  cbn [activeTasks taskProgress taskUpdates set_tasks].
  unfold sendProgressUpdate. cbn [activeTasks taskProgress set_tasks].
  rewrite !lookup_insert_eq.
  cbn [emit activeTasks taskProgress taskUpdates output set_tasks].
  rewrite !lookup_insert_eq. rewrite <- Hst.
  eexists P2, _. split; [reflexivity|]. split; [reflexivity|].
  split; [reflexivity|]. split; [reflexivity|]. split; [reflexivity|].
  split; [reflexivity|]. split; [reflexivity|]. split; [reflexivity|].
  split; [reflexivity|]. split; [reflexivity|].
  intros other Hne. rewrite !lookup_insert_ne by done. auto.
Qed.

Lemma progress_update_appends_one_snapshot_witness :
  exists progress' update,
    taskProgress (updateProgress poll_halfway "task_1" running_task) !! "task_1"
    = Some progress'
    /\ taskUpdates (updateProgress poll_halfway "task_1" running_task) !! "task_1"
       = Some ([] ++ [update])
    /\ Update.progress update = Progress.overall progress'.
Proof.
  destruct (progress_update_appends_one_snapshot poll_halfway "task_1" running_task
              running_task_info fresh_progress [])
    as (p & u & H1 & _ & _ & _ & H2 & _ & H3 & _);
    [vm_compute; reflexivity | vm_compute; reflexivity | vm_compute; reflexivity|].
  exists p, u. auto.
Defined.

End OrchestratorCoverage.

(** ** Further properties of the agent *)

Ltac mcompute :=
  cbv beta iota zeta delta
    [mbind mret Agent.M_bind Agent.M_ret Agent.bind Agent.ret
     Agent.get Agent.modify Agent.call Agent.throw Agent.unfinished
     Agent.when Agent.await Agent.get_pathfinder_goal
     Agent.set_pathfinder_goal Agent.try_catch Agent.detached JS.truthy
     Agent.self Agent.pathfinder_goal Agent.calls fst snd].

Ltac crank tac :=
  repeat first
    [ progress mcompute
    | progress cbn [Agent.state Agent.currentGoal Agent.targetBotToFollow
                    Agent.lastChatTime Agent.chatCooldown
                    Agent.needsBasicResources Agent.hasCraftingTable
                    Agent.requiredWoodCount Agent.followDistance Agent.name
                    Agent.canEat Agent.canSleep Agent.inventory
                    Agent.set_state Agent.set_currentGoal
                    Agent.set_lastChatTime Agent.set_hasCraftingTable
                    Agent.set_needsBasicResources Agent.set_targetBotToFollow
                    option_bind fmap option_fmap option_map
                    negb andb orb]
    | rewrite bool_decide_eq_true_2 by reflexivity
    | progress tac ].

(** *** Invariants of the control flow *)

Section Keeps.
Import Agent.
Context (I : Machine -> Prop).

Lemma keeps_ret {A} (a : A) : keeps I (ret a).
Proof. intros m H. exact H. Qed.

Lemma keeps_throw {A} e : keeps I (@throw A e).
Proof. intros m H. exact H. Qed.

Lemma keeps_unfinished {A} : keeps I (@unfinished A).
Proof. intros m H. exact H. Qed.

Lemma keeps_get {A} (f : BotProperties -> A) : keeps I (get f).
Proof. intros m H. exact H. Qed.

Lemma keeps_get_pathfinder_goal : keeps I get_pathfinder_goal.
Proof. intros m H. exact H. Qed.

Lemma keeps_bind {A B} (c : M A) (k : A -> M B) :
  keeps I c -> (forall a, keeps I (k a)) -> keeps I (bind c k).
Proof.
  intros Hc Hk m H. unfold bind. specialize (Hc m H).
  destruct (c m) as [[a|e|] m']; simpl in *; [apply Hk, Hc | exact Hc | exact Hc].
Qed.

Lemma keeps_try_catch {A} (c : M A) h :
  keeps I c -> (forall e, keeps I (h e)) -> keeps I (try_catch c h).
Proof.
  intros Hc Hh m H. unfold try_catch. specialize (Hc m H).
  destruct (c m) as [[a|e|] m']; simpl in *; [exact Hc | apply Hh, Hc | exact Hc].
Qed.

Lemma keeps_modify f : respects I f -> keeps I (modify f).
Proof. intros Hf [b pg cs] H. exact (Hf b pg cs H). Qed.

Lemma keeps_set_pathfinder_goal g : any_goal I -> keeps I (set_pathfinder_goal g).
Proof. intros Hg [b pg cs] H. exact (Hg g b pg cs H). Qed.

Lemma keeps_call allowed c : admits I allowed -> allowed c -> keeps I (call c).
Proof. intros Ha Hc [b pg cs] H. exact (Ha c b pg cs Hc H). Qed.

Lemma keeps_detached allowed (c : M unit) :
  admits I allowed -> (forall e, allowed (UnhandledRejection e)) ->
  keeps I c -> keeps I (detached c).
Proof.
  intros Ha Hr Hc m H. unfold detached. specialize (Hc m H).
  destruct (c m) as [[a|e|] [b pg cs]]; simpl in *; try exact Hc.
  exact (Ha _ b pg cs (Hr e) Hc).
Qed.

End Keeps.

Ltac kp_with leaf :=
  tr_unfold;
  lazymatch goal with
  | |- keeps _ (Agent.bind _ _) =>
      apply keeps_bind; [kp_with leaf | intro; kp_with leaf]
  | |- keeps _ (Agent.try_catch _ _) =>
      apply keeps_try_catch; [kp_with leaf | intro; kp_with leaf]
  | |- keeps _ (if ?b then _ else _) => destruct b eqn:?; kp_with leaf
  | |- keeps _ (match ?x with _ => _ end) => destruct x eqn:?; kp_with leaf
  | |- keeps _ (Agent.ret _) => apply keeps_ret
  | |- keeps _ (Agent.throw _) => apply keeps_throw
  | |- keeps _ Agent.unfinished => apply keeps_unfinished
  | |- keeps _ (Agent.get _) => apply keeps_get
  | |- keeps _ Agent.get_pathfinder_goal => apply keeps_get_pathfinder_goal
  | |- _ => leaf tt
  end.

(** The methods the tick runs, for an invariant that the field
    assignments other than [lastChatTime] respect, that admits the
    requests the tick sends, and that the chat wrapper keeps. *)
Section KeepsTick.
Import Agent.
Context (I : Machine -> Prop) (allowed : Call -> Prop).
Context (H_state : forall v, respects I (set_state v))
        (H_goal : forall v, respects I (set_currentGoal v))
        (H_table : forall v, respects I (set_hasCraftingTable v))
        (H_needs : respects I (set_needsBasicResources false))
        (H_target : forall v, respects I (set_targetBotToFollow v))
        (H_refresh : forall w, respects I (refresh w))
        (H_any_goal : any_goal I)
        (H_admits : admits I allowed)
        (H_routine : forall c, routine c -> allowed c)
        (H_equip : forall i, JS.array_includes foodItems i = true -> allowed (Equip i))
        (H_dig : forall b,
            JS.array_includes woodItems (Block.name b) = true -> allowed (Dig b))
        (H_sleep : forall b, allowed (Sleep b))
        (H_chat : forall w msg, keeps I (chat w msg)).

Ltac kp_leaf x :=
  lazymatch goal with
  | |- keeps _ (modify (set_state _)) => apply keeps_modify, H_state
  | |- keeps _ (modify (set_currentGoal _)) => apply keeps_modify, H_goal
  | |- keeps _ (modify (set_hasCraftingTable _)) => apply keeps_modify, H_table
  | |- keeps _ (modify (set_needsBasicResources false)) =>
      apply keeps_modify, H_needs
  | |- keeps _ (modify (set_targetBotToFollow _)) => apply keeps_modify, H_target
  | |- keeps _ (modify (refresh _)) => apply keeps_modify, H_refresh
  | |- keeps _ (set_pathfinder_goal _) =>
      apply keeps_set_pathfinder_goal, H_any_goal
  | |- keeps _ (call _) =>
      apply (keeps_call I allowed); [exact H_admits | try (apply H_routine; exact Logic.I)]
  | |- keeps _ (chat _ _) => apply H_chat
  | |- keeps _ (detached _) =>
      apply (keeps_detached I allowed);
      [exact H_admits | intro; apply H_routine; exact Logic.I | ]
  | |- _ => idtac
  end.

Lemma keeps_setGoal w goal : keeps I (setGoal w goal).
Proof.
  unfold setGoal, pathfinder_stop, pathfinder_setGoal. kp_with kp_leaf.
Qed.

Ltac kp_leaf2 x :=
  lazymatch goal with
  | |- keeps _ (setGoal _ _) => apply keeps_setGoal
  | |- _ => kp_leaf x
  end.

Lemma findInventoryItem_name w n item :
  findInventoryItem w n = Some item -> Item.name item = n.
Proof.
  unfold findInventoryItem. intros H. apply find_some in H as [_ H].
  apply String.eqb_eq, H.
Qed.

Lemma findFood_is_food w food :
  findFood w = Some food -> JS.array_includes foodItems (Item.name food) = true.
Proof.
  unfold findFood. intros H. apply find_some in H as [_ H].
  apply andb_true_iff in H as [H _]. exact H.
Qed.

Lemma keeps_handleEating w : keeps I (handleEating w).
Proof.
  unfold handleEating. kp_with kp_leaf2.
  apply H_equip.
  match goal with
  | H1 : findInventoryItem w _ = Some _, H2 : findFood w = Some _ |- _ =>
      rewrite (findInventoryItem_name _ _ _ H1); apply (findFood_is_food _ _ H2)
  end.
Qed.

Lemma keeps_handleSleeping w : keeps I (handleSleeping w).
Proof. unfold handleSleeping. kp_with kp_leaf2. apply H_sleep. Qed.

Lemma keeps_craft_each_tool w table tools : keeps I (craft_each_tool w table tools).
Proof.
  induction tools as [|t tools IH]; simpl; kp_with kp_leaf2. exact IH.
Qed.

Lemma keeps_craftBasicTools_then reevaluate w :
  keeps I reevaluate -> keeps I (craftBasicTools_then reevaluate w).
Proof.
  intros HR. unfold craftBasicTools_then. kp_with kp_leaf2.
  - apply keeps_craft_each_tool.
  - exact HR.
Qed.

Lemma keeps_craft_crafting_table w : keeps I (craft_crafting_table w).
Proof. unfold craft_crafting_table. kp_with kp_leaf2. Qed.

Lemma keeps_handleBasicResourceGathering_with K w :
  keeps I K -> keeps I (handleBasicResourceGathering_with K w).
Proof.
  intros HK. unfold handleBasicResourceGathering_with. cbv zeta.
  kp_with kp_leaf2.
  - apply keeps_craft_crafting_table.
  - exact HK.
Qed.

Lemma keeps_handleBasicResourceGathering later :
  forall w, keeps I (handleBasicResourceGathering later w).
Proof.
  induction later as [|w' later IH]; intros w; simpl;
    apply keeps_handleBasicResourceGathering_with, keeps_craftBasicTools_then.
  - apply keeps_unfinished.
  - apply IH.
Qed.

Lemma keeps_gatherWood later : forall w, keeps I (gatherWood later w).
Proof.
  induction later as [|w' later IH]; intros w; simpl; kp_with kp_leaf2.
  all: try apply keeps_handleBasicResourceGathering.
  all: try (apply H_dig;
            match goal with
            | H : (_ && _)%bool = true |- _ =>
                apply andb_true_iff in H as [H _]; exact H
            end).
  all: try apply keeps_unfinished.
  all: try apply IH.
  - apply (keeps_handleBasicResourceGathering [] w).
  - apply (keeps_handleBasicResourceGathering (w' :: later) w).
Qed.

Lemma keeps_clearTargetBotToFollow w : keeps I (clearTargetBotToFollow w).
Proof. unfold clearTargetBotToFollow. kp_with kp_leaf2. Qed.

Lemma keeps_setTargetBotToFollow w target : keeps I (setTargetBotToFollow w target).
Proof. unfold setTargetBotToFollow. kp_with kp_leaf2. Qed.

Lemma keeps_handleFollowing w : keeps I (handleFollowing w).
Proof.
  unfold handleFollowing. kp_with kp_leaf2.
  all: apply keeps_clearTargetBotToFollow.
Qed.

(** The tick, given that its sleeping handler keeps [I] in the tick's
    world. *)
Lemma keeps_update_given later w :
  keeps I (handleSleeping w) -> keeps I (update later w).
Proof.
  intros HS. unfold update. kp_with kp_leaf2.
  all: first [ exact HS | apply keeps_handleEating
             | apply keeps_handleBasicResourceGathering
             | apply keeps_handleFollowing | apply keeps_gatherWood ].
Qed.

Lemma keeps_tick_given later w :
  keeps I (handleSleeping w) -> keeps I (tick later w).
Proof.
  intros HS. unfold tick. kp_with kp_leaf2. apply keeps_update_given, HS.
Qed.

Lemma keeps_tick later w : keeps I (tick later w).
Proof. apply keeps_tick_given, keeps_handleSleeping. Qed.

Lemma keeps_status w pos t2 t3 : keeps I (status w pos t2 t3).
Proof. unfold status. kp_with kp_leaf2. Qed.

Lemma keeps_mineBlock w block :
  (forall n c, keeps I (announceFinding w n c)) ->
  (forall b, World.canDigBlock w b = true -> allowed (Dig b)) ->
  keeps I (mineBlock w block).
Proof.
  intros HA HD. unfold mineBlock. kp_with kp_leaf2.
  - apply HD. assumption.
  - apply HA.
Qed.

End KeepsTick.

Section AgentCoverage.
Import Agent.

(** *** What no activation changes *)

Lemma settings_kept_chat b0 w msg : keeps (settings_kept b0) (chat w msg).
Proof.
  unfold chat, mineflayerBot_chat.
  kp_with ltac:(fun _ => idtac).
  - intros [b pg cs] H. exact H.
  - intros [b pg cs] H. exact H.
Qed.

Lemma settings_kept_activation b0 a : keeps (settings_kept b0) (activate a).
Proof.
  assert (Hchat : forall w msg, keeps (settings_kept b0) (chat w msg))
    by apply settings_kept_chat.
  assert (Hadm : admits (settings_kept b0) (fun _ => True))
    by (intros c b pg cs _ H; exact H).
  assert (Hst : forall v, respects (settings_kept b0) (set_state v))
    by (intros v b pg cs H; exact H).
  assert (Hgoal : forall v, respects (settings_kept b0) (set_currentGoal v))
    by (intros v b pg cs H; exact H).
  assert (Hany : any_goal (settings_kept b0))
    by (intros g b pg cs H; exact H).
  assert (Hfound : forall w n c, keeps (settings_kept b0) (announceFinding w n c)).
  { intros w n c. unfold announceFinding. kp_with ltac:(fun _ => idtac).
    - apply Hchat.
    - intros [b pg cs] H. exact H. }
  assert (Hany_f : forall f,
             (forall b, settings (f b) = settings b
                        /\ (needsBasicResources (f b) = true ->
                            needsBasicResources b = true)) ->
             respects (settings_kept b0) f).
  { intros f Hf b pg cs [H1 H2]. destruct (Hf b) as [E1 E2].
    split; simpl; [rewrite E1; exact H1 | auto]. }
  destruct a as [later w|w msg|w pos t2 t3|w n c|w block|w target|w|w n target|w]; simpl.
  - eapply keeps_tick with (allowed := fun _ => True); eauto;
      intros; apply Hany_f; intros b; split; (reflexivity || auto).
    discriminate.
  - apply Hchat.
  - eapply keeps_status; eauto.
  - apply Hfound.
  - eapply keeps_mineBlock with (allowed := fun _ => True); eauto.
  - eapply keeps_setTargetBotToFollow; eauto;
      intros; apply Hany_f; intros b; split; (reflexivity || auto).
  - eapply keeps_clearTargetBotToFollow with (allowed := fun _ => True); eauto;
      intros; apply Hany_f; intros b; split; (reflexivity || auto).
  - unfold give, mineflayerBot_chat. kp_with ltac:(fun _ => idtac);
      intros [b pg cs] H; exact H.
  - unfold help, mineflayerBot_chat. intros [b pg cs] H; exact H.
Qed.

(** X14. No sequence of ticks and commands ([chat], [status],
    [announceFinding], [mineBlock], follow, unfollow, [give], [help])
    changes the agent's name, chat cooldown, wood threshold, [canEat],
    [canSleep] or follow distance, in any worlds and however the
    activations end; and once [needsBasicResources] is cleared no
    activation sets it again. *)
Theorem settings_survive_every_activation l m :
  let m' := activations l m in
  name (self m') = name (self m)
  /\ chatCooldown (self m') = chatCooldown (self m)
  /\ requiredWoodCount (self m') = requiredWoodCount (self m)
  /\ canEat (self m') = canEat (self m)
  /\ canSleep (self m') = canSleep (self m)
  /\ followDistance (self m') = followDistance (self m)
  /\ (needsBasicResources (self m) = false ->
      needsBasicResources (self m') = false).
Proof.
  cbv zeta.
  assert (H : settings_kept (self m) (activations l m)).
  { unfold activations.
    assert (H0 : settings_kept (self m) m) by (split; [reflexivity | auto]).
    revert H0. generalize (self m) as b0. revert m.
    induction l as [|a l IH]; intros m b0 H0; simpl; [exact H0|].
    apply IH, settings_kept_activation, H0. }
  destruct H as [H1 H2]. unfold settings in H1.
  injection H1 as -> -> -> -> -> ->. repeat split.
  intros Hn. destruct (needsBasicResources (self (activations l m))); [|reflexivity].
  rewrite H2 in Hn by reflexivity. discriminate Hn.
Qed.

Lemma settings_survive_every_activation_witness :
  needsBasicResources (self follower) = false
  /\ needsBasicResources (self (activations talkative_session follower)) = false.
Proof.
  split; [reflexivity|].
  exact (proj2 (proj2 (proj2 (proj2 (proj2 (proj2
           (settings_survive_every_activation talkative_session follower))))))
           eq_refl).
Defined.

(** *** The chat cooldown *)

Lemma chat_times_app a b : chat_times (a ++ b) = chat_times a ++ chat_times b.
Proof. apply flat_map_app. Qed.

Lemma chat_times_silent cs c : silent c -> chat_times (cs ++ [c]) = chat_times cs.
Proof.
  intros H. rewrite chat_times_app. destruct c; try (apply app_nil_r).
  destruct H.
Qed.

Lemma well_spaced_snoc cd ts t :
  well_spaced cd (ts ++ [t])
  = well_spaced cd ts
    && match last ts with Some t' => cd <? t - t' | None => true end.
Proof.
  induction ts as [|t1 ts IH]; [reflexivity|].
  destruct ts as [|t2 ts].
  - simpl. rewrite andb_true_r. reflexivity.
  - change (well_spaced cd ((t1 :: t2 :: ts) ++ [t]))
      with ((cd <? t2 - t1) && well_spaced cd ((t2 :: ts) ++ [t])).
    rewrite IH.
    change (well_spaced cd (t1 :: t2 :: ts))
      with ((cd <? t2 - t1) && well_spaced cd (t2 :: ts)).
    change (last (t1 :: t2 :: ts)) with (last (t2 :: ts)).
    rewrite andb_assoc. reflexivity.
Qed.

(** The wrapper keeps the discipline: it sends a line only when the
    cooldown has passed since [lastChatTime], and records the time. *)
Lemma chat_disciplined_chat cd w msg : keeps (chat_disciplined cd) (chat w msg).
Proof.
  intros [b pg cs] (Hcd & Hsp & Hlast). unfold chat, mineflayerBot_chat. msimpl.
  destruct (chatCooldown b <? World.Date_now w - lastChatTime b) eqn:Hgate;
    [|split; [exact Hcd | split; [exact Hsp | exact Hlast]]].
  msimpl. simpl in Hcd, Hsp, Hlast. apply Z.ltb_lt in Hgate.
  split; [exact Hcd|]. simpl.
  change (chat_times (cs ++ [Chat (World.Date_now w) msg]))
    with (flat_map (fun c => match c with Chat t _ => [t] | _ => [] end)
                   (cs ++ [Chat (World.Date_now w) msg])).
  rewrite flat_map_app. simpl. fold (chat_times cs).
  rewrite well_spaced_snoc, Hsp, last_snoc. split; [|lia].
  destruct (last (chat_times cs)) as [t'|]; [|reflexivity].
  simpl. apply Z.ltb_lt. lia.
Qed.

Lemma chat_disciplined_respects cd f :
  (forall b, chatCooldown (f b) = chatCooldown b
             /\ lastChatTime (f b) = lastChatTime b) ->
  respects (chat_disciplined cd) f.
Proof.
  intros Hf b pg cs (H1 & H2 & H3). destruct (Hf b) as [E1 E2].
  split; simpl; [rewrite E1; exact H1|]. split; [exact H2|].
  simpl in H3. rewrite E2. exact H3.
Qed.

Lemma chat_disciplined_admits cd : admits (chat_disciplined cd) silent.
Proof.
  intros c b pg cs Hc (H1 & H2 & H3). unfold chat_disciplined. simpl in *.
  rewrite chat_times_silent by exact Hc. auto.
Qed.

Lemma chat_disciplined_announceFinding cd w n c :
  keeps (chat_disciplined cd) (announceFinding w n c).
Proof.
  intros [b pg cs] H. unfold announceFinding. msimpl.
  destruct (chatCooldown b <? World.Date_now w - lastChatTime b) eqn:Hgate;
    simpl; [|exact H].
  destruct (0 <? c); simpl; [|exact H].
  destruct (negb _ || _); simpl; [|exact H].
  pose proof (chat_disciplined_chat cd w
                ("Found " +:+ pretty c +:+ " x " +:+ n +:+ "!")
                {| self := b; pathfinder_goal := pg; calls := cs |} H) as Hc.
  unfold chat, mineflayerBot_chat in *. revert Hc. msimpl. rewrite Hgate. msimpl.
  intros Hc. exact Hc.
Qed.

Lemma chat_disciplined_activation cd a :
  speaks_through_wrapper a = true -> keeps (chat_disciplined cd) (activate a).
Proof.
  intros Ha.
  assert (Hchat : forall w msg, keeps (chat_disciplined cd) (chat w msg))
    by apply chat_disciplined_chat.
  assert (Hadm := chat_disciplined_admits cd).
  assert (Hf : forall f,
             (forall b, chatCooldown (f b) = chatCooldown b
                        /\ lastChatTime (f b) = lastChatTime b) ->
             respects (chat_disciplined cd) f)
    by apply chat_disciplined_respects.
  assert (Hany : any_goal (chat_disciplined cd))
    by (intros g b pg cs H; exact H).
  assert (Hsilent : forall c, routine c -> silent c)
    by (intros []; simpl; auto).
  destruct a as [later w|w msg|w pos t2 t3|w n c|w block|w target|w|w n target|w];
    simpl; try discriminate Ha.
  - eapply keeps_tick with (allowed := silent); eauto;
      try (intros; apply Hf; intros b; split; reflexivity);
      intros; exact Logic.I.
  - apply Hchat.
  - eapply keeps_status; eauto.
  - apply chat_disciplined_announceFinding.
  - eapply keeps_mineBlock with (allowed := silent); eauto;
      try (intros; apply Hf; intros b; split; reflexivity);
      try (intros; apply chat_disciplined_announceFinding);
      intros; exact Logic.I.
  - eapply keeps_setTargetBotToFollow; eauto;
      intros; apply Hf; intros b; split; reflexivity.
  - eapply keeps_clearTargetBotToFollow with (allowed := silent); eauto;
      try (intros; apply Hf; intros b; split; reflexivity).
Qed.

(** X15. For an agent whose chat lines so far are more than the cooldown
    apart and not later than its [lastChatTime] (a new agent, for one):
    after any sequence of ticks and of the commands [chat], [status],
    [announceFinding], [mineBlock], follow and unfollow, in any worlds
    and with any clock readings, every two successive chat lines it has
    sent are more than [chatCooldown] apart.  The commands [give] and
    [help] are excluded: they do not speak through the wrapper. *)
Theorem wrapper_paths_respect_cooldown l m :
  chat_disciplined (chatCooldown (self m)) m ->
  forallb speaks_through_wrapper l = true ->
  well_spaced (chatCooldown (self m)) (chat_times (calls (activations l m))) = true.
Proof.
  intros H Hl.
  assert (G : chat_disciplined (chatCooldown (self m)) (activations l m)).
  { unfold activations. revert H. generalize (chatCooldown (self m)) as cd.
    revert m. induction l as [|a l IH]; intros m cd H; simpl; [exact H|].
    simpl in Hl. apply andb_true_iff in Hl as [Ha Hl].
    apply IH; [exact Hl|]. apply chat_disciplined_activation; assumption. }
  apply G.
Qed.

Lemma wrapper_paths_respect_cooldown_witness :
  chat_disciplined (chatCooldown (self fresh_agent)) fresh_agent
  /\ forallb speaks_through_wrapper talkative_session = true
  /\ well_spaced (chatCooldown (self fresh_agent))
       (chat_times (calls (activations talkative_session fresh_agent))) = true.
Proof.
  assert (H : chat_disciplined (chatCooldown (self fresh_agent)) fresh_agent)
    by (split; [reflexivity | split; [reflexivity | exact Logic.I]]).
  split; [exact H|]. split; [reflexivity|].
  exact (wrapper_paths_respect_cooldown talkative_session fresh_agent H eq_refl).
Defined.

(** *** What a tick asks of the world *)

Lemma only_permitted_admits cs0 : admits (only_permitted cs0) permitted.
Proof.
  intros c b pg cs Hc (new & E & H). exists (new ++ [c]). simpl in *.
  rewrite E, app_assoc. split; [reflexivity|].
  apply Forall_app. split; [exact H | repeat constructor; exact Hc].
Qed.

Lemma only_permitted_respects cs0 f : respects (only_permitted cs0) f.
Proof. intros b pg cs H. exact H. Qed.

Lemma only_permitted_chat cs0 w msg : keeps (only_permitted cs0) (chat w msg).
Proof.
  unfold chat, mineflayerBot_chat. kp_with ltac:(fun _ => idtac).
  - apply (keeps_call _ permitted); [apply only_permitted_admits | exact Logic.I].
  - apply keeps_modify, only_permitted_respects.
Qed.

(** X16. Whatever the world and the agent's state, the requests one tick
    sends (those of the re-evaluations it starts included) are all
    permitted: every block it digs is a log, every item it equips is a
    food item, and it never tosses an item. *)
Theorem tick_requests_are_permitted later w m :
  exists new,
    calls (snd (tick later w m)) = calls m ++ new /\ Forall permitted new.
Proof.
  assert (H : only_permitted (calls m) (snd (tick later w m))).
  { eapply keeps_tick with (allowed := permitted);
      try (intros; apply only_permitted_respects).
    - intros g b pg cs H. exact H.
    - apply only_permitted_admits.
    - intros []; simpl; auto; intros [].
    - intros i Hi. exact Hi.
    - intros b Hb. exact Hb.
    - intros b. exact Logic.I.
    - apply only_permitted_chat.
    - exists []. rewrite app_nil_r. split; [reflexivity | constructor]. }
  exact H.
Qed.

(** *** Navigation goals *)

(** X17. [setGoal] with a goal that is not the same as the current one.
    A stop is requested first when the pathfinder holds a goal; if it
    raises, the exception escapes and nothing is recorded.  Otherwise
    the call returns normally.  A goal the pathfinder accepts is
    recorded as [currentGoal]; when no goal was held before, it is the
    goal the pathfinder holds.  A goal it rejects leaves no current
    goal, the state [idle] and an error line.  Clearing the goal leaves
    no current goal and does not change what the pathfinder holds: the
    goal that was active has only been asked to stop.  The requests sent
    are the stop, the submission and the error line, in this order. *)
Theorem setGoal_outcome w goal m :
  same_goal (currentGoal (self m)) goal = false ->
  let r := setGoal w goal m in
  let stop := if JS.truthy (pathfinder_goal m) then [PathfinderStop] else [] in
  match pathfinder_goal m, World.pathfinder_stop w with
  | Some _, Some e =>
      r = (Throw e,
           {| self := self m; pathfinder_goal := pathfinder_goal m;
              calls := calls m ++ [PathfinderStop] |})
  | _, _ =>
      fst r = Normal tt
      /\ match goal, World.pathfinder_setGoal w with
         | Some g, None =>
             currentGoal (self (snd r)) = Some g
             /\ (pathfinder_goal m = None -> pathfinder_goal (snd r) = Some g)
             /\ state (self (snd r)) = state (self m)
             /\ calls (snd r) = calls m ++ stop ++ [PathfinderSetGoal g]
         | Some g, Some e =>
             currentGoal (self (snd r)) = None
             /\ state (self (snd r)) = idle
             /\ calls (snd r)
                = calls m ++ stop
                  ++ [PathfinderSetGoal g;
                      ConsoleError ("Error setting pathfinder goal: " +:+ e)]
         | None, _ =>
             currentGoal (self (snd r)) = None
             /\ pathfinder_goal (snd r) = pathfinder_goal m
             /\ state (self (snd r)) = state (self m)
             /\ calls (snd r) = calls m ++ stop
         end
  end.
Proof.
  intros Hs. destruct m as [b pg cs]. simpl in Hs. cbv zeta.
  unfold setGoal, pathfinder_stop, pathfinder_setGoal. msimpl. rewrite Hs.
  destruct pg as [a|]; msimpl;
    destruct (World.pathfinder_stop w) as [e|]; msimpl;
    destruct goal as [g|]; msimpl;
    try destruct (World.pathfinder_setGoal w) as [e'|]; msimpl;
    try reflexivity;
    repeat (split; try reflexivity);
    try (intros H; discriminate H);
    simpl; rewrite <- ?app_assoc, ?app_nil_r; reflexivity.
Qed.

Lemma setGoal_outcome_witness :
  same_goal (currentGoal (self fresh_agent)) (Some (new_GoalGetToBlock origin))
  = false
  /\ pathfinder_goal fresh_agent = None
  /\ pathfinder_goal
       (snd (setGoal (world_at 10000) (Some (new_GoalGetToBlock origin))
               fresh_agent))
     = Some (new_GoalGetToBlock origin).
Proof.
  split; [reflexivity|]. split; [reflexivity|].
  exact (proj1 (proj2 (proj2
           (setGoal_outcome (world_at 10000)
              (Some (new_GoalGetToBlock origin)) fresh_agent eq_refl)))
           eq_refl).
Defined.

(** *** Following *)

(** X18. A follower whose target is unset or has no entity any more
    gives up: when stopping the pathfinder cannot raise, [handleFollowing]
    returns normally with no target, the state [idle] and no current
    goal, and submits no goal.  The call does not change the goal the
    pathfinder holds: when there is one, the last request of the call
    asks the pathfinder to stop. *)
Theorem follower_gives_up_when_target_is_gone w m :
  state (self m) = following ->
  (targetBotToFollow (self m) ≫= World.peer_entity w) = None ->
  stop_is_safe w m ->
  let r := handleFollowing w m in
  fst r = Normal tt
  /\ targetBotToFollow (self (snd r)) = None
  /\ state (self (snd r)) = idle
  /\ currentGoal (self (snd r)) = None
  /\ pathfinder_goal (snd r) = pathfinder_goal m
  /\ (pathfinder_goal m <> None -> last (calls (snd r)) = Some PathfinderStop)
  /\ submissions (calls (snd r)) = submissions (calls m).
Proof.
  intros Hst Hgone Hsafe. cbv zeta. destruct m as [b pg cs].
  simpl in Hst, Hgone.
  assert (Hstop : pg = None \/ World.pathfinder_stop w = None) by exact Hsafe.
  clear Hsafe.
  unfold handleFollowing, clearTargetBotToFollow, chat, mineflayerBot_chat,
    setGoal, pathfinder_stop, same_goal.
  destruct (targetBotToFollow b) as [peer|] eqn:Ht; simpl in Hgone;
    crank ltac:(rewrite ?Hst, ?Ht, ?Hgone);
    destruct (_ <? _);
    crank ltac:(rewrite ?Hst, ?Ht, ?Hgone);
    destruct (currentGoal b);
    crank ltac:(rewrite ?Hst, ?Ht, ?Hgone);
    (destruct Hstop as [->|Hstop]; [|destruct pg]);
    crank ltac:(rewrite ?Hst, ?Ht, ?Hgone, ?Hstop);
    rewrite ?submissions_app;
    (split; [reflexivity|]); (split; [reflexivity|]); (split; [reflexivity|]);
    (split; [reflexivity|]); (split; [reflexivity|]);
    (split; [first [ intros H; exfalso; apply H; reflexivity
                   | intros _; apply last_snoc ]
            | unfold submissions; simpl; lia ]).
Qed.

Lemma follower_gives_up_when_target_is_gone_witness :
  state (self follower) = following
  /\ (targetBotToFollow (self follower) ≫= World.peer_entity world_alone) = None
  /\ stop_is_safe world_alone follower
  /\ state (self (snd (handleFollowing world_alone follower))) = idle.
Proof.
  assert (H : stop_is_safe world_alone follower) by (right; reflexivity).
  split; [reflexivity|]. split; [reflexivity|]. split; [exact H|].
  exact (proj1 (proj2 (proj2
           (follower_gives_up_when_target_is_gone world_alone follower
              eq_refl eq_refl H)))).
Defined.

(** X19. Changing the follow target while a follow goal is recorded has
    no effect on the pathfinder.  With a target that is out of follow
    distance and a current goal that is a [GoalFollow] (an object without
    a [destination]) of another entity, [handleFollowing] asks [setGoal]
    for a new [GoalFollow]; [setGoal] finds the same constructor and the
    same (absent) destination and returns at once.  The agent ends in
    the state [following] with the old goal recorded and active, and no
    request is sent. *)
Theorem retargeted_follow_keeps_old_goal w m peer pos cur :
  targetBotToFollow (self m) = Some peer ->
  World.peer_entity w peer = Some pos ->
  Qle_bool (World.distanceTo w pos) (inject_Z (followDistance (self m))) = false ->
  currentGoal (self m) = Some cur ->
  Goal.constructor cur = GoalFollow ->
  Goal.destination cur = None ->
  Goal.entity cur <> Some peer ->
  handleFollowing w m
  = (Normal tt,
     {| self := set_state following (self m);
        pathfinder_goal := pathfinder_goal m; calls := calls m |}).
Proof.
  intros Ht Hpos Hfar Hcur Hc Hd He. destruct m as [b pg cs]. simpl in *.
  unfold handleFollowing, setGoal, same_goal.
  crank ltac:(rewrite ?Ht, ?Hpos, ?Hfar, ?Hcur, ?Hc, ?Hd).
  rewrite (bool_decide_eq_false_2 _ He).
  crank ltac:(rewrite ?Ht, ?Hpos, ?Hfar, ?Hcur, ?Hc, ?Hd).
  unfold new_GoalFollow.
  crank ltac:(rewrite ?Ht, ?Hpos, ?Hfar, ?Hcur, ?Hc, ?Hd).
  reflexivity.
Qed.

Lemma retargeted_follow_keeps_old_goal_witness :
  targetBotToFollow (self retargeted_follower) = Some "Bot3"
  /\ Goal.entity follow_goal <> Some "Bot3"
  /\ pathfinder_goal (snd (handleFollowing world_with_bot3 retargeted_follower))
     = Some follow_goal
  /\ calls (snd (handleFollowing world_with_bot3 retargeted_follower)) = [].
Proof.
  assert (He : Goal.entity follow_goal <> Some "Bot3") by discriminate.
  split; [reflexivity|]. split; [exact He|].
  rewrite (retargeted_follow_keeps_old_goal world_with_bot3 retargeted_follower
             "Bot3" origin follow_goal eq_refl eq_refl eq_refl eq_refl eq_refl
             eq_refl He).
  split; reflexivity.
Defined.

(** X20. Follow, then unfollow.  [setTargetBotToFollow] with another
    agent records the target and enters the state [following] without
    touching the goal; [clearTargetBotToFollow] then (when stopping the
    pathfinder cannot raise) returns normally with no target, the state
    [idle] and no current goal.  Neither call changes the goal the
    pathfinder holds: when there is one, the last request of the second
    call asks the pathfinder to stop. *)
Theorem follow_then_unfollow w1 w2 m peer :
  peer <> name (self m) ->
  stop_is_safe w2 m ->
  let followed := snd (setTargetBotToFollow w1 (Some peer) m) in
  let released := snd (clearTargetBotToFollow w2 followed) in
  targetBotToFollow (self followed) = Some peer
  /\ state (self followed) = following
  /\ currentGoal (self followed) = currentGoal (self m)
  /\ pathfinder_goal followed = pathfinder_goal m
  /\ fst (clearTargetBotToFollow w2 followed) = Normal tt
  /\ targetBotToFollow (self released) = None
  /\ state (self released) = idle
  /\ currentGoal (self released) = None
  /\ pathfinder_goal released = pathfinder_goal m
  /\ (pathfinder_goal m <> None -> last (calls released) = Some PathfinderStop).
Proof.
  intros Hne Hsafe. destruct m as [b pg cs]. simpl in Hne.
  assert (Hstop : pg = None \/ World.pathfinder_stop w2 = None) by exact Hsafe.
  clear Hsafe. cbv zeta.
  assert (E : String.eqb peer (name b) = false) by (apply String.eqb_neq, Hne).
  unfold setTargetBotToFollow, clearTargetBotToFollow, chat, mineflayerBot_chat,
    setGoal, pathfinder_stop, same_goal.
  crank ltac:(rewrite ?E).
  destruct (_ <? _); crank ltac:(rewrite ?E);
    destruct (_ <? _); crank ltac:(rewrite ?E);
    destruct (currentGoal b); crank ltac:(rewrite ?E);
    (destruct Hstop as [->|Hstop]; [|destruct pg]);
    crank ltac:(rewrite ?E, ?Hstop);
    (split; [reflexivity|]); (split; [reflexivity|]); (split; [reflexivity|]);
    (split; [reflexivity|]); (split; [reflexivity|]); (split; [reflexivity|]);
    (split; [reflexivity|]); (split; [reflexivity|]); (split; [reflexivity|]);
    first [ intros H; exfalso; apply H; reflexivity
          | intros _; apply last_snoc ].
Qed.

Lemma follow_then_unfollow_witness :
  "Bot2" <> name (self fresh_agent)
  /\ stop_is_safe (world_at 20000) fresh_agent
  /\ state (self (snd (setTargetBotToFollow (world_at 10000) (Some "Bot2")
                         fresh_agent))) = following.
Proof.
  assert (Hne : "Bot2" <> name (self fresh_agent)) by discriminate.
  assert (H : stop_is_safe (world_at 20000) fresh_agent) by (left; reflexivity).
  split; [exact Hne|]. split; [exact H|].
  exact (proj1 (proj2 (follow_then_unfollow (world_at 10000) (world_at 20000)
                         fresh_agent "Bot2" Hne H))).
Defined.

(** X21. A request to follow the agent itself, or something that is not
    an agent, is refused: the call returns normally and the target, the
    state, the current goal and the pathfinder's goal are unchanged. *)
Theorem invalid_follow_target_is_refused w m target :
  (target = None \/ target = Some (name (self m))) ->
  let r := setTargetBotToFollow w target m in
  fst r = Normal tt
  /\ targetBotToFollow (self (snd r)) = targetBotToFollow (self m)
  /\ state (self (snd r)) = state (self m)
  /\ currentGoal (self (snd r)) = currentGoal (self m)
  /\ pathfinder_goal (snd r) = pathfinder_goal m.
Proof.
  intros H. destruct m as [b pg cs]. simpl in H. cbv zeta.
  unfold setTargetBotToFollow, chat, mineflayerBot_chat.
  destruct H as [->| ->]; crank idtac; rewrite ?String.eqb_refl; crank idtac;
    destruct (_ <? _); crank idtac; repeat split; reflexivity.
Qed.

Lemma invalid_follow_target_is_refused_witness :
  (Some "Bot1" = None \/ Some "Bot1" = Some (name (self fresh_agent)))
  /\ state (self (snd (setTargetBotToFollow (world_at 10000) (Some "Bot1")
                         fresh_agent))) = idle.
Proof.
  assert (H : Some "Bot1" = None \/ Some "Bot1" = Some (name (self fresh_agent)))
    by (right; reflexivity).
  split; [exact H|].
  exact (proj1 (proj2 (proj2
           (invalid_follow_target_is_refused (world_at 10000) fresh_agent
              (Some "Bot1") H)))).
Defined.

(** *** Survival and inventory *)

(** X22. [handleEating] always returns normally and changes nothing of
    the agent but [lastChatTime], and nothing of the pathfinder.  With
    eating switched off, no need to eat, or no food held, it does
    nothing at all.  Otherwise its first request equips the food found;
    when equipping fails the only other thing it does is write the error
    line, and when equipping succeeds the next request is to consume. *)
Theorem eating_is_guarded_and_contained w m :
  let r := handleEating w m in
  fst r = Normal tt
  /\ pathfinder_goal (snd r) = pathfinder_goal m
  /\ self (snd r) = set_lastChatTime (lastChatTime (self (snd r))) (self m)
  /\ (canEat (self m) = false \/ needsToEat (self m) = false \/ findFood w = None ->
      snd r = m)
  /\ (forall food,
        canEat (self m) = true -> needsToEat (self m) = true ->
        findFood w = Some food ->
        exists rest,
          calls (snd r) = calls m ++ Equip (Item.name food) :: rest
          /\ match World.equip w with
             | Some e => rest = [ConsoleError ("Error while eating: " +:+ e)]
             | None => exists rest', rest = Consume :: rest'
             end).
Proof.
  destruct m as [b pg cs]. cbv zeta.
  assert (Hself : forall b : BotProperties, b = set_lastChatTime (lastChatTime b) b)
    by (intros []; reflexivity).
  unfold handleEating, chat, mineflayerBot_chat.
  crank idtac.
  destruct (canEat b) eqn:Hcan; crank idtac;
    [|repeat split; auto; intros food H; discriminate H].
  destruct (needsToEat b) eqn:Hneeds; crank idtac;
    [|repeat split; auto; intros food _ H; discriminate H].
  destruct (findFood w) as [food|] eqn:Hfood; crank idtac;
    [|repeat split; auto; intros food _ _ H; discriminate H].
  assert (Hitem : exists item, findInventoryItem w (Item.name food) = Some item).
  { unfold findFood in Hfood. apply find_some in Hfood as [Hin _].
    unfold findInventoryItem.
    destruct (find (fun it => String.eqb (Item.name it) (Item.name food))
                   (World.items w)) as [item|] eqn:E; [eauto|].
    apply (find_none _ _ E) in Hin. rewrite String.eqb_refl in Hin.
    discriminate Hin. }
  destruct Hitem as [item Hitem]. rewrite Hitem.
  assert (Hname : Item.name item = Item.name food)
    by exact (findInventoryItem_name _ _ _ Hitem).
  rewrite Hname. crank idtac.
  destruct (World.equip w) as [e|]; crank idtac.
  { repeat split; auto.
    - intros [H|[H|H]]; discriminate H.
    - intros food' _ _ H. injection H as <-. eexists. rewrite <- app_assoc.
      split; reflexivity. }
  destruct (World.consume w) as [e|]; crank idtac.
  { repeat split; auto.
    - intros [H|[H|H]]; discriminate H.
    - intros food' _ _ H. injection H as <-. eexists. rewrite <- !app_assoc.
      split; [reflexivity | eexists; reflexivity]. }
  destruct (random_below w (3 # 10)); crank idtac;
    [destruct (_ <? _); crank idtac|];
    (repeat split; auto;
     [ intros [H|[H|H]]; discriminate H
     | intros food' _ _ H; injection H as <-; eexists; rewrite <- !app_assoc;
       split; [reflexivity | eexists; reflexivity] ]).
Qed.

Lemma eating_is_guarded_and_contained_witness :
  needsToEat (self fresh_agent) = false
  /\ snd (handleEating (world_at 10000) fresh_agent) = fresh_agent.
Proof.
  assert (H : needsToEat (self fresh_agent) = false) by reflexivity.
  split; [exact H|].
  exact (proj1 (proj2 (proj2 (proj2
           (eating_is_guarded_and_contained (world_at 10000) fresh_agent))))
           (or_intror (or_introl H))).
Defined.

Lemma refresh_fold items n : forall inv : gmap string Z,
  fold_left
    (fun inv it =>
       <[Item.name it := default 0 (inv !! Item.name it) + Item.count it]> inv)
    items inv !! n
  = match List.filter (fun it => String.eqb (Item.name it) n) items with
    | [] => inv !! n
    | stacks =>
        Some (default 0 (inv !! n) + fold_right Z.add 0 (map Item.count stacks))
    end.
Proof.
  induction items as [|it items IH]; intros inv; simpl; [reflexivity|].
  rewrite IH. destruct (String.eqb_spec (Item.name it) n) as [->|Hne].
  - rewrite lookup_insert_eq. simpl.
    destruct (List.filter _ items); simpl; f_equal; lia.
  - rewrite lookup_insert_ne by exact Hne. reflexivity.
Qed.

(** X23. The inventory a tick records has, for every item name held, the
    total count of the stacks of that name, and no entry for a name of
    which no stack is held; what the agent recorded before plays no
    part. *)
Theorem refresh_totals_the_stacks w b n :
  inventory (refresh w b) !! n = stacks_total (World.items w) n.
Proof.
  unfold refresh, stacks_total. cbn [inventory]. rewrite refresh_fold.
  rewrite lookup_empty. simpl.
  destruct (List.filter _ (World.items w)); reflexivity.
Qed.

(** *** The end of the resource progression *)

Lemma planner_off later w m :
  needsBasicResources (self m) = false ->
  handleBasicResourceGathering later w m = (Normal tt, m).
Proof.
  intros H. destruct m as [b pg cs]. simpl in H.
  destruct later; simpl; unfold handleBasicResourceGathering_with;
    crank ltac:(rewrite ?H); reflexivity.
Qed.

(** X24. The planner switches itself off.  For an agent that still needs
    its basic resources and holds them all (wood at the threshold, a
    crafting table in the inventory or placed nearby, both wooden
    tools), one evaluation returns normally, clears
    [needsBasicResources], leaves the state [idle], crafts nothing and
    leaves the goals alone; from then on every evaluation of the
    planner, in any world, does nothing at all. *)
Theorem planner_retires_when_geared_up later w m :
  needsBasicResources (self m) = true ->
  geared_up (self m) w ->
  let r := handleBasicResourceGathering later w m in
  fst r = Normal tt
  /\ needsBasicResources (self (snd r)) = false
  /\ state (self (snd r)) = idle
  /\ hasCraftingTable (self (snd r)) = true
  /\ currentGoal (self (snd r)) = currentGoal (self m)
  /\ pathfinder_goal (snd r) = pathfinder_goal m
  /\ craft_requests (calls (snd r)) = craft_requests (calls m)
  /\ (forall later' w',
        handleBasicResourceGathering later' w' (snd r) = (Normal tt, snd r)).
Proof.
  intros Hn (Hwood & Htable & Haxe & Hpick). destruct m as [b pg cs].
  simpl in Hn, Hwood. cbv zeta.
  assert (E : handleBasicResourceGathering later w
                {| self := b; pathfinder_goal := pg; calls := cs |}
              = chat w "Okay, I'm geared up with basic tools!"
                  {| self := set_state idle
                               (set_needsBasicResources false
                                  (set_hasCraftingTable true b));
                     pathfinder_goal := pg; calls := cs |}).
  { unfold JS.truthy in Htable, Haxe, Hpick.
    destruct later; simpl; unfold handleBasicResourceGathering_with;
      crank ltac:(rewrite ?Hn, ?Hwood, ?Htable, ?Haxe, ?Hpick); reflexivity. }
  rewrite E. unfold chat, mineflayerBot_chat. crank idtac.
  destruct (_ <? _); crank idtac;
    (split; [reflexivity|]); (split; [reflexivity|]); (split; [reflexivity|]);
    (split; [reflexivity|]); (split; [reflexivity|]); (split; [reflexivity|]);
    (split; [rewrite ?craft_requests_app, ?app_nil_r; reflexivity|]);
    intros later' w'; apply planner_off; reflexivity.
Qed.

Lemma planner_retires_when_geared_up_witness :
  needsBasicResources (self fresh_agent) = true
  /\ geared_up (self fresh_agent) world_geared_up
  /\ needsBasicResources
       (self (snd (handleBasicResourceGathering [] world_geared_up fresh_agent)))
     = false.
Proof.
  assert (H : geared_up (self fresh_agent) world_geared_up)
    by (repeat split; reflexivity).
  split; [reflexivity|]. split; [exact H|].
  exact (proj1 (proj2 (planner_retires_when_geared_up [] world_geared_up
                         fresh_agent eq_refl H))).
Defined.

(** *** Commands *)

Lemma dig_requests_app a b : dig_requests (a ++ b) = dig_requests a ++ dig_requests b.
Proof. apply flat_map_app. Qed.

(** X25. [mineBlock] on a block the connected agent can dig, in a world
    where stopping the pathfinder does not raise, returns normally.
    Within four blocks it requests exactly one dig, of that block, and
    ends in the state [idle] with no goal recorded, whether the dig
    succeeds or fails.  Farther away it requests no dig, and is left in
    the state [mining] when the pathfinder accepts goals. *)
Theorem mineBlock_digs_once_within_reach w m b :
  World.entity w = true ->
  World.canDigBlock w b = true ->
  World.pathfinder_stop w = None ->
  let r := mineBlock w (Some b) m in
  fst r = Normal tt
  /\ (Qle_bool 4 (World.distanceTo w (Block.position b)) = false ->
      state (self (snd r)) = idle
      /\ currentGoal (self (snd r)) = None
      /\ dig_requests (calls (snd r)) = dig_requests (calls m) ++ [b])
  /\ (Qle_bool 4 (World.distanceTo w (Block.position b)) = true ->
      dig_requests (calls (snd r)) = dig_requests (calls m)
      /\ (World.pathfinder_setGoal w = None -> state (self (snd r)) = mining)).
Proof.
  intros Hent Hdig Hstop. destruct m as [b0 pg cs]. cbv zeta.
  unfold mineBlock, announceFinding, chat, mineflayerBot_chat, setGoal,
    pathfinder_stop, pathfinder_setGoal.
  crank ltac:(rewrite ?Hent, ?Hdig, ?Hstop).
  destruct (same_goal (currentGoal b0) _) eqn:Hsame;
    crank ltac:(rewrite ?Hent, ?Hdig, ?Hstop);
    destruct pg as [a|]; crank ltac:(rewrite ?Hent, ?Hdig, ?Hstop);
    destruct (World.pathfinder_setGoal w) as [e|];
    crank ltac:(rewrite ?Hent, ?Hdig, ?Hstop);
    destruct (Qle_bool 4 _) eqn:Hfar;
    crank ltac:(rewrite ?Hent, ?Hdig, ?Hstop);
    try (split; [reflexivity|];
         split; [intros H; discriminate H|];
         intros _; split; [rewrite ?dig_requests_app, ?app_nil_r; reflexivity
                          | try discriminate; intros _; reflexivity]);
    unfold same_goal; destruct (currentGoal b0) as [g|];
    crank ltac:(rewrite ?Hent, ?Hdig, ?Hstop);
    destruct (World.dig w) as [e'|];
    crank ltac:(rewrite ?Hent, ?Hdig, ?Hstop);
    repeat (destruct (_ <? _)%Z; crank ltac:(rewrite ?Hent, ?Hdig, ?Hstop));
    try (destruct (negb _ || _); crank ltac:(rewrite ?Hent, ?Hdig, ?Hstop));
    repeat (destruct (_ <? _)%Z; crank ltac:(rewrite ?Hent, ?Hdig, ?Hstop));
    (split; [reflexivity|];
     split; [|intros H; discriminate H]; intros _;
     repeat split; rewrite ?dig_requests_app; simpl; rewrite ?app_nil_r;
     rewrite ?dig_requests_app; simpl; rewrite ?app_nil_r;
     reflexivity).
Qed.

Lemma mineBlock_digs_once_within_reach_witness :
  World.canDigBlock (world_at 10000) stone_block = true
  /\ Qle_bool 4 (World.distanceTo (world_at 10000) (Block.position stone_block))
     = false
  /\ dig_requests (calls (snd (mineBlock (world_at 10000) (Some stone_block)
                                 fresh_agent)))
     = dig_requests (calls fresh_agent) ++ [stone_block].
Proof.
  split; [reflexivity|]. split; [reflexivity|].
  exact (proj2 (proj2
           (proj1 (proj2
              (mineBlock_digs_once_within_reach (world_at 10000) fresh_agent
                 stone_block eq_refl eq_refl eq_refl))
              eq_refl))).
Defined.

(** X26. [status] sends one chat line at most when the clock advances
    by no more than the cooldown between its first and its last [chat].
    When the cooldown has passed since [lastChatTime] at the first
    reading, the line sent is the first one (the status line, or the
    not-ready line without an entity), the time is recorded, and the
    inventory line and the equipment line that follow are dropped by the
    cooldown.  When it has not passed at the first reading, one of the
    later lines may still go out, at a reading at which it has passed.
    When it has not passed even at the last reading, nothing is sent and
    the agent is unchanged. *)
Theorem status_sends_one_line_at_most w pos t2 t3 m :
  World.Date_now w <= t2 -> t2 <= t3 ->
  t3 - World.Date_now w <= chatCooldown (self m) ->
  let r := status w pos t2 t3 m in
  let passed t := chatCooldown (self m) <? t - lastChatTime (self m) in
  fst r = Normal tt
  /\ (exists sent,
        calls (snd r) = calls m ++ sent
        /\ (sent = []
            \/ exists t line,
                 sent = [Chat t line] /\ passed t = true
                 /\ self (snd r) = set_lastChatTime t (self m)))
  /\ (passed (World.Date_now w) = true ->
      exists line,
        calls (snd r) = calls m ++ [Chat (World.Date_now w) line]
        /\ (World.entity w = false ->
            line = "I am not currently connected or ready.")
        /\ (World.entity w = true -> exists rest, line = "Status: " +:+ rest)
        /\ self (snd r) = set_lastChatTime (World.Date_now w) (self m))
  /\ (passed t3 = false -> snd r = m).
Proof.
  intros H12 H23 Hcd. destruct m as [b pg cs]. cbv zeta. simpl in Hcd.
  cbn [self calls].
  unfold status, chat, mineflayerBot_chat, at_time. crank idtac.
  cbn [World.Date_now].
  destruct (World.entity w) eqn:Hent; crank idtac.
  - destruct (chatCooldown b <? World.Date_now w - lastChatTime b) eqn:Hgate;
      crank idtac.
    + replace (chatCooldown b <? t2 - World.Date_now w) with false
        by (symmetry; apply Z.ltb_ge; lia).
      crank idtac.
      replace (chatCooldown b <? t3 - World.Date_now w) with false
        by (symmetry; apply Z.ltb_ge; lia).
      crank idtac.
      split; [reflexivity|]. split; [|split].
      * eexists. split; [reflexivity|]. right. eexists _, _.
        split; [reflexivity|]. split; [exact Hgate | reflexivity].
      * intros _. eexists. split; [reflexivity|]. split; [discriminate|].
        split; [intros _; eexists; reflexivity | reflexivity].
      * intros H3. exfalso. apply Z.ltb_lt in Hgate. apply Z.ltb_ge in H3. lia.
    + destruct (chatCooldown b <? t2 - lastChatTime b) eqn:Hgate2; crank idtac.
      * replace (chatCooldown b <? t3 - t2) with false
          by (symmetry; apply Z.ltb_ge; lia).
        crank idtac.
        split; [reflexivity|]. split; [|split].
        -- eexists. split; [reflexivity|]. right. eexists _, _.
           split; [reflexivity|]. split; [exact Hgate2 | reflexivity].
        -- intros H. discriminate H.
        -- intros H3. exfalso. apply Z.ltb_lt in Hgate2. apply Z.ltb_ge in H3.
           lia.
      * destruct (chatCooldown b <? t3 - lastChatTime b) eqn:Hgate3; crank idtac.
        -- split; [reflexivity|]. split; [|split].
           ++ eexists. split; [reflexivity|]. right. eexists _, _.
              split; [reflexivity|]. split; [exact Hgate3 | reflexivity].
           ++ intros H. discriminate H.
           ++ intros H. discriminate H.
        -- split; [reflexivity|]. split; [|split].
           ++ exists []. rewrite app_nil_r. split; [reflexivity|]. left.
              reflexivity.
           ++ intros H. discriminate H.
           ++ intros _. reflexivity.
  - destruct (chatCooldown b <? World.Date_now w - lastChatTime b) eqn:Hgate;
      crank idtac.
    + split; [reflexivity|]. split; [|split].
      * eexists. split; [reflexivity|]. right. eexists _, _.
        split; [reflexivity|]. split; [exact Hgate | reflexivity].
      * intros _. eexists. split; [reflexivity|]. split; [intros _; reflexivity|].
        split; [discriminate | reflexivity].
      * intros H3. exfalso. apply Z.ltb_lt in Hgate. apply Z.ltb_ge in H3. lia.
    + split; [reflexivity|]. split; [|split].
      * exists []. rewrite app_nil_r. split; [reflexivity|]. left. reflexivity.
      * intros H. discriminate H.
      * intros _. reflexivity.
Qed.

Lemma status_sends_one_line_at_most_witness :
  World.Date_now (world_at 10000) <= 10001 /\ 10001 <= 10002
  /\ 10002 - World.Date_now (world_at 10000) <= chatCooldown (self fresh_agent)
  /\ fst (status (world_at 10000) origin 10001 10002 fresh_agent) = Normal tt
  /\ length (calls (snd (status (world_at 10000) origin 10001 10002 fresh_agent)))
     = 1%nat.
Proof.
  assert (H1 : World.Date_now (world_at 10000) <= 10001) by (simpl; lia).
  assert (H2 : 10001 <= 10002) by lia.
  assert (H3 : 10002 - World.Date_now (world_at 10000)
               <= chatCooldown (self fresh_agent)) by (simpl; lia).
  split; [exact H1|]. split; [exact H2|]. split; [exact H3|].
  split; [|reflexivity].
  exact (proj1 (status_sends_one_line_at_most (world_at 10000) origin 10001 10002
                  fresh_agent H1 H2 H3)).
Defined.

(** *** Sleeping *)

Lemma sleep_requests_app a b :
  sleep_requests (a ++ b) = sleep_requests a ++ sleep_requests b.
Proof. apply flat_map_app. Qed.

Lemma no_new_sleep_admits beds : admits (no_new_sleep beds) awake.
Proof.
  intros c b pg cs Hc H. unfold no_new_sleep in *. simpl in *.
  rewrite sleep_requests_app, H. destruct c; try apply app_nil_r. destruct Hc.
Qed.

Lemma no_new_sleep_respects beds f : respects (no_new_sleep beds) f.
Proof. intros b pg cs H. exact H. Qed.

Lemma no_new_sleep_chat beds w msg : keeps (no_new_sleep beds) (chat w msg).
Proof.
  unfold chat, mineflayerBot_chat. kp_with ltac:(fun _ => idtac).
  - apply (keeps_call _ awake); [apply no_new_sleep_admits | exact Logic.I].
  - apply keeps_modify, no_new_sleep_respects.
Qed.

Lemma keeps_bind_get {A B} (I : Machine -> Prop) (f : BotProperties -> A)
    (k : A -> M B) :
  (forall b, keeps I (k (f b))) -> keeps I (bind (get f) k).
Proof. intros H m Hm. unfold bind, get. apply H, Hm. Qed.

Lemma no_new_sleep_setGoal beds w goal : keeps (no_new_sleep beds) (setGoal w goal).
Proof.
  eapply keeps_setGoal with (allowed := awake);
    try (intros; apply no_new_sleep_respects).
  - intros g b pg cs H. exact H.
  - apply no_new_sleep_admits.
  - intros []; simpl; auto.
Qed.

Lemma no_new_sleep_at_night beds w :
  World.isDay w = false -> keeps (no_new_sleep beds) (handleSleeping w).
Proof.
  intros Hnight. unfold handleSleeping. tr_unfold.
  apply keeps_bind_get. intros b. unfold sleep_check. rewrite Hnight.
  destruct (World.isSleeping w) eqn:Hs; destruct (canSleep b); cbn [negb orb andb];
    kp_with ltac:(fun _ =>
      lazymatch goal with
      | |- keeps _ (chat _ _) => apply no_new_sleep_chat
      | |- keeps _ (setGoal _ _) => apply no_new_sleep_setGoal
      | |- keeps _ (modify _) => apply keeps_modify, no_new_sleep_respects
      | |- _ => idtac
      end).
Qed.

(** X27. The agent asks to sleep in daytime only.  In a world where it
    is night, a tick sends no sleep request, whatever the agent's state:
    at night the sleeping handler takes its bed-seeking branch or finds
    the bot asleep.  The request is sent in daytime: with sleeping
    enabled, by day, awake, in the state [moving_to_sleep] with no
    active goal and a bed within three blocks, [handleSleeping] requests
    sleep in that bed, once. *)
Theorem sleep_is_requested_in_daytime_only :
  (forall later w m,
      World.isDay w = false ->
      sleep_requests (calls (snd (tick later w m))) = sleep_requests (calls m))
  /\ (forall w m bed,
      canSleep (self m) = true -> World.isDay w = true ->
      World.isSleeping w = false ->
      state (self m) = moving_to_sleep -> pathfinder_goal m = None ->
      World.findBlock w (MatchId "red_bed") 3 = Some bed ->
      Qle_bool 3 (World.distanceTo w (Block.position bed)) = false ->
      sleep_requests (calls (snd (handleSleeping w m)))
      = sleep_requests (calls m) ++ [bed]).
Proof.
  split.
  - intros later w m Hnight.
    assert (H : no_new_sleep (sleep_requests (calls m)) (snd (tick later w m))).
    { eapply keeps_tick_given with (allowed := awake);
        try (intros; apply no_new_sleep_respects).
      - intros g b pg cs H. exact H.
      - apply no_new_sleep_admits.
      - intros []; simpl; auto.
      - intros i _. exact Logic.I.
      - intros b _. exact Logic.I.
      - apply no_new_sleep_chat.
      - apply no_new_sleep_at_night, Hnight.
      - reflexivity. }
    exact H.
  - intros w m bed Hcan Hday Hawake Hst Hpg Hbed Hnear.
    destruct m as [b pg cs]. simpl in Hcan, Hst, Hpg. subst pg.
    unfold handleSleeping, sleep_check, chat, mineflayerBot_chat, setGoal,
      pathfinder_stop, same_goal.
    crank ltac:(rewrite ?Hcan, ?Hday, ?Hawake, ?Hst, ?Hbed, ?Hnear).
    destruct (World.sleep w) as [e|];
      crank ltac:(rewrite ?Hcan, ?Hday, ?Hawake, ?Hst, ?Hbed, ?Hnear);
      [destruct (_ <? _);
       crank ltac:(rewrite ?Hcan, ?Hday, ?Hawake, ?Hst, ?Hbed, ?Hnear);
       destruct (currentGoal b);
       crank ltac:(rewrite ?Hcan, ?Hday, ?Hawake, ?Hst, ?Hbed, ?Hnear)|];
      rewrite ?sleep_requests_app; simpl; rewrite ?app_nil_r; reflexivity.
Qed.

Lemma sleep_is_requested_in_daytime_only_witness :
  World.isDay (at_night world_day_with_bed) = false
  /\ sleep_requests (calls (snd (tick [] (at_night world_day_with_bed) drowsy_agent)))
     = sleep_requests (calls drowsy_agent)
  /\ sleep_requests (calls (snd (handleSleeping world_day_with_bed drowsy_agent)))
     = sleep_requests (calls drowsy_agent) ++ [bed_block].
Proof.
  split; [reflexivity|]. split.
  - exact (proj1 sleep_is_requested_in_daytime_only [] (at_night world_day_with_bed)
             drowsy_agent eq_refl).
  - exact (proj2 sleep_is_requested_in_daytime_only world_day_with_bed drowsy_agent
             bed_block eq_refl eq_refl eq_refl eq_refl eq_refl eq_refl eq_refl).
Defined.

End AgentCoverage.

(** ** Properties of the server monitor *)

Section MonitorCoverage.
Import ServerStatus.

Lemma monitor_consistent_check ping now s :
  monitor_consistent s -> monitor_consistent (snd (checkServerStatus ping now s)).
Proof.
  intros (H0 & Hmax & Hon). destruct ping as [[[online max]|]|error]; simpl.
  - split; [simpl; lia|]. split; [exact Hmax|]. intros _.
    split; [reflexivity | simpl; eauto].
  - split; [exact H0|]. split; [exact Hmax | exact Hon].
  - unfold handleError. simpl. destruct (_ <=? _); simpl;
      (split; [simpl in *; lia|]; split; [exact Hmax | discriminate]).
Qed.

(** X28. After the first check and any number of interval checks,
    however each ping settles, the monitor's counters agree with its
    flag: while it reports the server online the error count is 0 and a
    check time is recorded; the error count is never negative and the
    retry limit stays 3. *)
Theorem monitor_stays_consistent host port checks :
  monitor_consistent (startMonitoring checks (constructor host port)).
Proof.
  unfold startMonitoring.
  assert (H : monitor_consistent
                (emit (Log ("Starting server monitoring for "
                        +:+ default "undefined" (serverHost (constructor host port)) +:+ ":"
                        +:+ from_option pretty "NaN" (serverPort (constructor host port))))
                   (constructor host port))).
  { split; [simpl; lia|]. split; [reflexivity | discriminate]. }
  revert H. generalize (emit (Log ("Starting server monitoring for "
                        +:+ default "undefined" (serverHost (constructor host port)) +:+ ":"
                        +:+ from_option pretty "NaN" (serverPort (constructor host port))))
                              (constructor host port)).
  induction checks as [|[ping now] checks IH]; intros s H; simpl; [exact H|].
  apply IH, monitor_consistent_check, H.
Qed.

Lemma warnings_app a b : warnings (a ++ b) = (warnings a + warnings b)%nat.
Proof. unfold warnings. rewrite List.filter_app, length_app. reflexivity. Qed.

Lemma handleError_effect e s :
  errorCount (handleError e s) = errorCount s + 1
  /\ maxRetries (handleError e s) = maxRetries s
  /\ isOnline (handleError e s) = false
  /\ lastCheck (handleError e s) = lastCheck s
  /\ warnings (output (handleError e s))
     = (warnings (output s)
        + if (maxRetries s <=? errorCount s + 1)%Z then 1 else 0)%nat.
Proof.
  assert (E : forall m,
             warnings [Error ("Server Error: " +:+ m)] = 0%nat)
    by (intros m; reflexivity).
  assert (E2 : warnings [Error "Maximum retry attempts reached. Server might be down."]
               = 1%nat) by reflexivity.
  unfold handleError. cbn [maxRetries errorCount emit].
  destruct (_ <=? _); cbn [errorCount maxRetries isOnline lastCheck output emit];
    repeat split; rewrite !warnings_app, E, ?E2; lia.
Qed.

Lemma failures_count errs : forall s,
  let s' := fold_left (fun s '(ping, now) => snd (checkServerStatus ping now s))
                      (map rejected_at errs) s in
  errorCount s' = errorCount s + Z.of_nat (length errs)
  /\ maxRetries s' = maxRetries s
  /\ (errs <> [] -> isOnline s' = false)
  /\ lastCheck s' = lastCheck s
  /\ Z.of_nat (warnings (output s'))
     = Z.of_nat (warnings (output s))
       + Z.max 0 (Z.of_nat (length errs)
                  - Z.max 0 (maxRetries s - errorCount s - 1)).
Proof.
  induction errs as [|[e now] errs IH]; intros s; cbv zeta.
  - simpl. repeat split; [lia | congruence | lia].
  - cbn [map fold_left rejected_at fst snd checkServerStatus length].
    destruct (IH (handleError e s)) as (H1 & H2 & H3 & H4 & H5).
    rewrite H1, H2, H4, H5.
    destruct (handleError_effect e s) as (E1 & E2 & E3 & E4 & E5).
    rewrite E1, E2, E4, E5.
    split; [lia|]. split; [reflexivity|]. split; [|split; [reflexivity|]].
    + intros _. destruct errs as [|x errs]; [exact E3 | apply H3; discriminate].
    + destruct (maxRetries s <=? errorCount s + 1) eqn:Hle;
        [apply Z.leb_le in Hle | apply Z.leb_gt in Hle]; lia.
Qed.

Lemma maxRetries_kept checks : forall s,
  maxRetries (fold_left (fun s '(ping, now) => snd (checkServerStatus ping now s))
                        checks s)
  = maxRetries s.
Proof.
  induction checks as [|[ping now] checks IH]; intros s; simpl; [reflexivity|].
  rewrite IH. destruct ping as [[[online max]|]|error]; simpl; try reflexivity.
  apply handleError_effect.
Qed.

(** X29. The error count is the length of the current streak of
    failures: after a successful check followed by [n] rejected pings it
    is [n], the monitor is online exactly when [n] is 0, and the last
    check time is still that of the success.  The retry warning is
    written once for each failure from the third of the streak on. *)
Theorem error_count_is_the_failure_streak host port before online max now errs :
  let recovered :=
    startMonitoring (before ++ [(Resolved (Some (online, max)), now)])
                    (constructor host port) in
  let s :=
    startMonitoring
      (before ++ (Resolved (Some (online, max)), now) :: map rejected_at errs)
      (constructor host port) in
  errorCount s = Z.of_nat (length errs)
  /\ isOnline s = bool_decide (errs = [])
  /\ lastCheck s = Some now
  /\ warnings (output s) = (warnings (output recovered) + (length errs - 2))%nat.
Proof.
  cbv zeta. unfold startMonitoring.
  set (f := fun s '(ping, now) => snd (checkServerStatus ping now s)).
  rewrite !fold_left_app.
  set (s0 := fold_left f before _).
  change (fold_left f ((Resolved (Some (online, max)), now) :: map rejected_at errs) s0)
    with (fold_left f (map rejected_at errs)
            (f s0 (Resolved (Some (online, max)), now))).
  change (fold_left f [(Resolved (Some (online, max)), now)] s0)
    with (f s0 (Resolved (Some (online, max)), now)).
  set (s1 := f s0 (Resolved (Some (online, max)), now)).
  destruct (failures_count errs s1) as (H1 & _ & H3 & H4 & H5).
  fold f in H1, H3, H4, H5. rewrite H1, H4.
  assert (Hmax : maxRetries s1 = 3).
  { subst s1 s0. simpl. apply (maxRetries_kept before). }
  assert (Hcount : errorCount s1 = 0) by reflexivity.
  split; [lia|]. split; [|split; [reflexivity|]].
  - destruct errs as [|e errs]; [reflexivity|].
    rewrite H3 by discriminate. reflexivity.
  - rewrite Hmax, Hcount in H5. lia.
Qed.

(** X30. [isServerReady] pings only when the monitor is offline.  When
    it is online the answer is [true] and nothing is checked or changed,
    however a ping would settle; when it is offline the answer is
    whether the ping made now resolves with a result. *)
Theorem ready_check_pings_only_when_offline ping now s :
  (isOnline s = true -> isServerReady ping now s = (true, s))
  /\ (isOnline s = false ->
      fst (isServerReady ping now s)
      = match ping with
        | Resolved (Some _) => true
        | _ => false
        end).
Proof.
  unfold isServerReady. split; intros H; rewrite H; simpl; [reflexivity|].
  destruct ping as [[[online max]|]|error]; simpl; [reflexivity | exact H |].
  unfold handleError. simpl. destruct (_ <=? _); reflexivity.
Qed.

Lemma ready_check_pings_only_when_offline_witness :
  isOnline (constructor (Some "localhost") (Some 25565)) = false
  /\ fst (isServerReady (Rejected connection_refused) 5
            (constructor (Some "localhost") (Some 25565))) = false.
Proof.
  split; [reflexivity|].
  exact (proj2 (ready_check_pings_only_when_offline (Rejected connection_refused) 5
                  (constructor (Some "localhost") (Some 25565))) eq_refl).
Defined.

End MonitorCoverage.

